(** * wicked: SUSE ifcfg translation and the interface object model

    A shallow embedding of the parts of [client/compat-suse.c] and
    [src/interface.c] that the specification speaks about, and the theorems
    that settle its claims against the code.

    Conventions.
    - A C string is a [string]; a [char *] that may be NULL is an
      [option string].
    - An [unsigned int] is a [Z] in [0, 2^32); where the C code truncates
      (a cast from [unsigned long], a pointer cast) the wrap-around is
      written out with [to_uint].
    - A singly linked list ([next] pointers, NULL terminated) is a [list];
      the empty list is the NULL head.
    - A function returning [ni_bool_t] after writing through its pointer
      arguments returns the flag together with the new value of what it
      wrote.
    - Functions of the library that live in other files of the repository
      (sysconfig.c, address.c, route.c, bridge.c, util.c) are the fields of
      the interface classes below; the development is generic in them, and
      reference instances are given for the concrete evaluations. *)

From Stdlib Require Import ZArith List Bool Lia Ascii String.
Import ListNotations.

Local Open Scope string_scope.
Local Open Scope Z_scope.

(* ================================================================== *)
(** * Part I. Definitions                                              *)
(* ================================================================== *)

(** ** The C library functions the code calls *)

Module Libc.

Definition code (c : ascii) : Z := Z.of_N (N_of_ascii c).

Definition isdigit (c : ascii) : bool := (48 <=? code c) && (code c <=? 57).
Definition isupper (c : ascii) : bool := (65 <=? code c) && (code c <=? 90).
Definition islower (c : ascii) : bool := (97 <=? code c) && (code c <=? 122).
Definition isalpha (c : ascii) : bool := isupper c || islower c.
Definition isalnum (c : ascii) : bool := isalpha c || isdigit c.

(** space, and the control characters \t \n \v \f \r *)
Definition isspace (c : ascii) : bool :=
  (code c =? 32) || ((9 <=? code c) && (code c <=? 13)).

Definition tolower (c : ascii) : ascii :=
  if isupper c then ascii_of_N (Z.to_N (code c + 32)) else c.

(** [strcmp a b == 0] *)
Definition streq (a b : string) : bool := String.eqb a b.

(** [strcasecmp a b == 0] *)
Fixpoint strcaseeq (a b : string) : bool :=
  match a, b with
  | EmptyString, EmptyString => true
  | String x a', String y b' =>
      Ascii.eqb (tolower x) (tolower y) && strcaseeq a' b'
  | _, _ => false
  end.

(** The lower-case form that [strcasecmp] compares. *)
Fixpoint lower (s : string) : string :=
  match s with
  | EmptyString => EmptyString
  | String c r => String (tolower c) (lower r)
  end.

Definition mem_char (c : ascii) (set : string) : bool :=
  existsb (Ascii.eqb c) (list_ascii_of_string set).

(** [s[strcspn(s, reject)] = '\0']: the text before the first character of
    [reject].  A NUL byte read from a file ends the C string as well. *)
Fixpoint cut_at (reject : string) (s : string) : string :=
  match s with
  | EmptyString => EmptyString
  | String c r =>
      if mem_char c reject || (code c =? 0) then EmptyString
      else String c (cut_at reject r)
  end.

(** The tokens that successive calls of [strtok] / [strtok_r] return on
    [s]: the maximal runs of characters outside [delim], in order.
    [cur] is the token being read. *)
Fixpoint strtok_from (delim : string) (cur : string) (s : string)
  : list string :=
  match s with
  | EmptyString =>
      match cur with EmptyString => [] | _ => [cur] end
  | String c r =>
      if mem_char c delim then
        match cur with
        | EmptyString => strtok_from delim EmptyString r
        | _ => cur :: strtok_from delim EmptyString r
        end
      else strtok_from delim (cur ++ String c EmptyString) r
  end.

Definition strtok_all (delim : string) (s : string) : list string :=
  strtok_from delim EmptyString s.

(** [strchr(s, c)] followed by [*sp++ = '\0']: the text before the first
    [c] and, when there is one, the text after it. *)
Fixpoint split_at_char (c : ascii) (s : string) : string * option string :=
  match s with
  | EmptyString => (EmptyString, None)
  | String x r =>
      if Ascii.eqb x c then (EmptyString, Some r)
      else let '(h, t) := split_at_char c r in (String x h, t)
  end.

Definition UINT_MAX : Z := 4294967295.
Definition ULONG_MAX : Z := 18446744073709551615.

(** A cast to [unsigned int]. *)
Definition to_uint (z : Z) : Z := z mod 4294967296.

(** The value of a digit character in a base up to 36. *)
Definition digit_value (c : ascii) : option Z :=
  if isdigit c then Some (code c - 48)
  else if islower c then Some (code c - 97 + 10)
  else if isupper c then Some (code c - 65 + 10)
  else None.

(** Reads the longest run of digits of [base]; gives the value read so far,
    whether a digit was read at all, and the text left. *)
Fixpoint read_digits (base : Z) (acc : Z) (seen : bool) (s : string)
  : Z * bool * string :=
  match s with
  | EmptyString => (acc, seen, s)
  | String c r =>
      match digit_value c with
      | Some d =>
          if d <? base then read_digits base (acc * base + d) true r
          else (acc, seen, s)
      | None => (acc, seen, s)
      end
  end.

Fixpoint skip_space (s : string) : string :=
  match s with
  | String c r => if isspace c then skip_space r else s
  | EmptyString => s
  end.

Definition is_hex_prefix (s : string) : option string :=
  match s with
  | String c0 (String c1 (String c2 r)) =>
      if (code c0 =? 48) && (code (tolower c1) =? 120)
         && match digit_value c2 with Some d => d <? 16 | None => false end
      then Some (String c2 r) else None
  | _ => None
  end.

(** [strtoul(s, &end, base)] for [base] 0, 8, 10 or 16 on an LP64 system:
    the value and the text at [end].  No digits: 0 and [end = s]. *)
Definition strtoul (s : string) (base : Z) : Z * string :=
  let s1 := skip_space s in
  let '(neg, s2) :=
    match s1 with
    | String c r =>
        if code c =? 45 then (true, r)
        else if code c =? 43 then (false, r)
        else (false, s1)
    | EmptyString => (false, s1)
    end in
  let '(b, s3) :=
    if (base =? 0) || (base =? 16) then
      match is_hex_prefix s2 with
      | Some r => (16, r)
      | None =>
          if base =? 16 then (16, s2)
          else match s2 with
               | String c _ => if code c =? 48 then (8, s2) else (10, s2)
               | EmptyString => (10, s2)
               end
      end
    else (base, s2) in
  let '(v, seen, rest) := read_digits b 0 false s3 in
  if negb seen then (0, s)
  else if ULONG_MAX <? v then (ULONG_MAX, rest)
  else if neg then ((ULONG_MAX + 1 - v) mod (ULONG_MAX + 1), rest)
  else (v, rest).

End Libc.

Import Libc.

(** [ni_string_eq]: two possibly-NULL strings are equal when both are NULL
    or both have the same text. *)
Definition ni_string_eq (a b : option string) : bool :=
  match a, b with
  | None, None => true
  | Some x, Some y => streq x y
  | _, _ => false
  end.

(** [ni_string_eq_nocase] *)
Definition ni_string_eq_nocase (a b : option string) : bool :=
  match a, b with
  | None, None => true
  | Some x, Some y => strcaseeq x y
  | _, _ => false
  end.

(** Space and tab, the delimiters of the [strtok] calls. *)
Definition blank_chars : string := String " " (String "009" EmptyString).

(** A double quote, for the messages that quote a value. *)
Definition dquote : string := String "034" EmptyString.

(* ------------------------------------------------------------------ *)
(** ** Constants of the system and library headers *)

Definition AF_UNSPEC : Z := 0.
Definition AF_INET : Z := 2.
Definition AF_INET6 : Z := 10.

(** [IFNAMSIZ] of <net/if.h>. *)
Definition IFNAMSIZ : nat := 16.

(** [ni_iftype_t].  The enumeration is declared in a header of the library;
    its members are numbered here in the order in which [__linktype_names]
    (names.c) lists them, from [NI_IFTYPE_UNKNOWN] = 0. *)
Definition NI_IFTYPE_UNKNOWN : Z := 0.
Definition NI_IFTYPE_LOOPBACK : Z := 1.
Definition NI_IFTYPE_ETHERNET : Z := 2.
Definition NI_IFTYPE_BRIDGE : Z := 3.
Definition NI_IFTYPE_BOND : Z := 4.
Definition NI_IFTYPE_VLAN : Z := 5.
Definition NI_IFTYPE_WIRELESS : Z := 6.
Definition NI_IFTYPE_INFINIBAND : Z := 7.
Definition NI_IFTYPE_PPP : Z := 8.
Definition NI_IFTYPE_SLIP : Z := 9.
Definition NI_IFTYPE_SIT : Z := 10.
Definition NI_IFTYPE_GRE : Z := 11.
Definition NI_IFTYPE_ISDN : Z := 12.
Definition NI_IFTYPE_TUNNEL : Z := 13.
Definition NI_IFTYPE_TUNNEL6 : Z := 14.
Definition NI_IFTYPE_TUN : Z := 15.
Definition NI_IFTYPE_TAP : Z := 16.
Definition NI_IFTYPE_DUMMY : Z := 17.

(** [ni_addrconf_mode_t], the members that [__addrconf_names] (names.c)
    lists. *)
Inductive ni_addrconf_mode_t : Type :=
| NI_ADDRCONF_DHCP
| NI_ADDRCONF_STATIC
| NI_ADDRCONF_AUTOCONF
| NI_ADDRCONF_IBFT.

Definition addrconf_mode_eqb (a b : ni_addrconf_mode_t) : bool :=
  match a, b with
  | NI_ADDRCONF_DHCP, NI_ADDRCONF_DHCP
  | NI_ADDRCONF_STATIC, NI_ADDRCONF_STATIC
  | NI_ADDRCONF_AUTOCONF, NI_ADDRCONF_AUTOCONF
  | NI_ADDRCONF_IBFT, NI_ADDRCONF_IBFT => true
  | _, _ => false
  end.

(** Modelled from the spec: [NI_IFWORKER_INFINITE_TIMEOUT] (fsm.h), the
    "infinite" value of a timeout held in an [unsigned int]; the largest
    value is taken for it. *)
Definition NI_IFWORKER_INFINITE_TIMEOUT : Z := UINT_MAX.

(** Modelled from the spec: the value a bridge port's priority and path cost
    hold while "at their default" (bridge.h); the largest [unsigned int] is
    taken for it. *)
Definition NI_BRIDGE_VALUE_NOT_SET : Z := UINT_MAX.

(* ------------------------------------------------------------------ *)
(** ** The object model: addresses, routes, leases, interfaces *)

(** [ni_sockaddr_t]: the family and the raw address bytes, read as one
    big-endian number (32 bits for IPv4, 128 for IPv6).  [memset] to zero
    gives [sockaddr_zero]. *)
Record ni_sockaddr_t : Type := mk_sockaddr {
  ss_family : Z;
  sa_addr : Z
}.

Definition sockaddr_zero : ni_sockaddr_t := mk_sockaddr AF_UNSPEC 0.

Definition sockaddr_eqb (a b : ni_sockaddr_t) : bool :=
  (ss_family a =? ss_family b) && (sa_addr a =? sa_addr b).

(** [ni_address_t] *)
Record ni_address_t : Type := mk_address {
  addr_family : Z;
  addr_prefixlen : Z;
  local_addr : ni_sockaddr_t;
  peer_addr : ni_sockaddr_t;
  anycast_addr : ni_sockaddr_t;
  bcast_addr : ni_sockaddr_t;
  addr_expires : Z
}.

(** [ni_route_t], with its next hop [nh] written out. *)
Record ni_route_t : Type := mk_route {
  route_family : Z;
  route_prefixlen : Z;
  destination : ni_sockaddr_t;
  nh_gateway : ni_sockaddr_t;
  nh_device : option string;
  route_expires : Z
}.

(** [ni_addrconf_lease_t] *)
Record ni_addrconf_lease_t : Type := mk_lease {
  lease_type : ni_addrconf_mode_t;
  lease_family : Z;
  lease_owner : option string;
  lease_addrs : list ni_address_t;
  lease_routes : list ni_route_t
}.

(** [ni_bridge_port_t] and [ni_bridge_t].  [D] is the type of the four
    time intervals (C [double]s); their arithmetic plays no role here. *)
Record ni_bridge_port_t : Type := mk_port {
  port_ifname : string;
  port_priority : Z;
  port_path_cost : Z
}.

Record ni_bridge_t (D : Type) : Type := mk_bridge {
  stp : bool;
  bridge_priority : Z;
  ageing_time : D;
  forward_delay : D;
  hello_time : D;
  max_age : D;
  ports : list ni_bridge_port_t
}.
Arguments mk_bridge {D}.
Arguments stp {D}.
Arguments bridge_priority {D}.
Arguments ageing_time {D}.
Arguments forward_delay {D}.
Arguments hello_time {D}.
Arguments max_age {D}.
Arguments ports {D}.

(** [ni_netdev_t], the fields the translation writes. *)
Record ni_netdev_t (D : Type) : Type := mk_netdev {
  name : string;
  link_type : Z;
  link_mtu : Z;
  bridge : option (ni_bridge_t D);
  addrs : list ni_address_t;
  routes : list ni_route_t;
  leases : list ni_addrconf_lease_t
}.
Arguments mk_netdev {D}.
Arguments name {D}.
Arguments link_type {D}.
Arguments link_mtu {D}.
Arguments bridge {D}.
Arguments addrs {D}.
Arguments routes {D}.
Arguments leases {D}.

(** Modelled from the spec: [ni_ifworker_control_t] (fsm.h), the control
    policy derived from the start mode: link class, require-link string or
    none, mandatory flag, boot-is-persistent flag, timeout.  The fields are
    in the order of the initialisers in [__ni_suse_control_params]. *)
Record ni_ifworker_control_t : Type := mk_control {
  link_class : option string;
  require_link : option string;
  mandatory : bool;
  persistent : bool;
  timeout : Z
}.

(** The DHCP request parameters of [ni_compat_netdev_t]. *)
Record dhcp4_config : Type := mk_dhcp4 {
  dhcp4_enabled : bool;
  dhcp4_hostname : option string;
  dhcp4_client_id : option string;
  dhcp4_vendor_class : option string;
  dhcp4_acquire_timeout : Z;
  dhcp4_lease_time : Z
}.

Record dhcp6_config : Type := mk_dhcp6 {
  dhcp6_enabled : bool
}.

(** [ni_compat_netdev_t] *)
Record ni_compat_netdev_t (D : Type) : Type := mk_compat {
  dev : ni_netdev_t D;
  control : option ni_ifworker_control_t;
  dhcp4 : dhcp4_config;
  dhcp6 : dhcp6_config
}.
Arguments mk_compat {D}.
Arguments dev {D}.
Arguments control {D}.
Arguments dhcp4 {D}.
Arguments dhcp6 {D}.

(** [ni_var_t]: a variable of a sysconfig file. *)
Record ni_var_t : Type := mk_var {
  var_name : string;
  var_value : option string
}.

(* ------------------------------------------------------------------ *)
(** ** Interfaces of the library code that is called *)

(** sysconfig.c: reading a [KEY=value] file and looking variables up.
    [ni_sysconfig_get_boolean] and [ni_sysconfig_get_integer] give [None]
    where the C function returns 0 and leaves its result alone.
    [ni_sysconfig_find_matching] gives the truth value of its return value
    and the names it collected.  [ni_sysconfig_value_address] is the
    numeric value of the pointer that [ni_sysconfig_get_value] returns. *)
Class SysconfigOps : Type := {
  ni_sysconfig_t : Type;
  pathname : ni_sysconfig_t -> string;
  ni_sysconfig_get : ni_sysconfig_t -> string -> option ni_var_t;
  ni_sysconfig_get_value : ni_sysconfig_t -> string -> option string;
  ni_sysconfig_value_address : ni_sysconfig_t -> string -> Z;
  ni_sysconfig_get_boolean : ni_sysconfig_t -> string -> option bool;
  ni_sysconfig_get_integer : ni_sysconfig_t -> string -> option Z;
  ni_sysconfig_find_matching : ni_sysconfig_t -> string -> bool * list string
}.

(** address.c and route.c.  A parser gives [None] where the C function
    reports failure.  [ni_address_list_find] tells whether an address of
    the list has the given local address.  [ni_route_new] gives the route it
    builds, which the caller's list receives at its end, or [None] where it
    returns NULL. *)
Class AddressOps : Type := {
  ni_sockaddr_parse : string -> Z -> option ni_sockaddr_t;
  ni_sockaddr_prefix_parse : string -> option (ni_sockaddr_t * Z);
  ni_sockaddr_netmask_bits : ni_sockaddr_t -> Z;
  ni_address_equal : ni_sockaddr_t -> ni_sockaddr_t -> bool;
  ni_address_prefix_match : Z -> ni_sockaddr_t -> ni_sockaddr_t -> bool;
  ni_address_can_reach : ni_address_t -> ni_sockaddr_t -> bool;
  ni_address_list_find : list ni_address_t -> ni_sockaddr_t -> bool;
  ni_address_list_dedup : list ni_address_t -> list ni_address_t;
  ni_route_new : Z -> ni_sockaddr_t -> ni_sockaddr_t -> option ni_route_t
}.

(** util.c and bridge.c: number parsing and the bridge object. *)
Class BridgeOps (D : Type) : Type := {
  ni_parse_int : string -> Z -> option Z;
  ni_parse_double : string -> option D;
  ni_bridge_new : ni_bridge_t D;
  ni_bridge_validate : ni_bridge_t D -> option string
}.

(* ------------------------------------------------------------------ *)
(** ** Record updates *)

Section Updates.
Context {D : Type}.

Definition with_link_type (ifp : ni_netdev_t D) (t : Z) : ni_netdev_t D :=
  mk_netdev (name ifp) t (link_mtu ifp) (bridge ifp) (addrs ifp)
            (routes ifp) (leases ifp).

Definition with_bridge (ifp : ni_netdev_t D) (b : option (ni_bridge_t D))
  : ni_netdev_t D :=
  mk_netdev (name ifp) (link_type ifp) (link_mtu ifp) b (addrs ifp)
            (routes ifp) (leases ifp).

Definition with_addrs (ifp : ni_netdev_t D) (l : list ni_address_t)
  : ni_netdev_t D :=
  mk_netdev (name ifp) (link_type ifp) (link_mtu ifp) (bridge ifp) l
            (routes ifp) (leases ifp).

Definition with_routes (ifp : ni_netdev_t D) (l : list ni_route_t)
  : ni_netdev_t D :=
  mk_netdev (name ifp) (link_type ifp) (link_mtu ifp) (bridge ifp)
            (addrs ifp) l (leases ifp).

Definition with_leases (ifp : ni_netdev_t D) (l : list ni_addrconf_lease_t)
  : ni_netdev_t D :=
  mk_netdev (name ifp) (link_type ifp) (link_mtu ifp) (bridge ifp)
            (addrs ifp) (routes ifp) l.

Definition with_dev (c : ni_compat_netdev_t D) (ifp : ni_netdev_t D)
  : ni_compat_netdev_t D :=
  mk_compat ifp (control c) (dhcp4 c) (dhcp6 c).

Definition with_control (c : ni_compat_netdev_t D)
  (p : ni_ifworker_control_t) : ni_compat_netdev_t D :=
  mk_compat (dev c) (Some p) (dhcp4 c) (dhcp6 c).

Definition with_dhcp4 (c : ni_compat_netdev_t D) (d : dhcp4_config)
  : ni_compat_netdev_t D :=
  mk_compat (dev c) (control c) d (dhcp6 c).

Definition with_dhcp6 (c : ni_compat_netdev_t D) (d : dhcp6_config)
  : ni_compat_netdev_t D :=
  mk_compat (dev c) (control c) (dhcp4 c) d.

Definition with_stp (b : ni_bridge_t D) (v : bool) : ni_bridge_t D :=
  mk_bridge v (bridge_priority b) (ageing_time b) (forward_delay b)
            (hello_time b) (max_age b) (ports b).

Definition with_bridge_priority (b : ni_bridge_t D) (v : Z) : ni_bridge_t D :=
  mk_bridge (stp b) v (ageing_time b) (forward_delay b)
            (hello_time b) (max_age b) (ports b).

Definition with_ageing_time (b : ni_bridge_t D) (v : D) : ni_bridge_t D :=
  mk_bridge (stp b) (bridge_priority b) v (forward_delay b)
            (hello_time b) (max_age b) (ports b).

Definition with_forward_delay (b : ni_bridge_t D) (v : D) : ni_bridge_t D :=
  mk_bridge (stp b) (bridge_priority b) (ageing_time b) v
            (hello_time b) (max_age b) (ports b).

Definition with_hello_time (b : ni_bridge_t D) (v : D) : ni_bridge_t D :=
  mk_bridge (stp b) (bridge_priority b) (ageing_time b) (forward_delay b)
            v (max_age b) (ports b).

Definition with_max_age (b : ni_bridge_t D) (v : D) : ni_bridge_t D :=
  mk_bridge (stp b) (bridge_priority b) (ageing_time b) (forward_delay b)
            (hello_time b) v (ports b).

Definition with_ports (b : ni_bridge_t D) (l : list ni_bridge_port_t)
  : ni_bridge_t D :=
  mk_bridge (stp b) (bridge_priority b) (ageing_time b) (forward_delay b)
            (hello_time b) (max_age b) l.

End Updates.

Definition with_port_priority (p : ni_bridge_port_t) (v : Z)
  : ni_bridge_port_t :=
  mk_port (port_ifname p) v (port_path_cost p).

Definition with_port_path_cost (p : ni_bridge_port_t) (v : Z)
  : ni_bridge_port_t :=
  mk_port (port_ifname p) (port_priority p) v.

Definition with_nh_device (rp : ni_route_t) (d : option string) : ni_route_t :=
  mk_route (route_family rp) (route_prefixlen rp) (destination rp)
           (nh_gateway rp) d (route_expires rp).

Definition with_bcast_addr (ap : ni_address_t) (a : ni_sockaddr_t)
  : ni_address_t :=
  mk_address (addr_family ap) (addr_prefixlen ap) (local_addr ap)
             (peer_addr ap) (anycast_addr ap) a (addr_expires ap).

Definition with_peer_addr (ap : ni_address_t) (a : ni_sockaddr_t)
  : ni_address_t :=
  mk_address (addr_family ap) (addr_prefixlen ap) (local_addr ap)
             a (anycast_addr ap) (bcast_addr ap) (addr_expires ap).

Definition with_ss_family (a : ni_sockaddr_t) (f : Z) : ni_sockaddr_t :=
  mk_sockaddr f (sa_addr a).

(** [array.data[i] = f (array.data[i])] for an index inside the array. *)
Fixpoint update_nth {A : Type} (i : nat) (f : A -> A) (l : list A) : list A :=
  match l, i with
  | [], _ => []
  | x :: r, O => f x :: r
  | x :: r, S j => x :: update_nth j f r
  end.

(** [s + n]: the text from the [n]-th character on. *)
Fixpoint string_drop (n : nat) (s : string) : string :=
  match n, s with
  | O, _ => s
  | S m, String _ r => string_drop m r
  | S _, EmptyString => EmptyString
  end.

(* ------------------------------------------------------------------ *)
(** ** Object constructors *)

(** [__ni_interface_new] (interface.c): a fresh interface of unknown link
    type, with no address, route or lease. *)
Definition __ni_interface_new {D : Type} (ifname : string) (index : Z)
  : ni_netdev_t D :=
  mk_netdev ifname NI_IFTYPE_UNKNOWN 0 None [] [] [].

(** [ni_compat_netdev_new] (compat-suse.c): [calloc] and a fresh device. *)
Definition ni_compat_netdev_new {D : Type} (ifname : string)
  : ni_compat_netdev_t D :=
  mk_compat (__ni_interface_new ifname 0) None
            (mk_dhcp4 false None None None 0 0) (mk_dhcp6 false).

(** Modelled from the spec: [ni_address_new] (address.c) builds an address
    record of the given family, prefix length and local address, everything
    else zero; the caller's list receives it at its end. *)
Definition ni_address_new (af : Z) (prefixlen : Z) (local : ni_sockaddr_t)
  : ni_address_t :=
  mk_address af prefixlen local sockaddr_zero sockaddr_zero sockaddr_zero 0.

(** Modelled from the spec: [ni_bridge_port_new] (bridge.c) appends a port of
    the given name, priority and path cost at their defaults. *)
Definition ni_bridge_port_new {D : Type} (b : ni_bridge_t D) (ifname : string)
  : ni_bridge_t D :=
  with_ports b (ports b ++
                [mk_port ifname NI_BRIDGE_VALUE_NOT_SET NI_BRIDGE_VALUE_NOT_SET]).

(** Modelled from the spec: [ni_af_sockaddr_info] (address.c) gives the
    length in bytes of an address of the family, "the full address width"
    (4 for IPv4, 16 for IPv6), and fails for any other family. *)
Definition ni_af_sockaddr_info (af : Z) : option Z :=
  if af =? AF_INET then Some 4
  else if af =? AF_INET6 then Some 16
  else None.

(** Modelled from the spec: [ni_af_address_length] (address.c), the same
    width, 0 for an unknown family. *)
Definition ni_af_address_length (af : Z) : Z :=
  match ni_af_sockaddr_info af with Some len => len | None => 0 end.

(* ------------------------------------------------------------------ *)
(** ** compat-suse.c: names and start modes *)

(** [__ni_suse_valid_ifname] *)
Definition ifname_char_ok (c : ascii) : bool :=
  isalnum c || (code c =? 45) || (code c =? 95) || (code c =? 46).

Definition __ni_suse_valid_ifname (ifname : string) : bool :=
  match ifname with
  | EmptyString => false
  | String c0 rest =>
      if (IFNAMSIZ <=? String.length ifname)%nat then false
      else if negb (isalnum c0) then false
      else forallb ifname_char_ok (list_ascii_of_string rest)
  end.

(** The table [__ni_suse_control_params] of [__ni_suse_startmode]. *)
Definition __ni_suse_control_params : list (string * ni_ifworker_control_t) :=
  [ ("manual",  mk_control None None true false 30);
    ("auto",    mk_control (Some "boot") None false true 30);
    ("boot",    mk_control (Some "boot") None false true 30);
    ("onboot",  mk_control (Some "boot") None false true 30);
    ("on",      mk_control (Some "boot") None false true 30);
    ("hotplug", mk_control (Some "boot") None false false 30);
    ("ifplugd", mk_control (Some "ignore") None false false 30);
    ("nfsroot", mk_control (Some "boot") (Some "localfs") true true
                           NI_IFWORKER_INFINITE_TIMEOUT);
    ("off",     mk_control (Some "off") None false false 0) ].

(** The loop of [__ni_suse_startmode]: the first entry named [mode]. *)
Fixpoint find_control_params (table : list (string * ni_ifworker_control_t))
  (mode : string) : option ni_ifworker_control_t :=
  match table with
  | [] => None
  | (pname, pcontrol) :: rest =>
      if ni_string_eq (Some pname) (Some mode) then Some pcontrol
      else find_control_params rest mode
  end.

(** [__ni_suse_startmode] *)
Definition __ni_suse_startmode (mode : option string) : ni_ifworker_control_t :=
  let params :=
    match mode with
    | Some m => find_control_params __ni_suse_control_params m
    | None => None
    end in
  match params with
  | Some c => c
  | None => snd (nth 0 __ni_suse_control_params
                     (EmptyString, mk_control None None false false 0))
  end.

(* ------------------------------------------------------------------ *)
(** ** compat-suse.c: the link type recognizers *)

(** A step of a recognizer either lets execution continue with the state
    it has written so far, or logs an error with [ni_error] and makes the
    recognizer return FALSE; what was written before stays written. *)
Inductive outcome (S : Type) : Type :=
| Go (s : S)
| Stop (s : S) (msg : string).
Arguments Go {S}.
Arguments Stop {S}.

Definition and_then {S : Type} (o : outcome S) (f : S -> outcome S)
  : outcome S :=
  match o with
  | Go s => f s
  | Stop s msg => Stop s msg
  end.

Notation "o >>= f" := (and_then o f) (at level 50, left associativity).

Section Recognizers.
Context {D : Type} {SO : SysconfigOps} {BO : BridgeOps D}.

(** [__find_indexed_variable]: the name is formatted into a buffer of 64
    bytes, so at most 63 characters of it are looked up; a variable with an
    empty value counts as absent. *)
Definition __find_indexed_variable (sc : ni_sysconfig_t)
  (basename suffix : string) : option ni_var_t :=
  let namebuf := substring 0 63 (basename ++ suffix) in
  match ni_sysconfig_get sc namebuf with
  | Some res =>
      match var_value res with
      | None => None
      | Some EmptyString => None
      | Some _ => Some res
      end
  | None => None
  end.

(** [var->value] of a variable that [__find_indexed_variable] returned. *)
Definition value_text (var : ni_var_t) : string :=
  match var_value var with Some v => v | None => EmptyString end.

(** [try_loopback] *)
Definition try_loopback (sc : ni_sysconfig_t) (ifp : ni_netdev_t D)
  : bool * ni_netdev_t D :=
  if negb (streq (name ifp) "lo") then (false, ifp)
  else (true, with_link_type ifp NI_IFTYPE_LOOPBACK).

(** [try_ethernet] *)
Definition try_ethernet (sc : ni_sysconfig_t) (ifp : ni_netdev_t D)
  : bool * ni_netdev_t D :=
  match ni_sysconfig_get_value sc "ETHTOOL_OPTIONS" with
  | Some _ => (true, with_link_type ifp NI_IFTYPE_ETHERNET)
  | None => (true, ifp)
  end.

(** [try_wireless]: the flag, the device and the warning logged. *)
Definition try_wireless (sc : ni_sysconfig_t) (ifp : ni_netdev_t D)
  : bool * ni_netdev_t D * list string :=
  match ni_sysconfig_get sc "WIRELESS_ESSID" with
  | None => (false, ifp, [])
  | Some _ =>
      (true, with_link_type ifp NI_IFTYPE_WIRELESS,
       ["ifcfg-" ++ name ifp
        ++ ": conversion of wireless interfaces not yet supported"])
  end.

(** The table [__tunnel_types] of [try_tunnel]. *)
Definition __tunnel_types : list (string * Z) :=
  [ ("tun", NI_IFTYPE_TUN);
    ("tap", NI_IFTYPE_TAP);
    ("sit", NI_IFTYPE_SIT);
    ("gre", NI_IFTYPE_GRE);
    ("ipip", NI_IFTYPE_TUNNEL);
    ("ip6tnl", NI_IFTYPE_TUNNEL6) ].

(** The loop of [try_tunnel] over the table: on the first entry whose name
    is [value] the link type is assigned [(ni_iftype_t)value], the pointer
    [value] converted to the 32-bit enumeration type, and the function
    returns.  [value_ptr] is that pointer's numeric value. *)
Fixpoint tunnel_map_loop (map : list (string * Z)) (value : string)
  (value_ptr : Z) (ifp : ni_netdev_t D) : ni_netdev_t D :=
  match map with
  | [] => ifp
  | (map_name, map_value) :: rest =>
      if streq map_name value then with_link_type ifp (to_uint value_ptr)
      else tunnel_map_loop rest value value_ptr ifp
  end.

(** [try_tunnel] *)
Definition try_tunnel (sc : ni_sysconfig_t) (ifp : ni_netdev_t D)
  : bool * ni_netdev_t D :=
  match ni_sysconfig_get_value sc "TUNNEL" with
  | Some value =>
      (true, tunnel_map_loop __tunnel_types value
                             (ni_sysconfig_value_address sc "TUNNEL") ifp)
  | None => (true, ifp)
  end.

(** *** try_bridge *)

(** [ni_netdev_get_bridge]: the bridge of a device of link type bridge,
    made by [ni_bridge_new] on first use. *)
Definition ni_netdev_get_bridge (ifp : ni_netdev_t D) : option (ni_bridge_t D) :=
  if negb (link_type ifp =? NI_IFTYPE_BRIDGE) then None
  else match bridge ifp with
       | Some b => Some b
       | None => Some ni_bridge_new
       end.

Definition cannot_parse_msg (ifname key value : string) : string :=
  "ifcfg-" ++ ifname ++ ": Cannot parse " ++ key ++ "='" ++ value ++ "'".

Section BridgeSteps.
Variable sc : ni_sysconfig_t.
Variable ifname : string.

(** The BRIDGE_STP block. *)
Definition bridge_stp_step (b : ni_bridge_t D) : outcome (ni_bridge_t D) :=
  match ni_sysconfig_get_value sc "BRIDGE_STP" with
  | None => Go b
  | Some value =>
      if strcaseeq value "off" || strcaseeq value "no" then
        Go (with_stp b true)
      else if strcaseeq value "on" || strcaseeq value "yes" then
        Go (with_stp b false)
      else Stop b (cannot_parse_msg ifname "BRIDGE_STP" value)
  end.

(** The BRIDGE_PRIORITY block. *)
Definition bridge_priority_step (b : ni_bridge_t D) : outcome (ni_bridge_t D) :=
  match ni_sysconfig_get_value sc "BRIDGE_PRIORITY" with
  | None => Go b
  | Some value =>
      match ni_parse_int value 0 with
      | Some v => Go (with_bridge_priority b v)
      | None => Stop b (cannot_parse_msg ifname "BRIDGE_PRIORITY" value)
      end
  end.

(** The four blocks that read a time interval with [ni_parse_double]. *)
Definition bridge_time_step (key : string)
  (store : ni_bridge_t D -> D -> ni_bridge_t D) (b : ni_bridge_t D)
  : outcome (ni_bridge_t D) :=
  match ni_sysconfig_get_value sc key with
  | None => Go b
  | Some value =>
      match ni_parse_double value with
      | Some v => Go (store b v)
      | None => Stop b (cannot_parse_msg ifname key value)
      end
  end.

(** The loop over the names of BRIDGE_PORTS. *)
Fixpoint bridge_ports_loop (value : string) (names : list string)
  (b : ni_bridge_t D) : outcome (ni_bridge_t D) :=
  match names with
  | [] => Go b
  | pname :: rest =>
      if negb (__ni_suse_valid_ifname pname) then
        Stop b ("ifcfg-" ++ ifname ++ ": BRIDGE_PORTS='" ++ value
                ++ "' rejecting suspect port name '" ++ pname ++ "'")
      else bridge_ports_loop value rest (ni_bridge_port_new b pname)
  end.

Definition bridge_ports_step (b : ni_bridge_t D) : outcome (ni_bridge_t D) :=
  match ni_sysconfig_get_value sc "BRIDGE_PORTS" with
  | None => Go b
  | Some value => bridge_ports_loop value (strtok_all blank_chars value) b
  end.

(** The loop over the tokens of BRIDGE_PORTPRIORITIES: it runs while there
    is a token and [i < bridge->ports.count]; [continue] and the normal end
    of the body both go through [++i]. *)
Fixpoint bridge_portprios_loop (value : string) (prios : list string)
  (i : nat) (b : ni_bridge_t D) : outcome (ni_bridge_t D) :=
  match prios with
  | [] => Go b
  | prio :: rest =>
      match nth_error (ports b) i with
      | None => Go b
      | Some port =>
          if streq "-" prio then bridge_portprios_loop value rest (S i) b
          else
            match ni_parse_int prio 0 with
            | None =>
                Stop b ("ifcfg-" ++ ifname ++ ": BRIDGE_PORTPRIORITIES='"
                        ++ value ++ "' unable to parse port '"
                        ++ port_ifname port ++ "' priority '" ++ prio ++ "'")
            | Some tmp =>
                bridge_portprios_loop value rest (S i)
                  (with_ports b
                     (update_nth i (fun p => with_port_priority p tmp)
                                 (ports b)))
            end
      end
  end.

Definition bridge_portprios_step (b : ni_bridge_t D)
  : outcome (ni_bridge_t D) :=
  match ni_sysconfig_get_value sc "BRIDGE_PORTPRIORITIES" with
  | None => Go b
  | Some value =>
      bridge_portprios_loop value (strtok_all blank_chars value) 0%nat b
  end.

(** The loop over the tokens of BRIDGE_PATHCOSTS.  The body reads
    [bridge->ports.data[i++]] and the loop header has its own [++i], so the
    index advances by two for every token. *)
Fixpoint bridge_pathcosts_loop (value : string) (costs : list string)
  (i : nat) (b : ni_bridge_t D) : outcome (ni_bridge_t D) :=
  match costs with
  | [] => Go b
  | cost :: rest =>
      match nth_error (ports b) i with
      | None => Go b
      | Some port =>
          if streq "-" cost then bridge_pathcosts_loop value rest (S (S i)) b
          else
            match ni_parse_int cost 0 with
            | None =>
                Stop b ("ifcfg-" ++ ifname ++ ": BRIDGE_PATHCOSTS='"
                        ++ value ++ "' unable to parse port '"
                        ++ port_ifname port ++ "' costs '" ++ cost ++ "'")
            | Some tmp =>
                bridge_pathcosts_loop value rest (S (S i))
                  (with_ports b
                     (update_nth i (fun p => with_port_path_cost p tmp)
                                 (ports b)))
            end
      end
  end.

Definition bridge_pathcosts_step (b : ni_bridge_t D)
  : outcome (ni_bridge_t D) :=
  match ni_sysconfig_get_value sc "BRIDGE_PATHCOSTS" with
  | None => Go b
  | Some value =>
      bridge_pathcosts_loop value (strtok_all blank_chars value) 0%nat b
  end.

(** The final [ni_bridge_validate]. *)
Definition bridge_validate_step (b : ni_bridge_t D) : outcome (ni_bridge_t D) :=
  match ni_bridge_validate b with
  | Some err => Stop b ("ifcfg-" ++ ifname ++ ": bridge validation: " ++ err)
  | None => Go b
  end.

(** The body of [try_bridge] after the bridge object is at hand. *)
Definition bridge_steps (b : ni_bridge_t D) : outcome (ni_bridge_t D) :=
  Go b >>= bridge_stp_step
       >>= bridge_priority_step
       >>= bridge_time_step "BRIDGE_AGEINGTIME" with_ageing_time
       >>= bridge_time_step "BRIDGE_FORWARDDELAY" with_forward_delay
       >>= bridge_time_step "BRIDGE_HELLOTIME" with_hello_time
       >>= bridge_time_step "BRIDGE_MAXAGE" with_max_age
       >>= bridge_ports_step
       >>= bridge_portprios_step
       >>= bridge_pathcosts_step
       >>= bridge_validate_step.

End BridgeSteps.

(** [try_bridge]: the flag returned, the device as written, and the error
    logged when the recognizer gave up. *)
Definition try_bridge (sc : ni_sysconfig_t) (ifp : ni_netdev_t D)
  : bool * ni_netdev_t D * list string :=
  match ni_sysconfig_get_boolean sc "BRIDGE" with
  | Some true =>
      let ifp1 := with_link_type ifp NI_IFTYPE_BRIDGE in
      match ni_netdev_get_bridge ifp1 with
      | None => (false, ifp1, [])
      | Some b =>
          match bridge_steps sc (name ifp1) b with
          | Go b' => (true, with_bridge ifp1 (Some b'), [])
          | Stop b' msg => (false, with_bridge ifp1 (Some b'), [msg])
          end
      end
  | _ => (false, ifp, [])
  end.

(** The first statement of [__ni_suse_sysconfig_read]: the control policy
    comes from STARTMODE.  Nothing after it in that function writes
    [compat->control]. *)
Definition __ni_suse_sysconfig_read_control (sc : ni_sysconfig_t)
  (c : ni_compat_netdev_t D) : ni_compat_netdev_t D :=
  match ni_sysconfig_get_value sc "STARTMODE" with
  | Some value => with_control c (__ni_suse_startmode (Some value))
  | None => with_control c (__ni_suse_startmode None)
  end.

End Recognizers.

(** What a token of BRIDGE_PORTPRIORITIES or BRIDGE_PATHCOSTS does to the
    port it is applied to: ["-"] and a missing token leave it alone. *)
Section TokenApplied.
Context {D : Type} {BO : BridgeOps D}.

Definition token_applied (store : ni_bridge_port_t -> Z -> ni_bridge_port_t)
  (tokens : list string) (j : nat) (port : ni_bridge_port_t)
  : ni_bridge_port_t :=
  match nth_error tokens j with
  | Some tok =>
      if streq "-" tok then port
      else match ni_parse_int tok 0 with
           | Some v => store port v
           | None => port
           end
  | None => port
  end.

End TokenApplied.

(* ------------------------------------------------------------------ *)
(** ** compat-suse.c: addresses, routes and the boot protocol *)

(** What the file system gives: the sibling path of a file,
    [ni_file_exists], and [fopen(filename, "r")] with the bytes the stream
    delivers ([None]: the file cannot be opened). *)
Class FileOps : Type := {
  ni_sibling_path_printf : string -> string -> option string;
  ni_file_exists : string -> bool;
  fopen_read : string -> option string
}.

(** The buffers that successive calls [fgets(buffer, 512, fp)] fill: up to
    511 characters each, ending after a newline.  [room] is what is left
    of the buffer being filled; the list starts with the rest of that
    buffer. *)
Definition add_to_head (c : ascii) (l : list string) : list string :=
  match l with
  | [] => [String c EmptyString]
  | h :: t => String c h :: t
  end.

Fixpoint fgets_chunks (room : nat) (text : string) : list string :=
  match text with
  | EmptyString => [EmptyString]
  | String c rest =>
      if (code c =? 10) || (room <=? 1)%nat then
        String c EmptyString :: fgets_chunks 511 rest
      else add_to_head c (fgets_chunks (room - 1) rest)
  end.

(** At the end of the file [fgets] returns NULL instead of an empty
    buffer. *)
Definition fgets_lines (text : string) : list string :=
  filter (fun b => negb (streq b EmptyString)) (fgets_chunks 511 text).

(** The characters that end the significant part of a route line:
    [#], carriage return, newline. *)
Definition route_line_end : string :=
  String "#" (String "013" (String "010" EmptyString)).

(** The globals of compat-suse.c that a translation reads. *)
Record suse_globals (SC : Type) : Type := mk_globals {
  __ni_suse_dhcp_defaults : option SC;
  __ni_suse_global_routes : list ni_route_t
}.
Arguments mk_globals {SC}.
Arguments __ni_suse_dhcp_defaults {SC}.
Arguments __ni_suse_global_routes {SC}.

(** What one line of a route file amounts to. *)
Inductive route_line : Type :=
| LineSkip
| LineError (msg : string)
| LineRoute (rp : ni_route_t).

Section Addrconf.
Context {D : Type} {SO : SysconfigOps} {AO : AddressOps} {FO : FileOps}.

(** [ni_sockaddr_parse(&dst, text, af)] where the result code is ignored:
    on failure [dst] is taken to be left all zero. *)
Definition sockaddr_parse_into (text : string) (af : Z) : ni_sockaddr_t :=
  match ni_sockaddr_parse text af with
  | Some a => a
  | None => sockaddr_zero
  end.

(** *** __ni_suse_read_routes *)

(** The gateway field: absent or ["-"] is a local route. *)
Definition route_gateway (gw : option string) : option ni_sockaddr_t :=
  match gw with
  | None => Some sockaddr_zero
  | Some g =>
      if streq g "-" then Some sockaddr_zero
      else ni_sockaddr_parse g AF_UNSPEC
  end.

(** The prefix length after the destination text is read: 255 unless a
    [/] introduces one, which [strtoul] reads in base 10. *)
Definition route_dest_prefixlen (dest : string) : Z :=
  match snd (split_at_char "/" dest) with
  | Some sp => to_uint (fst (strtoul sp 10))
  | None => 255
  end.

(** [mask == NULL || !strcmp(mask, "-")] *)
Definition mask_absent (mask : option string) : bool :=
  match mask with
  | None => true
  | Some m => streq m "-"
  end.

(** The destination address and prefix length of a line, or the error. *)
Definition route_destination (filename dest : string) (mask : option string)
  (gw_addr : ni_sockaddr_t) : (ni_sockaddr_t * Z) + string :=
  if streq dest "default" then
    inl (mk_sockaddr (ss_family gw_addr) 0, 0)
  else
    let prefixlen := route_dest_prefixlen dest in
    let dest_text := fst (split_at_char "/" dest) in
    match ni_sockaddr_parse dest_text AF_UNSPEC with
    | None =>
        inr (filename ++ ": cannot parse dest addr " ++ dquote ++ dest_text
             ++ dquote)
    | Some dest_addr =>
        if prefixlen =? 255 then
          if mask_absent mask then
            inl (dest_addr, ni_af_address_length (ss_family dest_addr) * 8)
          else
            let m := match mask with Some m => m | None => EmptyString end in
            match ni_sockaddr_parse m AF_UNSPEC with
            | None =>
                inr (filename ++ ": cannot parse mask addr " ++ dquote ++ m
                     ++ dquote)
            | Some mask_addr =>
                inl (dest_addr, ni_sockaddr_netmask_bits mask_addr)
            end
        else inl (dest_addr, prefixlen)
    end.

(** The body of the [while] loop of [__ni_suse_read_routes] on one buffer. *)
Definition read_route_line (filename buffer : string) : route_line :=
  match strtok_all blank_chars (cut_at route_line_end buffer) with
  | [] => LineSkip
  | dest :: more =>
      let gw := nth_error more 0 in
      let mask := nth_error more 1 in
      let ifname := nth_error more 2 in
      match route_gateway gw with
      | None =>
          LineError (filename ++ ": cannot parse gw addr " ++ dquote
                     ++ match gw with Some g => g | None => EmptyString end
                     ++ dquote)
      | Some gw_addr =>
          match route_destination filename dest mask gw_addr with
          | inr msg => LineError msg
          | inl (dest_addr, prefixlen) =>
              match ni_route_new prefixlen dest_addr gw_addr with
              | None =>
                  LineError
                    ("Unable to add route " ++ fst (split_at_char "/" dest)
                     ++ " " ++ match gw with Some g => g | None => "(null)" end
                     ++ " " ++ match mask with Some m => m | None => "-" end)
              | Some rp =>
                  match ifname with
                  | Some dv =>
                      if negb (streq dv "-") then
                        LineRoute (with_nh_device rp (Some dv))
                      else LineRoute rp
                  | None => LineRoute rp
                  end
              end
          end
      end
  end.

(** The [while] loop: [inl] is the list at the normal end of the loop,
    [inr] the error logged before [goto error]. *)
Fixpoint read_routes_loop (filename : string) (buffers : list string)
  (route_list : list ni_route_t) : list ni_route_t + string :=
  match buffers with
  | [] => inl route_list
  | buffer :: rest =>
      match read_route_line filename buffer with
      | LineSkip => read_routes_loop filename rest route_list
      | LineError msg => inr msg
      | LineRoute rp => read_routes_loop filename rest (route_list ++ [rp])
      end
  end.

(** [__ni_suse_read_routes] once the file is open: the pointer returned
    (the empty list is NULL) and what was logged.  At [error:] the list
    built so far is destroyed. *)
Definition read_routes_text (filename text : string)
  : list ni_route_t * list string :=
  match read_routes_loop filename (fgets_lines text) [] with
  | inl route_list => (route_list, [])
  | inr msg => ([], [msg])
  end.

(** [__ni_suse_read_routes] *)
Definition __ni_suse_read_routes (filename : string)
  : list ni_route_t * list string :=
  match fopen_read filename with
  | None => ([], ["unable to open " ++ filename])
  | Some text => read_routes_text filename text
  end.

(** *** __get_ipaddr *)

(** The block of [__get_ipaddr] under [if (prefixlen == ~0U)]: the prefix
    length it leaves, or [None] at [goto cannot_parse]. *)
Definition get_ipaddr_prefixlen (sc : ni_sysconfig_t) (suffix : string)
  (local : ni_sockaddr_t) (prefixlen : Z) : option Z :=
  if prefixlen =? UINT_MAX then
    match __find_indexed_variable sc "PREFIXLEN" suffix with
    | Some var => Some (to_uint (fst (strtoul (value_text var) 0)))
    | None =>
        let netmask :=
          if ss_family local =? AF_INET then
            match __find_indexed_variable sc "NETMASK" suffix with
            | Some var => ni_sockaddr_parse (value_text var) AF_INET
            | None => None
            end
          else None in
        match netmask with
        | Some mask_addr => Some (ni_sockaddr_netmask_bits mask_addr)
        | None =>
            match ni_af_sockaddr_info (ss_family local) with
            | None => None
            | Some len => Some (len * 8)
            end
        end
    end
  else Some prefixlen.

(** The BROADCAST block, for an IPv4 address. *)
Definition get_ipaddr_broadcast (sc : ni_sysconfig_t) (suffix : string)
  (ap : ni_address_t) : ni_address_t * list string :=
  if addr_family ap =? AF_INET then
    match __find_indexed_variable sc "BROADCAST" suffix with
    | Some var =>
        let b := sockaddr_parse_into (value_text var) AF_INET in
        if negb (ss_family b =? addr_family ap) then
          (with_bcast_addr ap (with_ss_family b AF_UNSPEC),
           [pathname sc ++ ": ignoring BROADCAST" ++ suffix ++ "="
            ++ value_text var ++ " (wrong address family)"])
        else (with_bcast_addr ap b, [])
    | None => (with_bcast_addr ap sockaddr_zero, [])
    end
  else (ap, []).

(** The REMOTE_IPADDR block. *)
Definition get_ipaddr_remote (sc : ni_sysconfig_t) (suffix : string)
  (ap : ni_address_t) : ni_address_t * list string :=
  match __find_indexed_variable sc "REMOTE_IPADDR" suffix with
  | Some var =>
      let p := sockaddr_parse_into (value_text var) AF_UNSPEC in
      if negb (ss_family p =? addr_family ap) then
        (with_peer_addr ap (with_ss_family p AF_UNSPEC),
         [pathname sc ++ ": ignoring REMOTE_IPADDR" ++ suffix ++ "="
          ++ value_text var ++ " (wrong address family)"])
      else (with_peer_addr ap p, [])
  | None => (ap, [])
  end.

(** [__get_ipaddr]: the flag, the address list, and what was logged. *)
Definition __get_ipaddr (sc : ni_sysconfig_t) (suffix : string)
  (addr_list : list ni_address_t)
  : bool * list ni_address_t * list string :=
  match __find_indexed_variable sc "IPADDR" suffix with
  | None => (true, addr_list, [])
  | Some var =>
      let cannot_parse :=
        (false, addr_list,
         ["Unable to parse " ++ var_name var ++ "=" ++ dquote
          ++ value_text var ++ dquote]) in
      match ni_sockaddr_prefix_parse (value_text var) with
      | None => cannot_parse
      | Some (local, prefixlen0) =>
          match get_ipaddr_prefixlen sc suffix local prefixlen0 with
          | None => cannot_parse
          | Some prefixlen =>
              let ap := ni_address_new (ss_family local) prefixlen local in
              let '(ap1, log1) := get_ipaddr_broadcast sc suffix ap in
              let '(ap2, log2) := get_ipaddr_remote sc suffix ap1 in
              (true, (addr_list ++ [ap2])%list, (log1 ++ log2)%list)
          end
      end
  end.

End Addrconf.

Section Bootproto.
Context {D : Type} {SO : SysconfigOps} {AO : AddressOps} {FO : FileOps}.

(** *** __ni_suse_addrconf_static *)

(** The loop over the names that match IPADDR; [names.data[i] + 6] is the
    suffix after ["IPADDR"]. *)
Fixpoint get_ipaddr_loop (sc : ni_sysconfig_t) (names : list string)
  (addr_list : list ni_address_t)
  : bool * list ni_address_t * list string :=
  match names with
  | [] => (true, addr_list, [])
  | n :: rest =>
      match __get_ipaddr sc (string_drop 6 n) addr_list with
      | (false, l, log) => (false, l, log)
      | (true, l, log) =>
          let '(ok, l', log') := get_ipaddr_loop sc rest l in
          (ok, l', (log ++ log')%list)
      end
  end.

(** "Hack up the loopback interface". *)
Definition loopback_addrs (addr_list : list ni_address_t)
  : list ni_address_t :=
  let v4 := sockaddr_parse_into "127.0.0.1" AF_INET in
  let l1 :=
    if negb (ni_address_list_find addr_list v4)
    then (addr_list ++ [ni_address_new AF_INET 8 v4])%list
    else addr_list in
  let v6 := sockaddr_parse_into "::1" AF_INET6 in
  if negb (ni_address_list_find l1 v6)
  then (l1 ++ [ni_address_new AF_INET6 128 v6])%list
  else l1.

(** The inner loop over the device's addresses for an IPv4 global route. *)
Fixpoint gateway_reachable (addr_list : list ni_address_t) (rp : ni_route_t)
  : bool :=
  match addr_list with
  | [] => false
  | ap :: rest =>
      if (addr_family ap =? AF_INET)
         && (ss_family (nh_gateway rp) =? AF_INET)
         && ni_address_can_reach ap (nh_gateway rp)
      then true
      else gateway_reachable rest rp
  end.

(** The loop over [__ni_suse_global_routes]. *)
Fixpoint global_routes_loop (globals : list ni_route_t) (ifp : ni_netdev_t D)
  : ni_netdev_t D :=
  match globals with
  | [] => ifp
  | rp :: rest =>
      let ifp' :=
        if route_family rp =? AF_INET then
          match nh_device rp with
          | Some dv =>
              if negb (ni_string_eq (Some dv) (Some (name ifp))) then ifp
              else if gateway_reachable (addrs ifp) rp
                   then with_routes ifp (routes ifp ++ [rp])
                   else ifp
          | None =>
              if gateway_reachable (addrs ifp) rp
              then with_routes ifp (routes ifp ++ [rp])
              else ifp
          end
        else if route_family rp =? AF_INET6 then
          match nh_device rp with
          | Some dv =>
              if negb (ni_string_eq (Some dv) (Some (name ifp))) then ifp
              else with_routes ifp (routes ifp ++ [rp])
          | None => ifp
          end
        else ifp in
      global_routes_loop rest ifp'
  end.

(** [__ni_suse_addrconf_static]: it writes only [compat->dev]. *)
Definition __ni_suse_addrconf_static (g : suse_globals ni_sysconfig_t)
  (sc : ni_sysconfig_t) (ifp : ni_netdev_t D)
  : bool * ni_netdev_t D * list string :=
  match ni_sysconfig_find_matching sc "IPADDR" with
  | (false, _) => (false, ifp, [])
  | (true, names) =>
      match get_ipaddr_loop sc names (addrs ifp) with
      | (false, l, log) => (false, with_addrs ifp l, log)
      | (true, l, log) =>
          let ifp1 := with_addrs ifp l in
          let ifp2 :=
            if streq (name ifp1) "lo"
            then with_addrs ifp1 (loopback_addrs (addrs ifp1))
            else ifp1 in
          let '(ifp3, log3) :=
            match ni_sibling_path_printf (pathname sc)
                                         ("ifroute-" ++ name ifp2) with
            | Some routespath =>
                if ni_file_exists routespath then
                  let '(rl, rlog) := __ni_suse_read_routes routespath in
                  match rl with
                  | [] => (with_routes ifp2 [],
                           (rlog ++ [("unable to parse " ++ routespath)%string])%list)
                  | _ => (with_routes ifp2 rl, rlog)
                  end
                else (ifp2, [])
            | None => (ifp2, [])
            end in
          let ifp4 := global_routes_loop (__ni_suse_global_routes g) ifp3 in
          (true, with_addrs ifp4 (ni_address_list_dedup (addrs ifp4)),
           (log ++ log3)%list)
      end
  end.

(** *** DHCP *)

(** [__ni_suse_addrconf_dhcp4_options] *)
Definition __ni_suse_addrconf_dhcp4_options (sc : ni_sysconfig_t)
  (d : dhcp4_config) : dhcp4_config :=
  let hostname :=
    match ni_sysconfig_get_value sc "DHCLIENT_HOSTNAME_OPTION" with
    | Some s => if negb (strcaseeq s "auto") then Some s else dhcp4_hostname d
    | None => dhcp4_hostname d
    end in
  let client_id :=
    match ni_sysconfig_get_value sc "DHCLIENT_CLIENT_ID" with
    | Some s => Some s
    | None => dhcp4_client_id d
    end in
  let vendor_class :=
    match ni_sysconfig_get_value sc "DHCLIENT_VENDOR_CLASS_ID" with
    | Some s => Some s
    | None => dhcp4_vendor_class d
    end in
  let acquire_timeout :=
    match ni_sysconfig_get_integer sc "DHCLIENT_WAIT_AT_BOOT" with
    | Some u => if u =? 0 then NI_IFWORKER_INFINITE_TIMEOUT else u
    | None => dhcp4_acquire_timeout d
    end in
  let lease_time :=
    match ni_sysconfig_get_integer sc "DHCLIENT_LEASE_TIME" with
    | Some u => if u <? 2147483648 then u else NI_IFWORKER_INFINITE_TIMEOUT
    | None => dhcp4_lease_time d
    end in
  mk_dhcp4 (dhcp4_enabled d) hostname client_id vendor_class
           acquire_timeout lease_time.

(** [__ni_suse_addrconf_dhcp6_options]: nothing is translated. *)
Definition __ni_suse_addrconf_dhcp6_options (sc : ni_sysconfig_t)
  (d : dhcp6_config) : dhcp6_config := d.

Definition dhcp4_enable (d : dhcp4_config) : dhcp4_config :=
  mk_dhcp4 true (dhcp4_hostname d) (dhcp4_client_id d) (dhcp4_vendor_class d)
           (dhcp4_acquire_timeout d) (dhcp4_lease_time d).

(** [__ni_suse_addrconf_dhcp4] *)
Definition __ni_suse_addrconf_dhcp4 (g : suse_globals ni_sysconfig_t)
  (sc : ni_sysconfig_t) (c : ni_compat_netdev_t D) : ni_compat_netdev_t D :=
  if dhcp4_enabled (dhcp4 c) then c
  else
    let d1 :=
      match __ni_suse_dhcp_defaults g with
      | Some defaults => __ni_suse_addrconf_dhcp4_options defaults (dhcp4 c)
      | None => dhcp4 c
      end in
    let d2 := __ni_suse_addrconf_dhcp4_options sc d1 in
    with_dhcp4 c (dhcp4_enable d2).

(** [__ni_suse_addrconf_dhcp6] *)
Definition __ni_suse_addrconf_dhcp6 (g : suse_globals ni_sysconfig_t)
  (sc : ni_sysconfig_t) (c : ni_compat_netdev_t D) : ni_compat_netdev_t D :=
  if dhcp6_enabled (dhcp6 c) then c
  else
    let d1 :=
      match __ni_suse_dhcp_defaults g with
      | Some defaults => __ni_suse_addrconf_dhcp6_options defaults (dhcp6 c)
      | None => dhcp6 c
      end in
    let d2 := __ni_suse_addrconf_dhcp6_options sc d1 in
    with_dhcp6 c (mk_dhcp6 true).

(** [__ni_suse_addrconf_autoip4]: a stub. *)
Definition __ni_suse_addrconf_autoip4 (sc : ni_sysconfig_t)
  (c : ni_compat_netdev_t D) : ni_compat_netdev_t D := c.

(** *** __ni_suse_bootproto *)

(** The body of the loop over the [+] separated tokens: [s] is the token,
    [value] the whole BOOTPROTO text. *)
Definition bootproto_token (g : suse_globals ni_sysconfig_t)
  (sc : ni_sysconfig_t) (value s : string) (c : ni_compat_netdev_t D)
  : ni_compat_netdev_t D * list string :=
  if strcaseeq s "dhcp" then
    (__ni_suse_addrconf_dhcp6 g sc (__ni_suse_addrconf_dhcp4 g sc c), [])
  else if ni_string_eq (Some value) (Some "dhcp4") then
    (__ni_suse_addrconf_dhcp4 g sc c, [])
  else if ni_string_eq (Some value) (Some "dhcp6") then
    (__ni_suse_addrconf_dhcp6 g sc c, [])
  else if ni_string_eq (Some value) (Some "autoip") then
    (__ni_suse_addrconf_autoip4 sc c, [])
  else
    (c, ["ifcfg-" ++ name (dev c) ++ ": Unknown BOOTPROTO value " ++ dquote
         ++ s ++ dquote]).

Fixpoint bootproto_tokens (g : suse_globals ni_sysconfig_t)
  (sc : ni_sysconfig_t) (value : string) (tokens : list string)
  (c : ni_compat_netdev_t D) : ni_compat_netdev_t D * list string :=
  match tokens with
  | [] => (c, [])
  | s :: rest =>
      let '(c1, log1) := bootproto_token g sc value s c in
      let '(c2, log2) := bootproto_tokens g sc value rest c1 in
      (c2, (log1 ++ log2)%list)
  end.

(** The calls [__ni_suse_addrconf_static(sc, compat)] whose result is
    dropped. *)
Definition run_static (g : suse_globals ni_sysconfig_t) (sc : ni_sysconfig_t)
  (c : ni_compat_netdev_t D) : ni_compat_netdev_t D * list string :=
  let '(_, ifp, log) := __ni_suse_addrconf_static g sc (dev c) in
  (with_dev c ifp, log).

(** The text that [__ni_suse_bootproto] dispatches on. *)
Definition bootproto_value (sc : ni_sysconfig_t) (c : ni_compat_netdev_t D)
  : string :=
  match ni_sysconfig_get_value sc "BOOTPROTO" with
  | None => "static"
  | Some value =>
      match value with
      | EmptyString => "static"
      | _ => if ni_string_eq (Some (name (dev c))) (Some "lo")
             then "static" else value
      end
  end.

(** [__ni_suse_bootproto]: it always returns TRUE; given are the
    configuration it leaves and what it logged. *)
Definition __ni_suse_bootproto (g : suse_globals ni_sysconfig_t)
  (sc : ni_sysconfig_t) (c : ni_compat_netdev_t D)
  : ni_compat_netdev_t D * list string :=
  let value := bootproto_value sc c in
  if ni_string_eq_nocase (Some value) (Some "none") then (c, [])
  else if ni_string_eq_nocase (Some value) (Some "ibft") then (c, [])
  else if ni_string_eq_nocase (Some value) (Some "6to4") then run_static g sc c
  else if ni_string_eq_nocase (Some value) (Some "static") then
    run_static g sc c
  else
    let '(c1, log1) :=
      bootproto_tokens g sc value (strtok_all "+" value) c in
    let '(c2, log2) := run_static g sc c1 in
    (c2, (log1 ++ log2)%list).

End Bootproto.

(* ------------------------------------------------------------------ *)
(** ** interface.c: leases *)

Section Leases.
Context {D : Type}.

(** [__ni_interface_find_lease]: the first lease of the given family and
    type, and the lease list afterwards (the lease is unlinked when
    [remove] is set). *)
Fixpoint find_lease_in (l : list ni_addrconf_lease_t) (family : Z)
  (type : ni_addrconf_mode_t) (remove : bool)
  : option ni_addrconf_lease_t * list ni_addrconf_lease_t :=
  match l with
  | [] => (None, [])
  | lease :: rest =>
      if addrconf_mode_eqb (lease_type lease) type
         && (lease_family lease =? family)
      then (Some lease, if remove then rest else lease :: rest)
      else
        let '(found, rest') := find_lease_in rest family type remove in
        (found, lease :: rest')
  end.

Definition __ni_interface_find_lease (ifp : ni_netdev_t D) (family : Z)
  (type : ni_addrconf_mode_t) (remove : bool)
  : option ni_addrconf_lease_t * ni_netdev_t D :=
  let '(found, l) := find_lease_in (leases ifp) family type remove in
  (found, with_leases ifp l).

(** [ni_interface_unset_lease]: the lease found is unlinked and freed. *)
Definition ni_interface_unset_lease (ifp : ni_netdev_t D) (family : Z)
  (type : ni_addrconf_mode_t) : ni_netdev_t D :=
  snd (__ni_interface_find_lease ifp family type true).

(** [ni_interface_set_lease]: [lease] is a lease that is not on the list
    yet and whose own [next] pointer is NULL. *)
Definition ni_interface_set_lease (ifp : ni_netdev_t D)
  (lease : ni_addrconf_lease_t) : ni_netdev_t D :=
  let ifp1 :=
    ni_interface_unset_lease ifp (lease_family lease) (lease_type lease) in
  with_leases ifp1 (leases ifp1 ++ [lease]).

(** [ni_interface_get_lease] *)
Definition ni_interface_get_lease (ifp : ni_netdev_t D) (family : Z)
  (type : ni_addrconf_mode_t) : option ni_addrconf_lease_t :=
  fst (__ni_interface_find_lease ifp family type false).

End Leases.

Section LeaseOwnership.
Context {AO : AddressOps}.

(** [x->expires && x->expires <= now] *)
Definition expired (now expires : Z) : bool :=
  negb (expires =? 0) && (expires <=? now).

Definition is_ipv6_autoconf (lease : ni_addrconf_lease_t) : bool :=
  (lease_family lease =? AF_INET6)
  && addrconf_mode_eqb (lease_type lease) NI_ADDRCONF_AUTOCONF.

(** The loop over [lease->routes] for an IPv6 autoconf lease. *)
Fixpoint owns_by_route_prefix (now : Z) (rl : list ni_route_t)
  (m : ni_address_t) : bool :=
  match rl with
  | [] => false
  | rp :: rest =>
      if negb (route_prefixlen rp =? addr_prefixlen m) then
        owns_by_route_prefix now rest m
      else if expired now (route_expires rp) then
        owns_by_route_prefix now rest m
      else if ni_address_prefix_match (route_prefixlen rp) (destination rp)
                                      (local_addr m)
      then true
      else owns_by_route_prefix now rest m
  end.

(** The loop over [lease->addrs]. *)
Fixpoint owns_by_address (now : Z) (lease : ni_addrconf_lease_t)
  (al : list ni_address_t) (m : ni_address_t) : bool :=
  match al with
  | [] => false
  | ap :: rest =>
      if negb (addr_prefixlen ap =? addr_prefixlen m) then
        owns_by_address now lease rest m
      else if expired now (addr_expires ap) then
        owns_by_address now lease rest m
      else if (if is_ipv6_autoconf lease
               then negb (ni_address_prefix_match (addr_prefixlen m)
                            (local_addr ap) (local_addr m))
               else ni_address_equal (local_addr ap) (local_addr m))
      then owns_by_address now lease rest m
      else if ni_address_equal (peer_addr ap) (peer_addr m)
              && ni_address_equal (anycast_addr ap) (anycast_addr m)
      then true
      else owns_by_address now lease rest m
  end.

(** [__ni_lease_owns_address]; [now] is what [time(NULL)] returns. *)
Definition __ni_lease_owns_address (now : Z)
  (lease : option ni_addrconf_lease_t) (m : ni_address_t) : bool :=
  match lease with
  | None => false
  | Some l =>
      if negb (lease_family l =? addr_family m) then false
      else if is_ipv6_autoconf l && owns_by_route_prefix now (lease_routes l) m
      then true
      else owns_by_address now l (lease_addrs l) m
  end.

End LeaseOwnership.

(* ------------------------------------------------------------------ *)
(** ** Reference implementations of the library interfaces

    Used where a statement is evaluated on concrete input: a sysconfig file
    as the list of its variables, addresses in the textual forms of
    [inet_pton], a file system as a table of paths and contents. *)

Module Reference.

(** *** sysconfig *)

Record sysconfig : Type := mk_sysconfig {
  sc_pathname : string;
  sc_vars : list ni_var_t;
  sc_values_at : Z
}.

Definition var (n v : string) : ni_var_t := mk_var n (Some v).

Definition get (sc : sysconfig) (n : string) : option ni_var_t :=
  find (fun v => streq (var_name v) n) (sc_vars sc).

Definition get_value (sc : sysconfig) (n : string) : option string :=
  match get sc n with
  | Some v => var_value v
  | None => None
  end.

Fixpoint index_of (n : string) (l : list ni_var_t) : Z :=
  match l with
  | [] => 0
  | v :: r => if streq (var_name v) n then 0 else 1 + index_of n r
  end.

(** The values are stored 64 bytes apart from [sc_values_at] on. *)
Definition value_address (sc : sysconfig) (n : string) : Z :=
  sc_values_at sc + 64 * index_of n (sc_vars sc).

Definition get_boolean (sc : sysconfig) (n : string) : option bool :=
  match get_value sc n with
  | Some v =>
      if strcaseeq v "yes" || strcaseeq v "true" || strcaseeq v "on"
      then Some true
      else if strcaseeq v "no" || strcaseeq v "false" || strcaseeq v "off"
      then Some false
      else None
  | None => None
  end.

Definition parse_int (s : string) (base : Z) : option Z :=
  let '(n, rest) := strtoul s base in
  if negb (streq s EmptyString) && streq rest EmptyString && (n <=? UINT_MAX)
  then Some n else None.

Definition get_integer (sc : sysconfig) (n : string) : option Z :=
  match get_value sc n with
  | Some v => parse_int v 0
  | None => None
  end.

Definition find_matching (sc : sysconfig) (pfx : string)
  : bool * list string :=
  let names :=
    map var_name
        (filter (fun v => String.prefix pfx (var_name v)
                          && negb (streq (value_text v) EmptyString))
                (sc_vars sc)) in
  (match names with [] => false | _ => true end, names).

Definition sysconfig_ops : SysconfigOps := {|
  ni_sysconfig_t := sysconfig;
  pathname := sc_pathname;
  ni_sysconfig_get := get;
  ni_sysconfig_get_value := get_value;
  ni_sysconfig_value_address := value_address;
  ni_sysconfig_get_boolean := get_boolean;
  ni_sysconfig_get_integer := get_integer;
  ni_sysconfig_find_matching := find_matching
|}.

(** *** addresses *)

(** The fields of [s] between the occurrences of [c], empty ones kept. *)
Fixpoint fields_from (c : ascii) (cur : string) (s : string) : list string :=
  match s with
  | EmptyString => [cur]
  | String x r =>
      if Ascii.eqb x c then cur :: fields_from c EmptyString r
      else fields_from c (cur ++ String x EmptyString) r
  end.

Definition fields (c : ascii) (s : string) : list string :=
  fields_from c EmptyString s.

Definition number_in (base : Z) (maxlen : nat) (s : string) : option Z :=
  let '(v, seen, rest) := read_digits base 0 false s in
  if seen && streq rest EmptyString && (String.length s <=? maxlen)%nat
  then Some v else None.

Fixpoint numbers_in (base : Z) (maxlen : nat) (l : list string)
  : option (list Z) :=
  match l with
  | [] => Some []
  | s :: r =>
      match number_in base maxlen s, numbers_in base maxlen r with
      | Some v, Some vs => Some (v :: vs)
      | _, _ => None
      end
  end.

(** The groups of an address as one big-endian number. *)
Definition join_groups (bits : Z) (l : list Z) : Z :=
  fold_left (fun acc v => acc * 2 ^ bits + v) l 0.

(** Dotted quad: four decimal numbers up to 255. *)
Definition inet_pton4 (s : string) : option Z :=
  match numbers_in 10 3 (fields "." s) with
  | Some [a; b; c; d] =>
      if forallb (fun v => v <=? 255) [a; b; c; d]
      then Some (join_groups 8 [a; b; c; d]) else None
  | _ => None
  end.

(** The text before and after the first [::]. *)
Fixpoint split_double_colon (s : string) : option (string * string) :=
  match s with
  | String ":" (String ":" r) => Some (EmptyString, r)
  | String x r =>
      match split_double_colon r with
      | Some (a, b) => Some (String x a, b)
      | None => None
      end
  | EmptyString => None
  end.

Definition hextets (s : string) : option (list Z) :=
  match s with
  | EmptyString => Some []
  | _ => numbers_in 16 4 (fields ":" s)
  end.

(** Eight groups of hexadecimal digits, one run of zero groups may be
    written [::]. *)
Definition inet_pton6 (s : string) : option Z :=
  match split_double_colon s with
  | Some (l, r) =>
      match hextets l, hextets r with
      | Some a, Some b =>
          if (List.length a + List.length b <=? 7)%nat then
            Some (join_groups 16
                    (a ++ repeat 0 (8 - List.length a - List.length b) ++ b))
          else None
      | _, _ => None
      end
  | None =>
      match hextets s with
      | Some a =>
          if (List.length a =? 8)%nat then Some (join_groups 16 a) else None
      | None => None
      end
  end.

(** With [AF_UNSPEC] the family is guessed from the text: a colon means
    IPv6. *)
Definition sockaddr_parse (s : string) (af : Z) : option ni_sockaddr_t :=
  let family :=
    if af =? AF_UNSPEC then
      if mem_char ":" s then AF_INET6 else AF_INET
    else af in
  if family =? AF_INET then option_map (mk_sockaddr AF_INET) (inet_pton4 s)
  else if family =? AF_INET6 then
    option_map (mk_sockaddr AF_INET6) (inet_pton6 s)
  else None.

(** [address] or [address/prefixlen]; without a prefix the length is
    [~0U]. *)
Definition sockaddr_prefix_parse (s : string) : option (ni_sockaddr_t * Z) :=
  let '(text, sp) := split_at_char "/" s in
  let prefixlen :=
    match sp with
    | Some p => to_uint (fst (strtoul p 10))
    | None => UINT_MAX
    end in
  match sockaddr_parse text AF_UNSPEC with
  | Some a => Some (a, prefixlen)
  | None => None
  end.

(** Modelled from the spec: [ni_sockaddr_netmask_bits] counts the set bits
    of the mask. *)
Definition netmask_bits (mask : ni_sockaddr_t) : Z :=
  Z.of_nat (List.length (filter (fun i => Z.testbit (sa_addr mask) (Z.of_nat i))
                                (seq 0 128))).

(** The first [prefixlen] bits of the two addresses agree. *)
Definition prefix_match (prefixlen : Z) (a b : ni_sockaddr_t) : bool :=
  let width := ni_af_address_length (ss_family a) * 8 in
  (ss_family a =? ss_family b)
  && (Z.shiftr (sa_addr a) (width - prefixlen)
      =? Z.shiftr (sa_addr b) (width - prefixlen)).

(** Modelled from the spec: the gateway falls within the subnet of the
    address and its prefix length. *)
Definition can_reach (ap : ni_address_t) (gw : ni_sockaddr_t) : bool :=
  (addr_family ap =? ss_family gw)
  && prefix_match (addr_prefixlen ap) (local_addr ap) gw.

Definition list_find (l : list ni_address_t) (a : ni_sockaddr_t) : bool :=
  existsb (fun ap => sockaddr_eqb (local_addr ap) a) l.

(** Modelled from the spec: an address is identified by family, prefix
    length, local, peer and anycast address. *)
Definition same_address (a b : ni_address_t) : bool :=
  (addr_family a =? addr_family b)
  && (addr_prefixlen a =? addr_prefixlen b)
  && sockaddr_eqb (local_addr a) (local_addr b)
  && sockaddr_eqb (peer_addr a) (peer_addr b)
  && sockaddr_eqb (anycast_addr a) (anycast_addr b).

Fixpoint list_dedup (l : list ni_address_t) : list ni_address_t :=
  match l with
  | [] => []
  | a :: r => a :: filter (fun b => negb (same_address a b)) (list_dedup r)
  end.

(** The route takes the family of its destination, or of its gateway when
    the destination has none; two different families make it fail, as does
    having none. *)
Definition route_new (prefixlen : Z) (dest gw : ni_sockaddr_t)
  : option ni_route_t :=
  let af := if ss_family dest =? AF_UNSPEC then ss_family gw
            else ss_family dest in
  if af =? AF_UNSPEC then None
  else if negb (ss_family gw =? AF_UNSPEC) && negb (ss_family gw =? af)
  then None
  else Some (mk_route af prefixlen dest gw None 0).

Definition address_ops : AddressOps := {|
  ni_sockaddr_parse := sockaddr_parse;
  ni_sockaddr_prefix_parse := sockaddr_prefix_parse;
  ni_sockaddr_netmask_bits := netmask_bits;
  ni_address_equal := sockaddr_eqb;
  ni_address_prefix_match := prefix_match;
  ni_address_can_reach := can_reach;
  ni_address_list_find := list_find;
  ni_address_list_dedup := list_dedup;
  ni_route_new := route_new
|}.

(** *** bridges *)

(** A time interval is kept as the decimal numeral that was read. *)
Definition is_number (s : string) : bool :=
  match number_in 10 20 s with Some _ => true | None => false end.

Definition parse_double (s : string) : option string :=
  match fields "." s with
  | [a] => if is_number a then Some s else None
  | [a; b] => if is_number a && is_number b then Some s else None
  | _ => None
  end.

Definition bridge_ops : BridgeOps string := {|
  ni_parse_int := parse_int;
  ni_parse_double := parse_double;
  ni_bridge_new :=
    mk_bridge false NI_BRIDGE_VALUE_NOT_SET EmptyString EmptyString
              EmptyString EmptyString [];
  ni_bridge_validate := fun _ => None
|}.

(** *** files *)

(** The text of [s] up to its last [/]. *)
Fixpoint dir_prefix (s : string) : option string :=
  match s with
  | EmptyString => None
  | String c r =>
      match dir_prefix r with
      | Some d => Some (String c d)
      | None => if Ascii.eqb c "/" then Some (String c EmptyString) else None
      end
  end.

Definition sibling_path (path file : string) : option string :=
  match dir_prefix path with
  | Some d => Some (d ++ file)
  | None => Some file
  end.

Definition lookup_file (files : list (string * string)) (path : string)
  : option string :=
  option_map snd (find (fun f => streq (fst f) path) files).

Definition file_ops (files : list (string * string)) : FileOps := {|
  ni_sibling_path_printf := sibling_path;
  ni_file_exists :=
    fun p => match lookup_file files p with Some _ => true | None => false end;
  fopen_read := lookup_file files
|}.

End Reference.

(* ------------------------------------------------------------------ *)
(** ** Sample configurations *)

Module Samples.
Import Reference.

(** Where the sample files keep their values in memory. *)
Definition heap_base : Z := 94352930788000.

Definition ifcfg (ifname : string) (vars : list ni_var_t) : sysconfig :=
  mk_sysconfig ("/etc/sysconfig/network/ifcfg-" ++ ifname) vars heap_base.

Definition no_globals : suse_globals sysconfig := mk_globals None [].

(** The lines of a text file, each ended by a newline. *)
Definition text_of (lines : list string) : string :=
  String.concat EmptyString
                (map (fun l => l ++ String "010" EmptyString) lines).

Definition ipv4 (a b c d : Z) : ni_sockaddr_t :=
  mk_sockaddr AF_INET (join_groups 8 [a; b; c; d]).

(** [try_tunnel], [try_bridge], [__get_ipaddr], [__ni_suse_bootproto],
    [__ni_suse_read_routes] and [__ni_lease_owns_address] over the
    reference implementations. *)
Definition tunnel_of (sc : sysconfig) (ifname : string)
  : bool * ni_netdev_t string :=
  try_tunnel (SO := sysconfig_ops) sc (__ni_interface_new ifname 0).

Definition bridge_of (sc : sysconfig) (ifname : string)
  : bool * ni_netdev_t string * list string :=
  try_bridge (SO := sysconfig_ops) (BO := bridge_ops) sc
             (__ni_interface_new ifname 0).

Definition ipaddr_of (sc : sysconfig) (suffix : string)
  : bool * list ni_address_t * list string :=
  __get_ipaddr (SO := sysconfig_ops) (AO := address_ops) sc suffix [].

Definition bootproto_of (sc : sysconfig) (ifname : string)
  : ni_compat_netdev_t string * list string :=
  __ni_suse_bootproto (SO := sysconfig_ops) (AO := address_ops)
                      (FO := file_ops []) no_globals sc
                      (ni_compat_netdev_new ifname).

Definition routes_of (text : string) : list ni_route_t * list string :=
  __ni_suse_read_routes (AO := address_ops)
    (FO := file_ops [("/etc/sysconfig/network/routes", text)])
    "/etc/sysconfig/network/routes".

Definition owns (now : Z) (lease : ni_addrconf_lease_t) (m : ni_address_t)
  : bool :=
  __ni_lease_owns_address (AO := address_ops) now (Some lease) m.

End Samples.

(* ------------------------------------------------------------------ *)
(** ** Histories of an interface's lease list *)

(** The lease has the key (family, type). *)
Definition lease_has_key (family : Z) (type : ni_addrconf_mode_t)
  (l : ni_addrconf_lease_t) : bool :=
  addrconf_mode_eqb (lease_type l) type && (lease_family l =? family).

(** How many leases of the list have the key. *)
Definition key_count (family : Z) (type : ni_addrconf_mode_t)
  (ls : list ni_addrconf_lease_t) : nat :=
  List.length (filter (lease_has_key family type) ls).

(** The invariant: at most one lease for every key. *)
Definition one_per_key {D : Type} (ifp : ni_netdev_t D) : Prop :=
  forall (family : Z) (type : ni_addrconf_mode_t),
    (key_count family type (leases ifp) <= 1)%nat.

(** The operations of interface.c that write the lease list. *)
Inductive lease_op : Type :=
| SetLease (lease : ni_addrconf_lease_t)
| UnsetLease (family : Z) (type : ni_addrconf_mode_t).

Definition apply_lease_op {D : Type} (ifp : ni_netdev_t D) (op : lease_op)
  : ni_netdev_t D :=
  match op with
  | SetLease lease => ni_interface_set_lease ifp lease
  | UnsetLease family type => ni_interface_unset_lease ifp family type
  end.

(** The interface after a sequence of operations, first one first. *)
Definition run_lease_ops {D : Type} (ifp : ni_netdev_t D) (ops : list lease_op)
  : ni_netdev_t D :=
  fold_left apply_lease_op ops ifp.

(* ------------------------------------------------------------------ *)
(** ** The specification's rule for the prefix length of an address *)

(** Following the specification's words: "(1) if the address text itself
    encodes a prefix, use it; (2) else use an explicit prefix-length
    variable if present; (3) else, for IPv4, use an explicit dotted netmask
    and count set bits; (4) else default prefix length = full address width
    for the family (32 for v4, 128 for v6)".  [in_text] is the prefix the
    address text encodes, [in_variable] the value of the prefix-length
    variable, [netmask_bits] the number of set bits of a valid netmask
    variable; each is [None] when there is none. *)
Definition spec_prefix_length (family : Z)
  (in_text in_variable netmask_bits : option Z) : Z :=
  match in_text with
  | Some p => p
  | None =>
      match in_variable with
      | Some p => p
      | None =>
          match (if family =? AF_INET then netmask_bits else None) with
          | Some bits => bits
          | None => if family =? AF_INET then 32 else 128
          end
      end
  end.

(* ------------------------------------------------------------------ *)
(** ** Malformed fields of a route line *)

Section RouteFields.
Context {AO : AddressOps}.

(** The fields of a buffer: destination, gateway, mask, device, type. *)
Definition route_line_fields (buffer : string) : list string :=
  strtok_all blank_chars (cut_at route_line_end buffer).








End RouteFields.

(* ------------------------------------------------------------------ *)
(** ** Reading aids for routes *)

Section RouteReading.
Context {D : Type} {AO : AddressOps}.

(** The route that one buffer of a route file contributes, if any. *)
Definition line_routes (filename buffer : string) : list ni_route_t :=
  match read_route_line filename buffer with
  | LineRoute rp => [rp]
  | _ => []
  end.

(** Whether a global route is attached to an interface: an IPv4 route that
    is bound to no device or to this one, and whose IPv4 gateway one of the
    interface's IPv4 addresses can reach; an IPv6 route that is bound to
    this device. *)
Definition global_route_applies (ifp : ni_netdev_t D) (rp : ni_route_t)
  : bool :=
  if route_family rp =? AF_INET then
    match nh_device rp with
    | Some dv => streq dv (name ifp)
    | None => true
    end
    && (ss_family (nh_gateway rp) =? AF_INET)
    && existsb (fun ap => (addr_family ap =? AF_INET)
                          && ni_address_can_reach ap (nh_gateway rp))
               (addrs ifp)
  else if route_family rp =? AF_INET6 then
    match nh_device rp with
    | Some dv => streq dv (name ifp)
    | None => false
    end
  else false.

End RouteReading.

From Stdlib Require DecimalString DecimalN.

(* ------------------------------------------------------------------ *)
(** ** compat-suse.c: file names *)

(** The [blacklist] of [__ni_suse_ifcfg_valid_suffix]. *)
Definition ifcfg_suffix_blacklist : list string :=
  ["~"; ".old"; ".bak"; ".orig"; ".scpmbackup";
   ".rpmnew"; ".rpmsave"; ".rpmorig"].

(** The loop of [__ni_suse_ifcfg_valid_suffix] over the blacklist. *)
Fixpoint valid_suffix_loop (blacklist : list string) (fname : string) : bool :=
  match blacklist with
  | [] => true
  | suffix :: rest =>
      let nlen := String.length fname in
      let slen := String.length suffix in
      if (nlen <? slen)%nat then valid_suffix_loop rest fname
      else if ni_string_eq (Some suffix)
                           (Some (string_drop (nlen - slen) fname))
      then false
      else valid_suffix_loop rest fname
  end.

(** [__ni_suse_ifcfg_valid_suffix] *)
Definition __ni_suse_ifcfg_valid_suffix (fname : string) (pfxlen : nat)
  : bool :=
  if (String.length fname <=? pfxlen)%nat then false
  else valid_suffix_loop ifcfg_suffix_blacklist fname.

(** [strncmp(a, b, n) == 0] *)
Fixpoint strncmp_eq (n : nat) (a b : string) : bool :=
  match n with
  | O => true
  | S m =>
      match a, b with
      | EmptyString, EmptyString => true
      | String x a', String y b' => Ascii.eqb x y && strncmp_eq m a' b'
      | _, _ => false
      end
  end.

(** [__ni_suse_ifcfg_valid_prefix] *)
Definition __ni_suse_ifcfg_valid_prefix (basename pfx : option string) : bool :=
  match basename, pfx with
  | Some b, Some p => strncmp_eq (String.length p) b p
  | _, _ => false
  end.

(** [__NI_SUSE_CONFIG_IFPREFIX] and [sizeof(__NI_SUSE_CONFIG_IFPREFIX)-1] *)
Definition __NI_SUSE_CONFIG_IFPREFIX : string := "ifcfg-".
Definition ifprefix_len : nat := 6.

(** [ni_scandir] (util.c): the truth value of its result and the names it
    found. *)
Class DirOps : Type := {
  ni_scandir : string -> string -> bool * list string
}.

(** The loop of [__ni_suse_ifcfg_scan_files] over the names found. *)
Fixpoint scan_files_loop (files : list string) (pfxlen : nat)
  (res : list string) : list string :=
  match files with
  | [] => res
  | file :: rest =>
      if negb (__ni_suse_ifcfg_valid_suffix file pfxlen)
      then scan_files_loop rest pfxlen res
      else scan_files_loop rest pfxlen (res ++ [file])
  end.

(** [__ni_suse_ifcfg_scan_files]: the number returned and the array [res]
    afterwards. *)
Definition __ni_suse_ifcfg_scan_files {DO : DirOps} (dirname : string)
  (res : list string) : Z * list string :=
  match ni_scandir dirname (__NI_SUSE_CONFIG_IFPREFIX ++ "*") with
  | (false, _) => (0, res)
  | (true, files) =>
      let res' := scan_files_loop files ifprefix_len res in
      (Z.of_nat (List.length res') - Z.of_nat (List.length res), res')
  end.

(* ------------------------------------------------------------------ *)
(** ** compat-suse.c: VLAN and bonding recognizers *)

Definition __NI_VLAN_TAG_MAX : Z := 4094.

(** [strrchr(s, c) + 1]: the text after the last [c], if there is one. *)
Fixpoint after_last_char (c : ascii) (s : string) : option string :=
  match s with
  | EmptyString => None
  | String x r =>
      match after_last_char c r with
      | Some t => Some t
      | None => if Ascii.eqb x c then Some r else None
      end
  end.

Definition all_digits (s : string) : bool :=
  forallb isdigit (list_ascii_of_string s).

(** The text that the loop [while (len > 0 && isdigit(vlantag[-1]))
    vlantag--] of [try_vlan] ends at: the digits the name ends with.  For a
    name made of digits only the C loop reads the byte before the name;
    here it ends at the start of the name. *)
Fixpoint trailing_digits (s : string) : string :=
  match s with
  | EmptyString => EmptyString
  | String c r =>
      if isdigit c && all_digits r then s else trailing_digits r
  end.

(** A number as [%u] prints it. *)
Definition decimal (z : Z) : string :=
  DecimalString.NilZero.string_of_uint (N.to_uint (Z.to_N z)).

(** [__try_vlan_tag_parse]: the tag stored when it returns TRUE.  The value
    of [strtoul] is stored in an [unsigned int]. *)
Definition __try_vlan_tag_parse (str : string) : option Z :=
  match str with
  | EmptyString => None
  | String c _ =>
      if negb (isdigit c) then None
      else
        let '(v, rest) := strtoul str 10 in
        if streq rest EmptyString then Some (to_uint v) else None
  end.

(** [ni_vlan_t], the members that [try_vlan] writes. *)
Record ni_vlan_t : Type := mk_vlan {
  physdev_name : option string;
  vlan_tag : Z
}.

(** The members of [ni_netdev_t] that the bonding and VLAN recognizers
    write, kept beside the device record: the device, its [bonding] and its
    [link.vlan].  [B] is the type of [ni_bonding_t]. *)
Record suse_netdev (D B : Type) : Type := mk_suse_netdev {
  netdev : ni_netdev_t D;
  bonding : option B;
  vlan : option ni_vlan_t
}.
Arguments mk_suse_netdev {D B}.
Arguments netdev {D B}.
Arguments bonding {D B}.
Arguments vlan {D B}.

(** bonding.c and util.c: the bonding object, the split of a string at
    separator characters, and whether [ni_link_address_parse] accepts a
    hardware address. *)
Class LinkOps (B : Type) : Type := {
  ni_bonding_new : B;
  ni_bonding_add_slave : B -> string -> bool * B;
  ni_bonding_set_option : B -> string -> string -> bool * B;
  ni_bonding_validate : option B -> option string;
  ni_string_split : string -> string -> list string;
  ni_link_address_parse : string -> bool
}.

Section LinkRecognizers.
Context {D B : Type} {SO : SysconfigOps} {BO : BridgeOps D} {LO : LinkOps B}.

Definition with_netdev (nd : suse_netdev D B) (ifp : ni_netdev_t D)
  : suse_netdev D B :=
  mk_suse_netdev ifp (bonding nd) (vlan nd).

Definition with_bonding (nd : suse_netdev D B) (b : option B)
  : suse_netdev D B :=
  mk_suse_netdev (netdev nd) b (vlan nd).

Definition with_vlan (nd : suse_netdev D B) (v : option ni_vlan_t)
  : suse_netdev D B :=
  mk_suse_netdev (netdev nd) (bonding nd) v.

(** [ni_netdev_get_bonding]: the bonding object of a device of link type
    bond, made on first use. *)
Definition ni_netdev_get_bonding (nd : suse_netdev D B) : option B :=
  if negb (link_type (netdev nd) =? NI_IFTYPE_BOND) then None
  else match bonding nd with
       | Some b => Some b
       | None => Some ni_bonding_new
       end.

(** [try_add_bonding_slave] *)
Definition try_add_bonding_slave (sc : ni_sysconfig_t) (nd : suse_netdev D B)
  (suffix : string) : bool * suse_netdev D B :=
  match __find_indexed_variable sc "BONDING_SLAVE" suffix with
  | None => (false, nd)
  | Some var =>
      let nd1 := with_netdev nd (with_link_type (netdev nd) NI_IFTYPE_BOND) in
      match ni_netdev_get_bonding nd1 with
      | None => (false, nd1)
      | Some bond =>
          let '(ok, bond') := ni_bonding_add_slave bond (value_text var) in
          (ok, with_bonding nd1 (Some bond'))
      end
  end.

(** The loop of [__process_indexed_variables]: [func] is called with the
    suffix of every name until it returns FALSE. *)
Fixpoint process_indexed_loop {S : Type} (names : list string) (pfxlen : nat)
  (func : S -> string -> bool * S) (st : S) : bool * S :=
  match names with
  | [] => (true, st)
  | n :: rest =>
      match func st (string_drop pfxlen n) with
      | (false, st') => (false, st')
      | (true, st') => process_indexed_loop rest pfxlen func st'
      end
  end.

(** [__process_indexed_variables] *)
Definition __process_indexed_variables {S : Type} (sc : ni_sysconfig_t)
  (st : S) (basename : string)
  (func : ni_sysconfig_t -> S -> string -> bool * S) : bool * S :=
  match ni_sysconfig_find_matching sc basename with
  | (false, _) => (false, st)
  | (true, names) =>
      process_indexed_loop names (String.length basename) (func sc) st
  end.

(** The loop of [try_set_bonding_options] over the split options: the
    flag, the bonding object, and the error logged. *)
Fixpoint bonding_options_loop (ifname options : string) (temp : list string)
  (bond : B) : bool * B * list string :=
  match temp with
  | [] => (true, bond, [])
  | entry :: rest =>
      let '(key, val) := split_at_char "=" entry in
      match key, val with
      | String _ _, Some (String v0 vr) =>
          match ni_bonding_set_option bond key (String v0 vr) with
          | (false, bond') =>
              (false, bond',
               ["ifcfg-" ++ ifname ++ ": Unable to parse bonding option: "
                ++ key ++ "=" ++ String v0 vr])
          | (true, bond') => bonding_options_loop ifname options rest bond'
          end
      | _, _ =>
          (false, bond,
           ["ifcfg-" ++ ifname ++ ": Unable to parse bonding options '"
            ++ options ++ "'"])
      end
  end.

(** [try_set_bonding_options] *)
Definition try_set_bonding_options (nd : suse_netdev D B) (options : string)
  : bool * suse_netdev D B * list string :=
  match ni_netdev_get_bonding nd with
  | None => (false, nd, [])
  | Some bond =>
      let '(ok, bond', log) :=
        bonding_options_loop (name (netdev nd)) options
                             (ni_string_split options blank_chars) bond in
      (ok, with_bonding nd (Some bond'), log)
  end.

(** [try_bonding] *)
Definition try_bonding (sc : ni_sysconfig_t) (nd : suse_netdev D B)
  : bool * suse_netdev D B * list string :=
  match ni_sysconfig_get_boolean sc "BONDING_MASTER" with
  | Some true =>
      match __process_indexed_variables sc nd "BONDING_SLAVE"
                                        try_add_bonding_slave with
      | (false, nd1) => (false, nd1, [])
      | (true, nd1) =>
          let '(ok, nd2, log2) :=
            match ni_sysconfig_get_value sc "BONDING_MODULE_OPTS" with
            | Some module_opts => try_set_bonding_options nd1 module_opts
            | None => (true, nd1, [])
            end in
          if negb ok then (false, nd2, log2)
          else
            let nd3 :=
              match ni_netdev_get_bonding nd2 with
              | Some b => with_bonding nd2 (Some b)
              | None => nd2
              end in
            match ni_bonding_validate (ni_netdev_get_bonding nd2) with
            | Some err =>
                (false, nd3,
                 (log2 ++ [("ifcfg-" ++ name (netdev nd2)
                            ++ ": bonding validation: " ++ err)%string])%list)
            | None => (true, nd3, log2)
            end
      end
  | _ => (false, nd, [])
  end.

(** The tag text that [try_vlan] takes from the interface name: what
    follows the last dot, or else the digits the name ends with. *)
Definition vlan_tag_of_name (ifname : string) : string :=
  match after_last_char "." ifname with
  | Some t => t
  | None => trailing_digits ifname
  end.

(** [try_vlan].  On success the VLAN object, made on first use, gets the
    parent device name and the tag. *)
Definition try_vlan (sc : ni_sysconfig_t) (nd : suse_netdev D B)
  : bool * suse_netdev D B * list string :=
  let ifname := name (netdev nd) in
  match ni_sysconfig_get_value sc "ETHERDEVICE" with
  | None => (false, nd, [])
  | Some etherdev =>
      if streq ifname etherdev then
        (false, nd,
         ["ifcfg-" ++ ifname ++ ": ETHERDEVICE=" ++ dquote ++ etherdev
          ++ dquote ++ " self-reference"])
      else
        let parsed :=
          match ni_sysconfig_get_value sc "VLAN_ID" with
          | Some vlantag =>
              match __try_vlan_tag_parse vlantag with
              | Some tag => inl tag
              | None =>
                  inr ("ifcfg-" ++ ifname ++ ": Cannot parse VLAN_ID="
                       ++ dquote ++ vlantag ++ dquote)
              end
          | None =>
              match __try_vlan_tag_parse (vlan_tag_of_name ifname) with
              | Some tag => inl tag
              | None =>
                  inr ("ifcfg-" ++ ifname
                       ++ ": Cannot parse vlan-tag from interface name")
              end
          end in
        match parsed with
        | inr msg => (false, nd, [msg])
        | inl tag =>
            if __NI_VLAN_TAG_MAX <? tag then
              (false, nd,
               ["ifcfg-" ++ ifname ++ ": VLAN tag " ++ decimal tag
                ++ " is out of numerical range"])
            else
              let nd1 :=
                with_netdev nd (with_link_type (netdev nd) NI_IFTYPE_VLAN) in
              (true,
               with_vlan nd1 (Some (mk_vlan (Some etherdev) tag)),
               [])
        end
  end.

End LinkRecognizers.

(* ------------------------------------------------------------------ *)
(** ** compat-suse.c: translating one ifcfg file *)

(** [ni_compat_netdev_t] together with the bonding and VLAN members of its
    device. *)
Record suse_compat (D B : Type) : Type := mk_suse_compat {
  compat : ni_compat_netdev_t D;
  compat_bonding : option B;
  compat_vlan : option ni_vlan_t
}.
Arguments mk_suse_compat {D B}.
Arguments compat {D B}.
Arguments compat_bonding {D B}.
Arguments compat_vlan {D B}.

(** util.c and sysconfig.c: the last component of a path, and reading a
    sysconfig file ([None]: it cannot be read). *)
Class InterfaceFileOps {SO : SysconfigOps} : Type := {
  ni_basename : string -> string;
  ni_sysconfig_read : string -> option ni_sysconfig_t
}.

Definition with_link_mtu {D : Type} (ifp : ni_netdev_t D) (mtu : Z)
  : ni_netdev_t D :=
  mk_netdev (name ifp) (link_type ifp) mtu (bridge ifp) (addrs ifp)
            (routes ifp) (leases ifp).

Section Translate.
Context {D B : Type} {SO : SysconfigOps} {AO : AddressOps} {FO : FileOps}
        {BO : BridgeOps D} {LO : LinkOps B} {IO : InterfaceFileOps}.

(** The chain [!try_loopback(..) && !try_bonding(..) && ... &&
    !try_ethernet(..)] of [__ni_suse_sysconfig_read]: the recognizers run
    in this order until one returns TRUE; what a recognizer that returned
    FALSE has written stays written. *)
Definition recognize_link (sc : ni_sysconfig_t) (nd : suse_netdev D B)
  : suse_netdev D B * list string :=
  let '(ok1, ifp1) := try_loopback sc (netdev nd) in
  let nd1 := with_netdev nd ifp1 in
  if ok1 then (nd1, [])
  else
    let '(ok2, nd2, log2) := try_bonding sc nd1 in
    if ok2 then (nd2, log2)
    else
      let '(ok3, ifp3, log3) := try_bridge sc (netdev nd2) in
      let nd3 := with_netdev nd2 ifp3 in
      if ok3 then (nd3, (log2 ++ log3)%list)
      else
        let '(ok4, nd4, log4) := try_vlan sc nd3 in
        if ok4 then (nd4, (log2 ++ log3 ++ log4)%list)
        else
          let '(ok5, ifp5, log5) := try_wireless sc (netdev nd4) in
          let nd5 := with_netdev nd4 ifp5 in
          if ok5 then (nd5, (log2 ++ log3 ++ log4 ++ log5)%list)
          else
            let '(ok6, ifp6) := try_tunnel sc (netdev nd5) in
            let nd6 := with_netdev nd5 ifp6 in
            if ok6 then (nd6, (log2 ++ log3 ++ log4 ++ log5)%list)
            else
              let '(ok7, ifp7) := try_ethernet sc (netdev nd6) in
              (with_netdev nd6 ifp7, (log2 ++ log3 ++ log4 ++ log5)%list).

(** [__ni_suse_sysconfig_read]: the value returned, the configuration, and
    what was logged. *)
Definition __ni_suse_sysconfig_read (g : suse_globals ni_sysconfig_t)
  (sc : ni_sysconfig_t) (st : suse_compat D B)
  : Z * suse_compat D B * list string :=
  let c1 := __ni_suse_sysconfig_read_control sc (compat st) in
  let ifp1 :=
    match ni_sysconfig_get_integer sc "MTU" with
    | Some mtu => with_link_mtu (dev c1) mtu
    | None => dev c1
    end in
  let log1 :=
    match ni_sysconfig_get_value sc "LLADDR" with
    | Some value =>
        if negb (ni_link_address_parse value) then
          ["ifcfg-" ++ name ifp1 ++ ": Cannot parse LLADDR=" ++ dquote
           ++ value ++ dquote]
        else []
    | None => []
    end in
  let '(nd, log2) :=
    recognize_link sc (mk_suse_netdev ifp1 (compat_bonding st)
                                      (compat_vlan st)) in
  let '(c3, log3) := __ni_suse_bootproto g sc (with_dev c1 (netdev nd)) in
  (0, mk_suse_compat c3 (bonding nd) (vlan nd), (log1 ++ log2 ++ log3)%list).

(** The interface name that [__ni_suse_read_interface] settles on, or the
    error it logs: a given name is taken as it is; without one the name is
    what follows [ifcfg-] in the file's base name. *)
Definition read_interface_name (filename : string) (ifname : option string)
  : string + string :=
  let basename := ni_basename filename in
  match ifname with
  | Some (String c r) => inl (String c r)
  | _ =>
      if negb (__ni_suse_ifcfg_valid_prefix (Some basename)
                                            (Some __NI_SUSE_CONFIG_IFPREFIX))
      then inr ("Rejecting file without '" ++ __NI_SUSE_CONFIG_IFPREFIX
                ++ "' prefix: " ++ filename)
      else if negb (__ni_suse_ifcfg_valid_suffix basename ifprefix_len)
      then inr ("Rejecting blacklisted " ++ __NI_SUSE_CONFIG_IFPREFIX
                ++ "file: " ++ filename)
      else inl (string_drop ifprefix_len basename)
  end.

(** [__ni_suse_read_interface]: the configuration returned ([None] is
    NULL) and what was logged. *)
Definition __ni_suse_read_interface (g : suse_globals ni_sysconfig_t)
  (filename : string) (ifname : option string)
  : option (suse_compat D B) * list string :=
  match read_interface_name filename ifname with
  | inr msg => (None, [msg])
  | inl ifname' =>
      if negb (__ni_suse_valid_ifname ifname') then
        (None, ["Rejecting suspect interface name: " ++ ifname'])
      else
        match ni_sysconfig_read filename with
        | None => (None, ["unable to parse " ++ filename])
        | Some sc =>
            let '(rv, st, log) :=
              __ni_suse_sysconfig_read g sc
                (mk_suse_compat (ni_compat_netdev_new ifname') None None) in
            if rv <? 0 then (None, log) else (Some st, log)
        end
  end.

End Translate.

(* ------------------------------------------------------------------ *)
(** ** More reference implementations *)

Module MoreReference.
Import Reference.

Definition dir_ops (files : list string) : DirOps := {|
  ni_scandir := fun _ _ =>
    (match files with [] => false | _ => true end, files)
|}.

(** A bonding object: its slaves and its options, in the order given. *)
Record bond : Type := mk_bond {
  slaves : list string;
  bond_options : list (string * string)
}.

(** Six pairs of hexadecimal digits between colons. *)
Definition link_address_parse (s : string) : bool :=
  match numbers_in 16 2 (fields ":" s) with
  | Some l => (List.length l =? 6)%nat
  | None => false
  end.

Definition link_ops : LinkOps bond := {|
  ni_bonding_new := mk_bond [] [];
  ni_bonding_add_slave := fun b s =>
    (true, mk_bond (slaves b ++ [s]) (bond_options b));
  ni_bonding_set_option := fun b k v =>
    (true, mk_bond (slaves b) (bond_options b ++ [(k, v)]));
  ni_bonding_validate := fun b =>
    match b with
    | Some (mk_bond (_ :: _) _) => None
    | _ => Some "no slave devices"
    end;
  ni_string_split := fun s sep => strtok_all sep s;
  ni_link_address_parse := link_address_parse
|}.

Definition basename (path : string) : string :=
  match after_last_char "/" path with
  | Some t => t
  | None => path
  end.

Definition read_file (files : list (string * sysconfig)) (path : string)
  : option sysconfig :=
  option_map snd (find (fun f => streq (fst f) path) files).

Definition interface_file_ops (files : list (string * sysconfig))
  : InterfaceFileOps (SO := sysconfig_ops) :=
  @Build_InterfaceFileOps sysconfig_ops basename (read_file files).

(** [__ni_suse_read_interface] over the reference implementations, with a
    directory that holds the given ifcfg files. *)
Definition read_interface_of (files : list (string * sysconfig))
  (filename : string) (ifname : option string)
  : option (suse_compat string bond) * list string :=
  __ni_suse_read_interface (SO := sysconfig_ops) (AO := address_ops)
    (FO := file_ops []) (BO := bridge_ops) (LO := link_ops)
    (IO := interface_file_ops files) Samples.no_globals filename ifname.

(** The recognizers over the reference implementations, on a new device. *)
Definition new_netdev (ifname : string) : suse_netdev string bond :=
  mk_suse_netdev (__ni_interface_new ifname 0) None None.

Definition vlan_of (sc : sysconfig) (ifname : string)
  : bool * suse_netdev string bond * list string :=
  try_vlan (SO := sysconfig_ops) sc (new_netdev ifname).

Definition bonding_of (sc : sysconfig) (ifname : string)
  : bool * suse_netdev string bond * list string :=
  try_bonding (SO := sysconfig_ops) (LO := link_ops) sc (new_netdev ifname).

Definition link_of (sc : sysconfig) (ifname : string)
  : suse_netdev string bond * list string :=
  recognize_link (SO := sysconfig_ops) (BO := bridge_ops) (LO := link_ops)
                 sc (new_netdev ifname).

End MoreReference.

(** An option of the form [key=value], neither part empty and no [=] in
    the key: what [try_set_bonding_options] takes. *)
Definition key_value_option (entry : string) : Prop :=
  exists key val : string,
    entry = (key ++ "=" ++ val)%string
    /\ key <> EmptyString /\ val <> EmptyString
    /\ ~ In "="%char (list_ascii_of_string key).

(* ------------------------------------------------------------------ *)
(** ** interface.c: guessing the link type *)

(** The table [__ifname_types] of [ni_interface_guess_type]. *)
Definition __ifname_types : list (string * Z) :=
  [ ("ib", NI_IFTYPE_INFINIBAND);
    ("ip6tunl", NI_IFTYPE_TUNNEL6);
    ("ipip", NI_IFTYPE_TUNNEL);
    ("sit", NI_IFTYPE_SIT);
    ("tun", NI_IFTYPE_TUN) ].

(** [isdigit(s[n])] for a text of at least [n] characters; the byte after
    the last character is NUL. *)
Definition digit_at (n : nat) (s : string) : bool :=
  match string_drop n s with
  | String c _ => isdigit c
  | EmptyString => false
  end.

Section GuessType.
Context {D : Type}.

(** The loop of [ni_interface_guess_type] over the table. *)
Fixpoint ifname_types_loop (map : list (string * Z)) (ifp : ni_netdev_t D)
  : ni_netdev_t D :=
  match map with
  | [] => ifp
  | (map_name, map_value) :: rest =>
      let len := String.length map_name in
      if strncmp_eq len (name ifp) map_name && digit_at len (name ifp)
      then with_link_type ifp map_value
      else ifname_types_loop rest ifp
  end.

(** [ni_interface_guess_type], for an interface that has a name: the value
    returned and the interface afterwards. *)
Definition ni_interface_guess_type (ifp : ni_netdev_t D)
  : Z * ni_netdev_t D :=
  if negb (link_type ifp =? NI_IFTYPE_UNKNOWN) then (link_type ifp, ifp)
  else
    let ifp1 := with_link_type ifp NI_IFTYPE_ETHERNET in
    let ifp2 :=
      if streq (name ifp1) "lo"
      then with_link_type ifp1 NI_IFTYPE_LOOPBACK
      else ifname_types_loop __ifname_types ifp1 in
    (link_type ifp2, ifp2).

End GuessType.

(* ------------------------------------------------------------------ *)
(** ** names.c: interface types and ARP hardware types *)

(** The ARPHRD_ constants that names.c takes from [<net/if_arp.h>], with
    their Linux values. *)
Definition ARPHRD_ETHER : Z := 1.
Definition ARPHRD_INFINIBAND : Z := 32.
Definition ARPHRD_SLIP : Z := 256.
Definition ARPHRD_CSLIP : Z := 257.
Definition ARPHRD_PPP : Z := 512.
Definition ARPHRD_TUNNEL : Z := 768.
Definition ARPHRD_TUNNEL6 : Z := 769.
Definition ARPHRD_LOOPBACK : Z := 772.
Definition ARPHRD_SIT : Z := 776.
Definition ARPHRD_IPGRE : Z := 778.
Definition ARPHRD_NONE : Z := 65534.

(** The table [__ni_arptype_iftype_map]: [type] and [arp_type]. *)
Definition __ni_arptype_iftype_map : list (Z * Z) :=
  [ (NI_IFTYPE_LOOPBACK, ARPHRD_LOOPBACK);
    (NI_IFTYPE_ETHERNET, ARPHRD_ETHER);
    (NI_IFTYPE_BRIDGE, ARPHRD_ETHER);
    (NI_IFTYPE_BOND, ARPHRD_ETHER);
    (NI_IFTYPE_VLAN, ARPHRD_ETHER);
    (NI_IFTYPE_WIRELESS, ARPHRD_ETHER);
    (NI_IFTYPE_INFINIBAND, ARPHRD_INFINIBAND);
    (NI_IFTYPE_PPP, ARPHRD_PPP);
    (NI_IFTYPE_SLIP, ARPHRD_SLIP);
    (NI_IFTYPE_SLIP, ARPHRD_CSLIP);
    (NI_IFTYPE_SIT, ARPHRD_SIT);
    (NI_IFTYPE_GRE, ARPHRD_IPGRE);
    (NI_IFTYPE_TUNNEL, ARPHRD_TUNNEL);
    (NI_IFTYPE_TUNNEL6, ARPHRD_TUNNEL6);
    (NI_IFTYPE_TUN, ARPHRD_ETHER);
    (NI_IFTYPE_TAP, ARPHRD_ETHER);
    (NI_IFTYPE_DUMMY, ARPHRD_LOOPBACK);
    (NI_IFTYPE_UNKNOWN, ARPHRD_NONE) ].

(** A cast of an [unsigned int] to [int]. *)
Definition to_int (z : Z) : Z :=
  if z <? 2147483648 then z else z - 4294967296.

(** The loop of [ni_arphrd_type_to_iftype]: it ends at the first entry
    whose [arp_type] is ARPHRD_NONE or equal to the [int] argument, and
    that entry's [type] is returned.  The table ends with an ARPHRD_NONE
    entry, so the end of the list is not reached. *)
Fixpoint arphrd_type_loop (map : list (Z * Z)) (arp_type : Z) : Z :=
  match map with
  | [] => NI_IFTYPE_UNKNOWN
  | (type, arp) :: rest =>
      if negb (arp =? ARPHRD_NONE) then
        if arp =? to_uint arp_type then type
        else arphrd_type_loop rest arp_type
      else type
  end.

(** [ni_arphrd_type_to_iftype] *)
Definition ni_arphrd_type_to_iftype (arp_type : Z) : Z :=
  to_uint (arphrd_type_loop __ni_arptype_iftype_map arp_type).

(** The loop of [ni_iftype_to_arphrd_type]. *)
Fixpoint iftype_loop (map : list (Z * Z)) (iftype : Z) : Z :=
  match map with
  | [] => ARPHRD_NONE
  | (type, arp) :: rest =>
      if negb (arp =? ARPHRD_NONE) then
        if to_uint type =? iftype then arp
        else iftype_loop rest iftype
      else arp
  end.

(** [ni_iftype_to_arphrd_type] *)
Definition ni_iftype_to_arphrd_type (iftype : Z) : Z :=
  to_int (iftype_loop __ni_arptype_iftype_map iftype).

(* ------------------------------------------------------------------ *)
(** ** Route files, line by line *)

(** The lines of a text: the pieces between its newline characters.  A
    text that ends with a newline has an empty last piece. *)
Fixpoint text_lines (text : string) : list string :=
  match text with
  | EmptyString => [EmptyString]
  | String c rest =>
      if code c =? 10 then EmptyString :: text_lines rest
      else add_to_head c (text_lines rest)
  end.

(** Every line of the text, with its newline, fits the [buffer[512]] that
    [fgets] fills in [__ni_suse_read_routes]: no line is longer than 510
    characters.  Then every buffer is a line. *)
Definition lines_fit_buffer (text : string) : bool :=
  forallb (fun line => (String.length line <=? 510)%nat) (text_lines text).

(** A line without its comment: the text before the first [#]. *)
Definition before_comment (line : string) : string :=
  cut_at (String "#" EmptyString) line.


(* ================================================================== *)
(** * Part II. Theorems                                                *)
(* ================================================================== *)

Example strtok_route_line :
  strtok_all blank_chars "default 192.168.1.1 - -" = ["default"; "192.168.1.1"; "-"; "-"].
Proof. reflexivity. Qed.

Example strtoul_samples :
  fst (strtoul "24" 10) = 24 /\ fst (strtoul "0x1f" 0) = 31 /\
  fst (strtoul "017" 0) = 15 /\ fst (strtoul "abc" 0) = 0 /\
  fst (strtoul " -1" 10) = ULONG_MAX /\ strtoul "12ab" 10 = (12, "ab").
Proof. repeat split; vm_compute; reflexivity. Qed.


(* ------------------------------------------------------------------ *)
(** ** Start modes *)

Lemma find_control_params_outside :
  forall (table : list (string * ni_ifworker_control_t)) (m : string),
    ~ In m (map fst table) -> find_control_params table m = None.
Proof.
  induction table as [| [pname pcontrol] rest IH]; intros m Hout.
  - reflexivity.
  - simpl in *. unfold streq.
    destruct (String.eqb_spec pname m) as [Heq | Hne].
    + exfalso. apply Hout. now left.
    + apply IH. intro Hin. apply Hout. now right.
Qed.

Lemma find_control_params_inside :
  forall (table : list (string * ni_ifworker_control_t)) (m : string),
    In m (map fst table) -> exists c, find_control_params table m = Some c.
Proof.
  induction table as [| [pname pcontrol] rest IH]; intros m Hin.
  - contradiction.
  - simpl in *. unfold streq.
    destruct (String.eqb_spec pname m) as [Heq | Hne].
    + now exists pcontrol.
    + destruct Hin as [Heq | Hin]; [contradiction | now apply IH].
Qed.

Example startmode_table_entries :
  __ni_suse_startmode (Some "auto") = mk_control (Some "boot") None false true 30
  /\ __ni_suse_startmode (Some "nfsroot")
     = mk_control (Some "boot") (Some "localfs") true true 4294967295
  /\ __ni_suse_startmode (Some "off") = mk_control (Some "off") None false false 0
  /\ __ni_suse_startmode (Some "manual") = mk_control None None true false 30.
Proof. repeat split. Qed.

(** C10: start-mode resolution is a total function, and for every
    STARTMODE value outside the fixed table (manual, auto, boot, onboot, on,
    hotplug, ifplugd, nfsroot, off), and when STARTMODE is absent, the
    control policy is that of [manual]: no link class, no require-link,
    mandatory, not persistent, timeout 30.  The same holds for the policy
    that [__ni_suse_sysconfig_read] stores from the STARTMODE variable. *)
Theorem startmode_defaults_to_manual :
  forall {D : Type} {SO : SysconfigOps} (mode : option string),
    (forall m, mode = Some m ->
       ~ In m ["manual"; "auto"; "boot"; "onboot"; "on"; "hotplug";
               "ifplugd"; "nfsroot"; "off"]) ->
    __ni_suse_startmode mode = mk_control None None true false 30
    /\ forall (sc : ni_sysconfig_t) (c : ni_compat_netdev_t D),
         ni_sysconfig_get_value sc "STARTMODE" = mode ->
         control (__ni_suse_sysconfig_read_control sc c)
         = Some (mk_control None None true false 30).
Proof.
  intros D SO mode Hout.
  assert (Hmode : __ni_suse_startmode mode = mk_control None None true false 30).
  { destruct mode as [m |]; [| reflexivity].
    unfold __ni_suse_startmode.
    rewrite find_control_params_outside; [reflexivity |].
    exact (Hout m eq_refl). }
  split; [exact Hmode |].
  intros sc c Hget. unfold __ni_suse_sysconfig_read_control.
  rewrite Hget. destruct mode as [m |]; simpl; now rewrite Hmode.
Qed.

Lemma startmode_defaults_to_manual_witness :
  __ni_suse_startmode (Some "sometimes") = mk_control None None true false 30
  /\ __ni_suse_startmode None = mk_control None None true false 30
  /\ control (__ni_suse_sysconfig_read_control (SO := Reference.sysconfig_ops)
                (Reference.mk_sysconfig "/etc/sysconfig/network/ifcfg-eth0"
                   [Reference.var "STARTMODE" "sometimes"] 0)
                (ni_compat_netdev_new (D := string) "eth0"))
     = Some (mk_control None None true false 30).
Proof.
  assert (Hout : forall m, Some "sometimes" = Some m ->
            ~ In m ["manual"; "auto"; "boot"; "onboot"; "on"; "hotplug";
                    "ifplugd"; "nfsroot"; "off"]).
  { intros m Hm. injection Hm as <-. simpl. intuition discriminate. }
  assert (Hnone : forall m, @None string = Some m ->
            ~ In m ["manual"; "auto"; "boot"; "onboot"; "on"; "hotplug";
                    "ifplugd"; "nfsroot"; "off"]).
  { intros m Hm. discriminate Hm. }
  split; [| split].
  - exact (proj1 (startmode_defaults_to_manual (D := string)
                    (SO := Reference.sysconfig_ops) _ Hout)).
  - exact (proj1 (startmode_defaults_to_manual (D := string)
                    (SO := Reference.sysconfig_ops) _ Hnone)).
  - apply (proj2 (startmode_defaults_to_manual (D := string)
                    (SO := Reference.sysconfig_ops) _ Hout)).
    reflexivity.
Defined.

(* ------------------------------------------------------------------ *)
(** ** Tunnels *)

Section TunnelFacts.
Context {D : Type} {SO : SysconfigOps}.

Lemma tunnel_map_loop_listed :
  forall (map : list (string * Z)) (value : string) (ptr : Z)
         (ifp : ni_netdev_t D),
    In value (List.map fst map) ->
    tunnel_map_loop map value ptr ifp = with_link_type ifp (to_uint ptr).
Proof.
  induction map as [| [n v] rest IH]; intros value ptr ifp Hin.
  - contradiction.
  - simpl in *. unfold streq.
    destruct (String.eqb_spec n value) as [Heq | Hne]; [reflexivity |].
    destruct Hin as [Heq | Hin]; [contradiction | now apply IH].
Qed.

Lemma tunnel_map_loop_unlisted :
  forall (map : list (string * Z)) (value : string) (ptr : Z)
         (ifp : ni_netdev_t D),
    ~ In value (List.map fst map) ->
    tunnel_map_loop map value ptr ifp = ifp.
Proof.
  induction map as [| [n v] rest IH]; intros value ptr ifp Hout.
  - reflexivity.
  - simpl in *. unfold streq.
    destruct (String.eqb_spec n value) as [Heq | Hne].
    + exfalso. apply Hout. now left.
    + apply IH. intro Hin. apply Hout. now right.
Qed.

(** For a TUNNEL value of the table the link type becomes the pointer to
    the value text, cut to 32 bits; the constant beside the name in the
    table is not read. *)
Lemma try_tunnel_listed_kind :
  forall (sc : ni_sysconfig_t) (ifp : ni_netdev_t D) (value : string),
    ni_sysconfig_get_value sc "TUNNEL" = Some value ->
    In value ["tun"; "tap"; "sit"; "gre"; "ipip"; "ip6tnl"] ->
    try_tunnel sc ifp
    = (true, with_link_type ifp
               (to_uint (ni_sysconfig_value_address sc "TUNNEL"))).
Proof.
  intros sc ifp value Hget Hin. unfold try_tunnel. rewrite Hget.
  now rewrite tunnel_map_loop_listed.
Qed.

(** For any other TUNNEL value, and without the variable, the device is
    left as it was and the recognizer returns TRUE. *)
Lemma try_tunnel_unlisted_kind :
  forall (sc : ni_sysconfig_t) (ifp : ni_netdev_t D),
    (forall value, ni_sysconfig_get_value sc "TUNNEL" = Some value ->
       ~ In value ["tun"; "tap"; "sit"; "gre"; "ipip"; "ip6tnl"]) ->
    try_tunnel sc ifp = (true, ifp).
Proof.
  intros sc ifp Hout. unfold try_tunnel.
  destruct (ni_sysconfig_get_value sc "TUNNEL") as [value |]; [| reflexivity].
  rewrite tunnel_map_loop_unlisted; [reflexivity |].
  exact (Hout value eq_refl).
Qed.

End TunnelFacts.

(** C7 (the code departs from the claim): with TUNNEL=tun, and equally
    with TUNNEL=gre, the link type that [try_tunnel] stores is the address
    of the value text cut to 32 bits, here 1089229536, and not the table's
    constant (15 for tun, 11 for gre). *)
Theorem try_tunnel_stores_pointer_not_table_constant :
  link_type (snd (Samples.tunnel_of
                    (Samples.ifcfg "tun0" [Reference.var "STARTMODE" "auto";
                                           Reference.var "TUNNEL" "tun"])
                    "tun0")) = 1089229536
  /\ link_type (snd (Samples.tunnel_of
                       (Samples.ifcfg "gre1" [Reference.var "STARTMODE" "auto";
                                              Reference.var "TUNNEL" "gre"])
                       "gre1")) = 1089229536
  /\ NI_IFTYPE_TUN = 15 /\ NI_IFTYPE_GRE = 11.
Proof. repeat split; vm_compute; reflexivity. Qed.

(* ------------------------------------------------------------------ *)
(** ** Bridges *)

Lemma strcaseeq_lower :
  forall a b : string, strcaseeq a b = true <-> lower a = lower b.
Proof.
  induction a as [| x a IH]; destruct b as [| y b]; simpl;
    try (split; [discriminate | discriminate]); [tauto |].
  rewrite andb_true_iff, IH, Ascii.eqb_eq. split.
  - intros [-> ->]. reflexivity.
  - intros Heq. injection Heq. auto.
Qed.

Lemma strcaseeq_apart :
  forall v a b : string,
    strcaseeq v a = true -> lower a <> lower b -> strcaseeq v b = false.
Proof.
  intros v a b Ha Hne. destruct (strcaseeq v b) eqn:Hb; [| reflexivity].
  apply strcaseeq_lower in Ha, Hb. congruence.
Qed.

Section BridgeFacts.
Context {D : Type} {SO : SysconfigOps} {BO : BridgeOps D}.

(** What the BRIDGE_STP block stores: TRUE for [off] and [no], FALSE for
    [on] and [yes], in any mix of cases; any other text is an error that
    names BRIDGE_STP. *)
Lemma bridge_stp_step_cases :
  forall (sc : ni_sysconfig_t) (ifname : string) (b : ni_bridge_t D)
         (value : string),
    ni_sysconfig_get_value sc "BRIDGE_STP" = Some value ->
    ((strcaseeq value "off" = true \/ strcaseeq value "no" = true) ->
       bridge_stp_step sc ifname b = Go (with_stp b true))
    /\ ((strcaseeq value "on" = true \/ strcaseeq value "yes" = true) ->
          bridge_stp_step sc ifname b = Go (with_stp b false))
    /\ (strcaseeq value "off" = false -> strcaseeq value "no" = false ->
        strcaseeq value "on" = false -> strcaseeq value "yes" = false ->
          bridge_stp_step sc ifname b
          = Stop b (cannot_parse_msg ifname "BRIDGE_STP" value)).
Proof.
  intros sc ifname b value Hget. unfold bridge_stp_step. rewrite Hget.
  split; [| split].
  - intros [Hv | Hv]; rewrite Hv; [reflexivity | now rewrite orb_true_r].
  - intros [Hv | Hv].
    + rewrite (strcaseeq_apart value "on" "off" Hv) by discriminate.
      rewrite (strcaseeq_apart value "on" "no" Hv) by discriminate.
      now rewrite Hv.
    + rewrite (strcaseeq_apart value "yes" "off" Hv) by discriminate.
      rewrite (strcaseeq_apart value "yes" "no" Hv) by discriminate.
      rewrite Hv. now rewrite orb_true_r.
  - intros H1 H2 H3 H4. now rewrite H1, H2, H3, H4.
Qed.

End BridgeFacts.

Lemma nth_error_update_nth :
  forall (A : Type) (f : A -> A) (l : list A) (i k : nat),
    nth_error (update_nth i f l) k
    = if (k =? i)%nat then option_map f (nth_error l k) else nth_error l k.
Proof.
  induction l as [| x r IH]; intros i k.
  - destruct i, k; simpl; try reflexivity; now destruct (k =? i)%nat.
  - destruct i, k; simpl; try reflexivity. apply IH.
Qed.

(** Where the tokens of the two per-port lists end up.  The priorities
    are aligned with the ports; the path costs go to every second port. *)
Section PortFacts.
Context {D : Type} {BO : BridgeOps D}.
Variable ifname : string.

Lemma portprios_loop_aligned :
  forall (value : string) (prios : list string) (i : nat)
         (b b' : ni_bridge_t D),
    bridge_portprios_loop ifname value prios i b = Go b' ->
    forall k,
      nth_error (ports b') k
      = option_map (fun p => if (k <? i)%nat then p
                             else token_applied with_port_priority prios
                                                (k - i) p)
                   (nth_error (ports b) k).
Proof.
  intros value. induction prios as [| prio rest IH]; intros i b b' Hgo k.
  - cbn [bridge_portprios_loop bridge_pathcosts_loop] in Hgo. injection Hgo as <-.
    destruct (nth_error (ports b) k); simpl; [| reflexivity].
    f_equal. destruct (k <? i)%nat; [reflexivity |].
    unfold token_applied. now destruct (k - i)%nat.
  - cbn [bridge_portprios_loop bridge_pathcosts_loop] in Hgo. destruct (nth_error (ports b) i) as [port |] eqn:Hi.
    + destruct (streq "-" prio) eqn:Hd.
      * rewrite (IH _ _ _ Hgo k).
        destruct (nth_error (ports b) k) as [p |]; simpl; [| reflexivity].
        f_equal.
        destruct (Nat.ltb_spec k (S i)), (Nat.ltb_spec k i); try lia;
          try reflexivity.
        -- assert (k - i = 0)%nat as -> by lia.
           unfold token_applied. cbn [nth_error]. now rewrite Hd.
        -- assert (k - i = S (k - S i))%nat as -> by lia. reflexivity.
      * destruct (ni_parse_int prio 0) as [tmp |] eqn:Hp; [| discriminate].
        rewrite (IH _ _ _ Hgo k). simpl ports.
        rewrite nth_error_update_nth.
        destruct (Nat.eqb_spec k i) as [-> | Hne].
        -- rewrite Hi. simpl. f_equal.
           destruct (Nat.ltb_spec i (S i)), (Nat.ltb_spec i i); try lia.
           rewrite Nat.sub_diag. unfold token_applied. cbn [nth_error].
           now rewrite Hd, Hp.
        -- destruct (nth_error (ports b) k) as [p |]; simpl; [| reflexivity].
           f_equal.
           destruct (Nat.ltb_spec k (S i)), (Nat.ltb_spec k i); try lia;
             try reflexivity.
           assert (k - i = S (k - S i))%nat as -> by lia. reflexivity.
    + injection Hgo as <-.
      destruct (nth_error (ports b) k) as [p |] eqn:Hk; simpl; [| reflexivity].
      f_equal. apply nth_error_None in Hi.
      assert (k < List.length (ports b))%nat
        by (apply nth_error_Some; congruence).
      destruct (Nat.ltb_spec k i); [reflexivity | lia].
Qed.

Lemma pathcosts_loop_strided :
  forall (value : string) (costs : list string) (i : nat)
         (b b' : ni_bridge_t D),
    bridge_pathcosts_loop ifname value costs i b = Go b' ->
    forall k,
      nth_error (ports b') k
      = option_map (fun p => if (k <? i)%nat || Nat.odd (k - i) then p
                             else token_applied with_port_path_cost costs
                                                (Nat.div2 (k - i)) p)
                   (nth_error (ports b) k).
Proof.
  intros value. induction costs as [| cost rest IH]; intros i b b' Hgo k.
  - cbn [bridge_portprios_loop bridge_pathcosts_loop] in Hgo. injection Hgo as <-.
    destruct (nth_error (ports b) k); simpl; [| reflexivity].
    f_equal. destruct ((k <? i)%nat || Nat.odd (k - i)); [reflexivity |].
    unfold token_applied. now destruct (Nat.div2 (k - i)).
  - cbn [bridge_portprios_loop bridge_pathcosts_loop] in Hgo. destruct (nth_error (ports b) i) as [port |] eqn:Hi.
    + assert (Hstep : forall p : ni_bridge_port_t,
                (k <> i)%nat ->
                (if (k <? S (S i))%nat || Nat.odd (k - S (S i)) then p
                 else token_applied with_port_path_cost rest
                                    (Nat.div2 (k - S (S i))) p)
                = (if (k <? i)%nat || Nat.odd (k - i) then p
                   else token_applied with_port_path_cost (cost :: rest)
                                      (Nat.div2 (k - i)) p)).
      { intros p Hne.
        destruct (Nat.ltb_spec k (S (S i))), (Nat.ltb_spec k i); try lia;
          simpl orb; try reflexivity.
        - assert (k - i = 1)%nat as -> by lia. reflexivity.
        - assert (k - i = S (S (k - S (S i))))%nat as -> by lia.
          rewrite Nat.odd_succ_succ. simpl Nat.div2.
          destruct (Nat.odd (k - S (S i))); reflexivity. }
      destruct (streq "-" cost) eqn:Hd.
      * rewrite (IH _ _ _ Hgo k).
        destruct (nth_error (ports b) k) as [p |] eqn:Hk; simpl;
          [| reflexivity].
        f_equal. destruct (Nat.eq_dec k i) as [-> | Hne].
        -- destruct (Nat.ltb_spec i (S (S i))), (Nat.ltb_spec i i); try lia.
           rewrite Nat.sub_diag. cbn [Nat.odd Nat.even Nat.div2 negb orb].
           unfold token_applied. cbn [nth_error]. now rewrite Hd.
        -- now apply Hstep.
      * destruct (ni_parse_int cost 0) as [tmp |] eqn:Hp; [| discriminate].
        rewrite (IH _ _ _ Hgo k). simpl ports.
        rewrite nth_error_update_nth.
        destruct (Nat.eqb_spec k i) as [-> | Hne].
        -- rewrite Hi. simpl. f_equal.
           destruct (Nat.ltb_spec i (S (S i))), (Nat.ltb_spec i i); try lia.
           rewrite Nat.sub_diag. cbn [Nat.odd Nat.even Nat.div2 negb orb]. unfold token_applied.
           cbn [nth_error].
           now rewrite Hd, Hp.
        -- destruct (nth_error (ports b) k) as [p |]; simpl; [| reflexivity].
           f_equal. now apply Hstep.
    + injection Hgo as <-.
      destruct (nth_error (ports b) k) as [p |] eqn:Hk; simpl; [| reflexivity].
      f_equal. apply nth_error_None in Hi.
      assert (k < List.length (ports b))%nat
        by (apply nth_error_Some; congruence).
      destruct (Nat.ltb_spec k i); [reflexivity | lia].
Qed.

End PortFacts.

(** C5 (the code departs from the claim): for a bridge, BRIDGE_STP=yes and
    BRIDGE_STP=on leave [stp] FALSE while BRIDGE_STP=no and BRIDGE_STP=off
    leave it TRUE; any other value makes [try_bridge] log the error that
    names BRIDGE_STP and return FALSE. *)
Theorem try_bridge_stp_is_inverted :
  let stp_of (value : string) :=
    let '(ok, ifp, log) :=
      Samples.bridge_of
        (Samples.ifcfg "br0" [Reference.var "BRIDGE" "yes";
                              Reference.var "BRIDGE_STP" value]) "br0" in
    (ok, option_map stp (bridge ifp), log) in
  stp_of "yes" = (true, Some false, [])
  /\ stp_of "on" = (true, Some false, [])
  /\ stp_of "no" = (true, Some true, [])
  /\ stp_of "OFF" = (true, Some true, [])
  /\ stp_of "maybe"
     = (false, Some false, ["ifcfg-br0: Cannot parse BRIDGE_STP='maybe'"]).
Proof. repeat split; vm_compute; reflexivity. Qed.

(** C6 (the code departs from the claim): the tokens of
    BRIDGE_PORTPRIORITIES go to the ports of the same index, but those of
    BRIDGE_PATHCOSTS go to every second port.  With ports "eth0 eth1",
    priorities "10 -" and path costs "5 7", eth0 gets priority 10 and path
    cost 5 and eth1 keeps both defaults; with three ports and path costs
    "5 7 9", the 7 goes to the third port and the 9 is dropped. *)
Theorem try_bridge_path_costs_skip_ports :
  let ports_of (vars : list ni_var_t) :=
    let '(ok, ifp, log) :=
      Samples.bridge_of
        (Samples.ifcfg "br0" (Reference.var "BRIDGE" "yes" :: vars)) "br0" in
    (ok, option_map ports (bridge ifp)) in
  ports_of [Reference.var "BRIDGE_PORTS" "eth0 eth1";
            Reference.var "BRIDGE_PORTPRIORITIES" "10 -";
            Reference.var "BRIDGE_PATHCOSTS" "5 7"]
  = (true, Some [mk_port "eth0" 10 5;
                 mk_port "eth1" NI_BRIDGE_VALUE_NOT_SET
                                NI_BRIDGE_VALUE_NOT_SET])
  /\ ports_of [Reference.var "BRIDGE_PORTS" "eth0 eth1 eth2";
               Reference.var "BRIDGE_PORTPRIORITIES" "10 20 30";
               Reference.var "BRIDGE_PATHCOSTS" "5 7 9"]
     = (true, Some [mk_port "eth0" 10 5;
                    mk_port "eth1" 20 NI_BRIDGE_VALUE_NOT_SET;
                    mk_port "eth2" 30 7]).
Proof. repeat split; vm_compute; reflexivity. Qed.

(* ------------------------------------------------------------------ *)
(** ** Boot protocol *)

Section BootprotoFacts.
Context {D : Type} {SO : SysconfigOps} {AO : AddressOps} {FO : FileOps}.

(** In a BOOTPROTO text that holds a [+], no token reaches the dhcp4, dhcp6
    or autoip branch: these compare the whole text, which is none of the
    three words.  A token other than [dhcp] only gets the warning. *)
Lemma bootproto_token_of_compound_value :
  forall (g : suse_globals ni_sysconfig_t) (sc : ni_sysconfig_t)
         (value s : string) (c : ni_compat_netdev_t D),
    mem_char "+" value = true ->
    strcaseeq s "dhcp" = false ->
    bootproto_token g sc value s c
    = (c, ["ifcfg-" ++ name (dev c) ++ ": Unknown BOOTPROTO value " ++ dquote
           ++ s ++ dquote]).
Proof.
  intros g sc value s c Hplus Hs. unfold bootproto_token. rewrite Hs.
  unfold ni_string_eq, streq.
  destruct (String.eqb_spec value "dhcp4") as [-> | _]; [discriminate Hplus |].
  destruct (String.eqb_spec value "dhcp6") as [-> | _]; [discriminate Hplus |].
  destruct (String.eqb_spec value "autoip") as [-> | _];
    [discriminate Hplus | reflexivity].
Qed.

End BootprotoFacts.

(** C2 (the code departs from the claim): with BOOTPROTO="dhcp4+dhcp6" the
    tokens dhcp4 and dhcp6 are each compared through the whole text
    "dhcp4+dhcp6", match nothing, and are warned about; neither DHCP4 nor
    DHCP6 ends up enabled.  BOOTPROTO="dhcp4" alone enables DHCP4, and
    BOOTPROTO="dhcp+foo" enables both and warns about foo. *)
Theorem bootproto_dhcp4_plus_dhcp6_enables_nothing :
  let result_of (value : string) :=
    let '(c, log) :=
      Samples.bootproto_of
        (Samples.ifcfg "eth0" [Reference.var "BOOTPROTO" value]) "eth0" in
    (dhcp4_enabled (dhcp4 c), dhcp6_enabled (dhcp6 c), log) in
  result_of "dhcp4+dhcp6"
  = (false, false,
     ["ifcfg-eth0: Unknown BOOTPROTO value " ++ dquote ++ "dhcp4" ++ dquote;
      "ifcfg-eth0: Unknown BOOTPROTO value " ++ dquote ++ "dhcp6" ++ dquote])
  /\ result_of "dhcp4" = (true, false, [])
  /\ result_of "dhcp6" = (false, true, [])
  /\ result_of "dhcp+foo"
     = (true, true,
        ["ifcfg-eth0: Unknown BOOTPROTO value " ++ dquote ++ "foo" ++ dquote]).
Proof. repeat split; vm_compute; reflexivity. Qed.

(* ------------------------------------------------------------------ *)
(** ** Lease ownership of addresses *)

Section OwnershipFacts.
Context {AO : AddressOps}.

(** A lease of another family owns nothing. *)
Lemma lease_owns_address_same_family :
  forall (now : Z) (l : ni_addrconf_lease_t) (m : ni_address_t),
    __ni_lease_owns_address now (Some l) m = true ->
    lease_family l = addr_family m.
Proof.
  intros now l m. unfold __ni_lease_owns_address.
  destruct (lease_family l =? addr_family m) eqn:Hf; simpl.
  - intros _. now apply Z.eqb_eq.
  - discriminate.
Qed.

(** The route loop succeeds exactly on a recorded route that is not
    expired, has the prefix length of the address and prefix-matches its
    local address. *)
Lemma owns_by_route_prefix_iff :
  forall (now : Z) (rl : list ni_route_t) (m : ni_address_t),
    owns_by_route_prefix now rl m = true <->
    exists rp, In rp rl
      /\ route_prefixlen rp = addr_prefixlen m
      /\ expired now (route_expires rp) = false
      /\ ni_address_prefix_match (route_prefixlen rp) (destination rp)
                                 (local_addr m) = true.
Proof.
  intros now rl m. induction rl as [| rp rest IH]; simpl.
  - split; [discriminate | intros (rp & [] & _)].
  - destruct (route_prefixlen rp =? addr_prefixlen m) eqn:Hp; simpl.
    + destruct (expired now (route_expires rp)) eqn:He.
      * rewrite IH. split.
        -- intros (r & Hin & Hr). exists r. split; [now right | exact Hr].
        -- intros (r & [<- | Hin] & H1 & H2 & H3); [congruence |].
           exists r. auto.
      * destruct (ni_address_prefix_match (route_prefixlen rp)
                    (destination rp) (local_addr m)) eqn:Hm.
        -- split; [| reflexivity]. intros _. exists rp.
           apply Z.eqb_eq in Hp. auto.
        -- rewrite IH. split.
           ++ intros (r & Hin & Hr). exists r. split; [now right | exact Hr].
           ++ intros (r & [<- | Hin] & H1 & H2 & H3); [congruence |].
              exists r. auto.
    + rewrite IH. split.
      * intros (r & Hin & Hr). exists r. split; [now right | exact Hr].
      * intros (r & [<- | Hin] & H1 & H2 & H3).
        -- apply Z.eqb_neq in Hp. contradiction.
        -- exists r. auto.
Qed.

(** The address loop of a lease that is not IPv6 autoconf succeeds exactly
    on a lease address that is not expired, has the prefix length of the
    candidate, equal peer and anycast addresses, and a local address that
    [ni_address_equal] finds DIFFERENT from the candidate's. *)
Lemma owns_by_address_other_iff :
  forall (now : Z) (l : ni_addrconf_lease_t) (al : list ni_address_t)
         (m : ni_address_t),
    is_ipv6_autoconf l = false ->
    (owns_by_address now l al m = true <->
     exists ap, In ap al
       /\ addr_prefixlen ap = addr_prefixlen m
       /\ expired now (addr_expires ap) = false
       /\ ni_address_equal (local_addr ap) (local_addr m) = false
       /\ ni_address_equal (peer_addr ap) (peer_addr m) = true
       /\ ni_address_equal (anycast_addr ap) (anycast_addr m) = true).
Proof.
  intros now l al m Hna. induction al as [| ap rest IH]; simpl.
  - split; [discriminate | intros (ap & [] & _)].
  - rewrite Hna.
    assert (Hskip : owns_by_address now l rest m = true ->
              exists a, In a (ap :: rest)
                /\ addr_prefixlen a = addr_prefixlen m
                /\ expired now (addr_expires a) = false
                /\ ni_address_equal (local_addr a) (local_addr m) = false
                /\ ni_address_equal (peer_addr a) (peer_addr m) = true
                /\ ni_address_equal (anycast_addr a) (anycast_addr m) = true).
    { intros Hr. apply IH in Hr. destruct Hr as (a & Hin & Ha).
      exists a. split; [now right | exact Ha]. }
    destruct (addr_prefixlen ap =? addr_prefixlen m) eqn:Hp; simpl.
    + destruct (expired now (addr_expires ap)) eqn:He.
      * split; [exact Hskip |].
        intros (a & [<- | Hin] & H1 & H2 & H3); [congruence |].
        apply IH. exists a. auto.
      * destruct (ni_address_equal (local_addr ap) (local_addr m)) eqn:Hl.
        -- split; [exact Hskip |].
           intros (a & [<- | Hin] & H1 & H2 & H3 & H4); [congruence |].
           apply IH. exists a. auto.
        -- destruct (ni_address_equal (peer_addr ap) (peer_addr m)) eqn:Hpe;
             simpl.
           ++ destruct (ni_address_equal (anycast_addr ap) (anycast_addr m))
                eqn:Han.
              ** split; [| reflexivity]. intros _. exists ap.
                 apply Z.eqb_eq in Hp. auto 10.
              ** split; [exact Hskip |].
                 intros (a & [<- | Hin] & H1 & H2 & H3 & H4 & H5);
                   [congruence |].
                 apply IH. exists a. auto 10.
           ++ split; [exact Hskip |].
              intros (a & [<- | Hin] & H1 & H2 & H3 & H4 & H5);
                [congruence |].
              apply IH. exists a. auto 10.
    + split; [exact Hskip |].
      intros (a & [<- | Hin] & H1 & H2).
      * apply Z.eqb_neq in Hp. contradiction.
      * apply IH. exists a. auto.
Qed.

(** An IPv6 autoconf lease owns an address that lies in one of its
    recorded, unexpired route prefixes of the same length, whatever its own
    address list holds. *)
Lemma autoconf_lease_owns_by_prefix :
  forall (now : Z) (l : ni_addrconf_lease_t) (m : ni_address_t)
         (rp : ni_route_t),
    lease_family l = AF_INET6 ->
    lease_type l = NI_ADDRCONF_AUTOCONF ->
    addr_family m = AF_INET6 ->
    In rp (lease_routes l) ->
    route_prefixlen rp = addr_prefixlen m ->
    expired now (route_expires rp) = false ->
    ni_address_prefix_match (route_prefixlen rp) (destination rp)
                            (local_addr m) = true ->
    __ni_lease_owns_address now (Some l) m = true.
Proof.
  intros now l m rp Hf Ht Hm Hin Hp He Hpm. unfold __ni_lease_owns_address.
  rewrite Hf, Hm. simpl.
  assert (Hauto : is_ipv6_autoconf l = true).
  { unfold is_ipv6_autoconf. rewrite Hf, Ht. reflexivity. }
  rewrite Hauto. simpl.
  assert (Hr : owns_by_route_prefix now (lease_routes l) m = true).
  { apply owns_by_route_prefix_iff. exists rp. auto. }
  now rewrite Hr.
Qed.

End OwnershipFacts.

(** C3 (the code departs from the claim): a static IPv4 lease that holds
    10.0.0.1/24, never expiring, is reported NOT to own the address
    10.0.0.1/24 with the same peer and anycast address, and is reported to
    own 10.0.0.2/24, whose local address differs: the test on the local
    address is inverted for every lease that is not IPv6 autoconf. *)
Theorem static_lease_disowns_its_own_address :
  let lease :=
    mk_lease NI_ADDRCONF_STATIC AF_INET None
             [ni_address_new AF_INET 24 (Samples.ipv4 10 0 0 1)] [] in
  Samples.owns 1000 lease (ni_address_new AF_INET 24 (Samples.ipv4 10 0 0 1))
  = false
  /\ Samples.owns 1000 lease
       (ni_address_new AF_INET 24 (Samples.ipv4 10 0 0 2)) = true.
Proof. split; vm_compute; reflexivity. Qed.

(* ------------------------------------------------------------------ *)
(** ** One lease per (family, type) *)

Lemma addrconf_mode_eqb_eq :
  forall a b : ni_addrconf_mode_t, addrconf_mode_eqb a b = true <-> a = b.
Proof. intros [] []; simpl; split; congruence. Qed.

Lemma lease_has_key_own :
  forall (l : ni_addrconf_lease_t) (family : Z) (type : ni_addrconf_mode_t),
    lease_has_key family type l = true <->
    lease_type l = type /\ lease_family l = family.
Proof.
  intros l family type. unfold lease_has_key.
  now rewrite andb_true_iff, addrconf_mode_eqb_eq, Z.eqb_eq.
Qed.

Lemma filter_none :
  forall (A : Type) (p : A -> bool) (l : list A),
    List.length (filter p l) = 0%nat -> filter (fun x => negb (p x)) l = l.
Proof.
  induction l as [| x r IH]; simpl; intros Hlen; [reflexivity |].
  destruct (p x); simpl in *; [discriminate |]. now rewrite IH.
Qed.

Lemma filter_filter_length :
  forall (A : Type) (p q : A -> bool) (l : list A),
    (List.length (filter p (filter q l)) <= List.length (filter p l))%nat.
Proof.
  induction l as [| x r IH]; simpl; [lia |].
  destruct (q x); simpl; destruct (p x); simpl; lia.
Qed.

Lemma filter_excludes :
  forall (A : Type) (p : A -> bool) (l : list A),
    List.length (filter p (filter (fun x => negb (p x)) l)) = 0%nat.
Proof.
  induction l as [| x r IH]; simpl; [reflexivity |].
  destruct (p x) eqn:Hp; simpl; [exact IH |]. now rewrite Hp.
Qed.

(** The list that [__ni_interface_find_lease] leaves when it removes: the
    first lease of the key is gone. *)
Lemma find_lease_in_remove_unique :
  forall (ls : list ni_addrconf_lease_t) (family : Z)
         (type : ni_addrconf_mode_t),
    (key_count family type ls <= 1)%nat ->
    snd (find_lease_in ls family type true)
    = filter (fun l => negb (lease_has_key family type l)) ls.
Proof.
  unfold key_count.
  induction ls as [| x r IH]; intros family type Hone; [reflexivity |].
  simpl in *. fold (lease_has_key family type x).
  destruct (lease_has_key family type x) eqn:Hx; simpl in *.
  - symmetry. apply filter_none. lia.
  - destruct (find_lease_in r family type true) as [found rest] eqn:Hf.
    simpl. f_equal. specialize (IH family type Hone).
    now rewrite Hf in IH.
Qed.

Lemma key_count_app :
  forall (family : Z) (type : ni_addrconf_mode_t)
         (a b : list ni_addrconf_lease_t),
    key_count family type (a ++ b)
    = (key_count family type a + key_count family type b)%nat.
Proof.
  intros. unfold key_count. now rewrite filter_app, length_app.
Qed.

Section LeaseInvariant.
Context {D : Type}.

Lemma unset_lease_leases :
  forall (ifp : ni_netdev_t D) (family : Z) (type : ni_addrconf_mode_t),
    one_per_key ifp ->
    leases (ni_interface_unset_lease ifp family type)
    = filter (fun l => negb (lease_has_key family type l)) (leases ifp).
Proof.
  intros ifp family type Hinv.
  unfold ni_interface_unset_lease, __ni_interface_find_lease.
  rewrite <- (find_lease_in_remove_unique _ _ _ (Hinv family type)).
  now destruct (find_lease_in (leases ifp) family type true).
Qed.

Lemma set_lease_leases :
  forall (ifp : ni_netdev_t D) (lease : ni_addrconf_lease_t),
    one_per_key ifp ->
    leases (ni_interface_set_lease ifp lease)
    = (filter (fun l => negb (lease_has_key (lease_family lease)
                                            (lease_type lease) l))
              (leases ifp) ++ [lease])%list.
Proof.
  intros ifp lease Hinv. unfold ni_interface_set_lease. simpl.
  now rewrite unset_lease_leases.
Qed.

Lemma unset_lease_keeps_invariant :
  forall (ifp : ni_netdev_t D) (family : Z) (type : ni_addrconf_mode_t),
    one_per_key ifp -> one_per_key (ni_interface_unset_lease ifp family type).
Proof.
  intros ifp family type Hinv f t. rewrite unset_lease_leases by exact Hinv.
  unfold key_count.
  etransitivity; [apply filter_filter_length | apply Hinv].
Qed.

Lemma set_lease_count_own_key :
  forall (ifp : ni_netdev_t D) (lease : ni_addrconf_lease_t),
    one_per_key ifp ->
    key_count (lease_family lease) (lease_type lease)
              (leases (ni_interface_set_lease ifp lease)) = 1%nat.
Proof.
  intros ifp lease Hinv. rewrite set_lease_leases by exact Hinv.
  rewrite key_count_app. unfold key_count at 1.
  rewrite filter_excludes. unfold key_count. simpl.
  assert (Hown : lease_has_key (lease_family lease) (lease_type lease) lease
                 = true) by now apply lease_has_key_own.
  now rewrite Hown.
Qed.

Lemma set_lease_keeps_invariant :
  forall (ifp : ni_netdev_t D) (lease : ni_addrconf_lease_t),
    one_per_key ifp -> one_per_key (ni_interface_set_lease ifp lease).
Proof.
  intros ifp lease Hinv f t.
  destruct (lease_has_key f t lease) eqn:Hk.
  - apply lease_has_key_own in Hk. destruct Hk as [<- <-].
    now rewrite set_lease_count_own_key.
  - rewrite set_lease_leases by exact Hinv. rewrite key_count_app.
    unfold key_count at 2. simpl. rewrite Hk. simpl.
    unfold key_count. rewrite Nat.add_0_r.
    etransitivity; [apply filter_filter_length | apply Hinv].
Qed.

Lemma new_interface_invariant :
  forall (ifname : string) (index : Z),
    one_per_key (@__ni_interface_new D ifname index).
Proof. intros ifname index f t. unfold key_count. simpl. lia. Qed.

Lemma run_lease_ops_invariant :
  forall (ops : list lease_op) (ifp : ni_netdev_t D),
    one_per_key ifp -> one_per_key (run_lease_ops ifp ops).
Proof.
  induction ops as [| op rest IH]; intros ifp Hinv; [exact Hinv |].
  simpl. apply IH. destruct op as [lease | family type]; simpl.
  - now apply set_lease_keeps_invariant.
  - now apply unset_lease_keeps_invariant.
Qed.

End LeaseInvariant.

(** C4: after any sequence of set-lease and unset-lease operations on a
    new interface, the lease list holds at most one lease for every
    (family, type) key; and setting a lease then removes the attached lease
    of the same key, if any, appends the new one, and leaves exactly one
    lease of that key on the list. *)
Theorem interface_holds_one_lease_per_key :
  forall {D : Type} (ifname : string) (index : Z) (ops : list lease_op),
    let ifp : ni_netdev_t D :=
      run_lease_ops (__ni_interface_new ifname index) ops in
    (forall (family : Z) (type : ni_addrconf_mode_t),
        (key_count family type (leases ifp) <= 1)%nat)
    /\ forall lease : ni_addrconf_lease_t,
         leases (ni_interface_set_lease ifp lease)
         = (filter (fun l => negb (lease_has_key (lease_family lease)
                                                 (lease_type lease) l))
                   (leases ifp) ++ [lease])%list
         /\ key_count (lease_family lease) (lease_type lease)
                      (leases (ni_interface_set_lease ifp lease)) = 1%nat.
Proof.
  intros D ifname index ops ifp.
  assert (Hinv : one_per_key ifp).
  { apply run_lease_ops_invariant, new_interface_invariant. }
  split; [exact Hinv |].
  intros lease. split.
  - now apply set_lease_leases.
  - now apply set_lease_count_own_key.
Qed.

Example set_lease_replaces :
  let old := mk_lease NI_ADDRCONF_DHCP AF_INET (Some "dhcp4-a") [] [] in
  let other := mk_lease NI_ADDRCONF_DHCP AF_INET6 (Some "dhcp6") [] [] in
  let new := mk_lease NI_ADDRCONF_DHCP AF_INET (Some "dhcp4-b") [] [] in
  leases (run_lease_ops (@__ni_interface_new unit "eth0" 2)
                        [SetLease old; SetLease other; SetLease new])
  = [other; new].
Proof. reflexivity. Qed.

(* ------------------------------------------------------------------ *)
(** ** Static addresses *)

Section IpaddrFacts.
Context {SO : SysconfigOps} {AO : AddressOps}.

Lemma get_ipaddr_broadcast_keeps :
  forall (sc : ni_sysconfig_t) (suffix : string) (ap : ni_address_t),
    let ap' := fst (get_ipaddr_broadcast sc suffix ap) in
    addr_family ap' = addr_family ap
    /\ addr_prefixlen ap' = addr_prefixlen ap
    /\ local_addr ap' = local_addr ap.
Proof.
  intros sc suffix ap. unfold get_ipaddr_broadcast.
  destruct (addr_family ap =? AF_INET); [| now simpl].
  destruct (__find_indexed_variable sc "BROADCAST" suffix) as [v |];
    [| now simpl].
  destruct (negb (ss_family (sockaddr_parse_into (value_text v) AF_INET)
                  =? addr_family ap)); now simpl.
Qed.

Lemma get_ipaddr_remote_keeps :
  forall (sc : ni_sysconfig_t) (suffix : string) (ap : ni_address_t),
    let ap' := fst (get_ipaddr_remote sc suffix ap) in
    addr_family ap' = addr_family ap
    /\ addr_prefixlen ap' = addr_prefixlen ap
    /\ local_addr ap' = local_addr ap.
Proof.
  intros sc suffix ap. unfold get_ipaddr_remote.
  destruct (__find_indexed_variable sc "REMOTE_IPADDR" suffix) as [v |];
    [| now simpl].
  destruct (negb (ss_family (sockaddr_parse_into (value_text v) AF_UNSPEC)
                  =? addr_family ap)); now simpl.
Qed.

(** Once the prefix length is settled, [__get_ipaddr] succeeds and appends
    one address with it. *)
Lemma get_ipaddr_appends :
  forall (sc : ni_sysconfig_t) (suffix : string)
         (addr_list : list ni_address_t) (var : ni_var_t)
         (local : ni_sockaddr_t) (prefixlen0 prefixlen : Z),
    __find_indexed_variable sc "IPADDR" suffix = Some var ->
    ni_sockaddr_prefix_parse (value_text var) = Some (local, prefixlen0) ->
    get_ipaddr_prefixlen sc suffix local prefixlen0 = Some prefixlen ->
    exists (ap : ni_address_t) (log : list string),
      __get_ipaddr sc suffix addr_list = (true, (addr_list ++ [ap])%list, log)
      /\ addr_family ap = ss_family local
      /\ local_addr ap = local
      /\ addr_prefixlen ap = prefixlen.
Proof.
  intros sc suffix addr_list var local p0 p Hvar Hparse Hlen.
  unfold __get_ipaddr. rewrite Hvar, Hparse, Hlen.
  set (ap := ni_address_new (ss_family local) p local).
  pose proof (get_ipaddr_broadcast_keeps sc suffix ap) as Hb.
  destruct (get_ipaddr_broadcast sc suffix ap) as [ap1 log1].
  pose proof (get_ipaddr_remote_keeps sc suffix ap1) as Hr.
  destruct (get_ipaddr_remote sc suffix ap1) as [ap2 log2].
  simpl in Hb, Hr. destruct Hb as (Hb1 & Hb2 & Hb3).
  destruct Hr as (Hr1 & Hr2 & Hr3).
  exists ap2, (log1 ++ log2)%list. repeat split; congruence.
Qed.

(** The block under [if (prefixlen == ~0U)] computes the specification's
    rule. *)
Lemma get_ipaddr_prefixlen_spec :
  forall (sc : ni_sysconfig_t) (suffix : string) (local : ni_sockaddr_t)
         (prefixlen0 : Z),
    ss_family local = AF_INET \/ ss_family local = AF_INET6 ->
    get_ipaddr_prefixlen sc suffix local prefixlen0
    = Some (spec_prefix_length (ss_family local)
              (if prefixlen0 =? UINT_MAX then None else Some prefixlen0)
              (option_map (fun v => to_uint (fst (strtoul (value_text v) 0)))
                          (__find_indexed_variable sc "PREFIXLEN" suffix))
              (match __find_indexed_variable sc "NETMASK" suffix with
               | Some v =>
                   option_map ni_sockaddr_netmask_bits
                              (ni_sockaddr_parse (value_text v) AF_INET)
               | None => None
               end)).
Proof.
  intros sc suffix local p0 Hfam.
  unfold get_ipaddr_prefixlen, spec_prefix_length.
  destruct (p0 =? UINT_MAX); [| reflexivity].
  destruct (__find_indexed_variable sc "PREFIXLEN" suffix) as [pv |];
    [reflexivity |]. simpl.
  destruct Hfam as [-> | ->]; simpl.
  - destruct (__find_indexed_variable sc "NETMASK" suffix) as [nv |];
      [| reflexivity].
    destruct (ni_sockaddr_parse (value_text nv) AF_INET); reflexivity.
  - reflexivity.
Qed.

End IpaddrFacts.

(** C8: for an address text that parses (to an IPv4 or IPv6 address),
    [__get_ipaddr] succeeds and appends one address whose prefix length is
    the one the specification's priority rule gives: the prefix of the
    text; else the PREFIXLEN variable; else, for IPv4, the set bits of a
    valid NETMASK variable; else 32 for IPv4 and 128 for IPv6. *)
Theorem get_ipaddr_prefix_length_priority :
  forall {SO : SysconfigOps} {AO : AddressOps} (sc : ni_sysconfig_t)
         (suffix : string) (addr_list : list ni_address_t) (var : ni_var_t)
         (local : ni_sockaddr_t) (prefixlen0 : Z),
    __find_indexed_variable sc "IPADDR" suffix = Some var ->
    ni_sockaddr_prefix_parse (value_text var) = Some (local, prefixlen0) ->
    ss_family local = AF_INET \/ ss_family local = AF_INET6 ->
    exists (ap : ni_address_t) (log : list string),
      __get_ipaddr sc suffix addr_list = (true, (addr_list ++ [ap])%list, log)
      /\ addr_family ap = ss_family local
      /\ local_addr ap = local
      /\ addr_prefixlen ap
         = spec_prefix_length (ss_family local)
             (if prefixlen0 =? UINT_MAX then None else Some prefixlen0)
             (option_map (fun v => to_uint (fst (strtoul (value_text v) 0)))
                         (__find_indexed_variable sc "PREFIXLEN" suffix))
             (match __find_indexed_variable sc "NETMASK" suffix with
              | Some v =>
                  option_map ni_sockaddr_netmask_bits
                             (ni_sockaddr_parse (value_text v) AF_INET)
              | None => None
              end).
Proof.
  intros SO AO sc suffix addr_list var local p0 Hvar Hparse Hfam.
  eapply get_ipaddr_appends; eauto.
  now apply get_ipaddr_prefixlen_spec.
Qed.

(** The four rules at work: a prefix in the text beats PREFIXLEN and
    NETMASK; PREFIXLEN beats NETMASK; NETMASK is counted; nothing gives the
    full width. *)
Example get_ipaddr_priority_samples :
  let prefix_of (vars : list ni_var_t) :=
    let '(ok, l, log) := Samples.ipaddr_of (Samples.ifcfg "eth0" vars) "_1" in
    (ok, map addr_prefixlen l) in
  prefix_of [Reference.var "IPADDR_1" "10.0.0.9/8";
             Reference.var "PREFIXLEN_1" "12";
             Reference.var "NETMASK_1" "255.255.0.0"] = (true, [8])
  /\ prefix_of [Reference.var "IPADDR_1" "10.0.0.9";
                Reference.var "PREFIXLEN_1" "12";
                Reference.var "NETMASK_1" "255.255.0.0"] = (true, [12])
  /\ prefix_of [Reference.var "IPADDR_1" "10.0.0.9";
                Reference.var "NETMASK_1" "255.255.0.0"] = (true, [16])
  /\ prefix_of [Reference.var "IPADDR_1" "10.0.0.9"] = (true, [32])
  /\ prefix_of [Reference.var "IPADDR_1" "fe80::1";
                Reference.var "NETMASK_1" "255.255.0.0"] = (true, [128]).
Proof. repeat split; vm_compute; reflexivity. Qed.

Lemma get_ipaddr_prefix_length_priority_witness :
  exists (ap : ni_address_t) (log : list string),
    Samples.ipaddr_of
      (Samples.ifcfg "eth0" [Reference.var "IPADDR_1" "10.0.0.9";
                             Reference.var "PREFIXLEN_1" "12";
                             Reference.var "NETMASK_1" "255.255.0.0"]) "_1"
    = (true, [ap], log)
    /\ addr_family ap = AF_INET
    /\ local_addr ap = Samples.ipv4 10 0 0 9
    /\ addr_prefixlen ap = 12.
Proof.
  destruct (get_ipaddr_prefix_length_priority
              (SO := Reference.sysconfig_ops) (AO := Reference.address_ops)
              (Samples.ifcfg "eth0" [Reference.var "IPADDR_1" "10.0.0.9";
                                     Reference.var "PREFIXLEN_1" "12";
                                     Reference.var "NETMASK_1" "255.255.0.0"])
              "_1" [] (Reference.var "IPADDR_1" "10.0.0.9")
              (Samples.ipv4 10 0 0 9) UINT_MAX)
    as (ap & log & Hrun & Hfam & Hloc & Hlen).
  - reflexivity.
  - reflexivity.
  - left. reflexivity.
  - exists ap, log. repeat split; assumption.
Defined.

(** C9 as the specification states it fails: with IPADDR=10.0.0.1 and
    NETMASK=garbage (no prefix in the text, no PREFIXLEN), [__get_ipaddr]
    returns TRUE, logs nothing, and builds 10.0.0.1/32. *)
Lemma malformed_netmask_is_not_an_error :
  Samples.ipaddr_of
    (Samples.ifcfg "eth0" [Reference.var "IPADDR" "10.0.0.1";
                           Reference.var "NETMASK" "garbage"]) ""
  = (true, [ni_address_new AF_INET 32 (Samples.ipv4 10 0 0 1)], [])
  /\ ni_sockaddr_parse (AddressOps := Reference.address_ops) "garbage" AF_INET
     = None.
Proof. split; vm_compute; reflexivity. Qed.

(** C9, amended: for an IPv4 address whose text encodes no prefix and
    without a PREFIXLEN variable, a NETMASK variable whose value is not a
    valid IPv4 address is ignored: [__get_ipaddr] succeeds and appends the
    address with prefix length 32. *)
Theorem get_ipaddr_ignores_malformed_netmask :
  forall {SO : SysconfigOps} {AO : AddressOps} (sc : ni_sysconfig_t)
         (suffix : string) (addr_list : list ni_address_t)
         (var netmask_var : ni_var_t) (local : ni_sockaddr_t),
    __find_indexed_variable sc "IPADDR" suffix = Some var ->
    ni_sockaddr_prefix_parse (value_text var) = Some (local, UINT_MAX) ->
    ss_family local = AF_INET ->
    __find_indexed_variable sc "PREFIXLEN" suffix = None ->
    __find_indexed_variable sc "NETMASK" suffix = Some netmask_var ->
    ni_sockaddr_parse (value_text netmask_var) AF_INET = None ->
    exists (ap : ni_address_t) (log : list string),
      __get_ipaddr sc suffix addr_list = (true, (addr_list ++ [ap])%list, log)
      /\ addr_family ap = AF_INET
      /\ local_addr ap = local
      /\ addr_prefixlen ap = 32.
Proof.
  intros SO AO sc suffix addr_list var nv local Hvar Hparse Hfam Hpl Hnm Hbad.
  rewrite <- Hfam.
  eapply get_ipaddr_appends; eauto.
  unfold get_ipaddr_prefixlen. rewrite Hpl, Hnm, Hbad, Hfam. reflexivity.
Qed.

Lemma get_ipaddr_ignores_malformed_netmask_witness :
  exists (ap : ni_address_t) (log : list string),
    Samples.ipaddr_of
      (Samples.ifcfg "eth0" [Reference.var "IPADDR" "10.0.0.1";
                             Reference.var "NETMASK" "255.255.255.o"]) ""
    = (true, [ap], log)
    /\ addr_family ap = AF_INET
    /\ local_addr ap = Samples.ipv4 10 0 0 1
    /\ addr_prefixlen ap = 32.
Proof.
  destruct (get_ipaddr_ignores_malformed_netmask
              (SO := Reference.sysconfig_ops) (AO := Reference.address_ops)
              (Samples.ifcfg "eth0" [Reference.var "IPADDR" "10.0.0.1";
                                     Reference.var "NETMASK" "255.255.255.o"])
              "" [] (Reference.var "IPADDR" "10.0.0.1")
              (Reference.var "NETMASK" "255.255.255.o")
              (Samples.ipv4 10 0 0 1))
    as (ap & log & Hrun & Hfam & Hloc & Hlen);
    try reflexivity.
  exists ap, log. repeat split; assumption.
Defined.

(* ------------------------------------------------------------------ *)
(** ** Route files *)

Section RouteFacts.
Context {AO : AddressOps}.



End RouteFacts.

(** *** Buffers and lines *)

Lemma code_newline :
  forall c : ascii, (code c =? 10) = true -> c = "010"%char.
Proof.
  intros c Hc. apply Z.eqb_eq in Hc. unfold code in Hc.
  rewrite <- (ascii_N_embedding c).
  replace (N_of_ascii c) with 10%N by lia. reflexivity.
Qed.

Lemma text_lines_cons :
  forall text : string, exists h t, text_lines text = h :: t.
Proof.
  intros [| c rest]; cbn [text_lines]; [eauto |].
  destruct (code c =? 10); [eauto |].
  destruct (text_lines rest); cbn [add_to_head]; eauto.
Qed.

(** When the lines fit, the buffers that [fgets] fills are the lines, each
    with its newline: cut at the end of its significant part, a buffer is
    the line it holds.  [room] is what is left of the first buffer. *)
Lemma fgets_chunks_cut :
  forall (text : string) (room : nat),
    match text_lines text with
    | first :: rest =>
        (String.length first < room)%nat
        /\ forallb (fun line => (String.length line <=? 510)%nat) rest = true
    | [] => True
    end ->
    map (cut_at route_line_end) (fgets_chunks room text)
    = map (cut_at route_line_end) (text_lines text).
Proof.
  induction text as [| c rest IH]; intros room Hfit; [reflexivity |].
  cbn [text_lines fgets_chunks] in *.
  destruct (code c =? 10) eqn:Hnl.
  - cbn [orb map]. rewrite (code_newline c Hnl). f_equal.
    apply IH. destruct Hfit as [_ Hrest].
    destruct (text_lines rest) as [| first more]; [exact I |].
    cbn [forallb] in Hrest. apply andb_true_iff in Hrest.
    destruct Hrest as [Hfirst Hmore]. apply Nat.leb_le in Hfirst.
    split; [lia | exact Hmore].
  - destruct (text_lines_cons rest) as (h & t & Hlines).
    rewrite Hlines in *. cbn [add_to_head String.length] in Hfit.
    destruct Hfit as [Hlen Hrest].
    assert (Hroom : (room <=? 1)%nat = false) by (apply Nat.leb_gt; lia).
    rewrite Hroom. cbn [orb].
    specialize (IH (room - 1)%nat).
    assert (Hcut : map (cut_at route_line_end)
                       (fgets_chunks (room - 1) rest)
                   = map (cut_at route_line_end) (h :: t)).
    { apply IH. split; [lia | exact Hrest]. }
    destruct (fgets_chunks (room - 1) rest) as [| h' t'];
      [discriminate |].
    cbn [map] in Hcut. injection Hcut as Hh Ht.
    cbn [add_to_head map cut_at]. now rewrite Hh, Ht.
Qed.

Section BuffersAndLines.
Context {AO : AddressOps}.

(** What a buffer amounts to depends on its significant part only. *)
Lemma read_route_line_cut :
  forall (filename a b : string),
    cut_at route_line_end a = cut_at route_line_end b ->
    read_route_line filename a = read_route_line filename b.
Proof. intros filename a b Hcut. unfold read_route_line. now rewrite Hcut. Qed.

Lemma read_routes_loop_cut :
  forall (filename : string) (xs ys : list string)
         (route_list : list ni_route_t),
    map (cut_at route_line_end) xs = map (cut_at route_line_end) ys ->
    read_routes_loop filename xs route_list
    = read_routes_loop filename ys route_list.
Proof.
  intros filename. induction xs as [| x xs IH]; intros [| y ys] route_list;
    cbn [map]; try discriminate; [reflexivity |].
  intros [= Hx Hxs]. cbn [read_routes_loop].
  rewrite (read_route_line_cut filename x y Hx).
  destruct (read_route_line filename y); auto.
Qed.

(** The empty buffers that [fgets_lines] leaves out are lines that the
    loop skips. *)
Lemma read_routes_loop_filter :
  forall (filename : string) (buffers : list string)
         (route_list : list ni_route_t),
    read_routes_loop filename
      (filter (fun b => negb (streq b EmptyString)) buffers) route_list
    = read_routes_loop filename buffers route_list.
Proof.
  intros filename. induction buffers as [| b rest IH]; intros route_list;
    [reflexivity |].
  cbn [filter]. destruct b as [| c b].
  - cbn [streq String.eqb negb]. rewrite IH. reflexivity.
  - cbn [streq String.eqb negb read_routes_loop].
    destruct (read_route_line filename (String c b)); auto.
Qed.

(** For a text whose lines fit the buffer, the loop over the buffers is
    the loop over the lines. *)
Lemma read_routes_loop_lines :
  forall (filename text : string) (route_list : list ni_route_t),
    lines_fit_buffer text = true ->
    read_routes_loop filename (fgets_lines text) route_list
    = read_routes_loop filename (text_lines text) route_list.
Proof.
  intros filename text route_list Hfit. unfold fgets_lines.
  rewrite read_routes_loop_filter. apply read_routes_loop_cut.
  apply fgets_chunks_cut. unfold lines_fit_buffer in Hfit.
  destruct (text_lines text) as [| first rest]; [exact I |].
  cbn [forallb] in Hfit. apply andb_true_iff in Hfit.
  destruct Hfit as [Hfirst Hrest]. apply Nat.leb_le in Hfirst.
  split; [lia | exact Hrest].
Qed.

End BuffersAndLines.




(** The route lines of the specification's examples. *)
Example read_routes_samples :
  Samples.routes_of (Samples.text_of ["default 192.168.1.1 - -"])
  = ([mk_route AF_INET 0 (mk_sockaddr AF_INET 0) (Samples.ipv4 192 168 1 1)
               None 0], [])
  /\ Samples.routes_of (Samples.text_of ["10.0.0.0/24 - - -"])
     = ([mk_route AF_INET 24 (Samples.ipv4 10 0 0 0) sockaddr_zero None 0], [])
  /\ Samples.routes_of (Samples.text_of ["10.0.0.0 - 255.255.255.0 -"])
     = ([mk_route AF_INET 24 (Samples.ipv4 10 0 0 0) sockaddr_zero None 0], []).
Proof. repeat split; vm_compute; reflexivity. Qed.

(* ================================================================== *)
(** * Part III. Further properties of the code                         *)
(* ================================================================== *)

(* ------------------------------------------------------------------ *)
(** ** Looking leases up *)

Lemma find_lease_in_keep :
  forall (ls : list ni_addrconf_lease_t) (family : Z)
         (type : ni_addrconf_mode_t),
    fst (find_lease_in ls family type false)
    = find (lease_has_key family type) ls
    /\ snd (find_lease_in ls family type false) = ls.
Proof.
  induction ls as [| x r IH]; intros family type; [now split |].
  simpl. fold (lease_has_key family type x).
  destruct (lease_has_key family type x); [now split |].
  destruct (IH family type) as [IH1 IH2].
  destruct (find_lease_in r family type false) as [found rest].
  simpl in *. split; congruence.
Qed.

Lemma get_lease_is_find :
  forall {D : Type} (ifp : ni_netdev_t D) (family : Z)
         (type : ni_addrconf_mode_t),
    ni_interface_get_lease ifp family type
    = find (lease_has_key family type) (leases ifp).
Proof.
  intros D ifp family type.
  unfold ni_interface_get_lease, __ni_interface_find_lease.
  rewrite <- (proj1 (find_lease_in_keep (leases ifp) family type)).
  now destruct (find_lease_in (leases ifp) family type false).
Qed.

Lemma find_none_of_count :
  forall (A : Type) (p : A -> bool) (l : list A),
    List.length (filter p l) = 0%nat -> find p l = None.
Proof.
  induction l as [| x r IH]; simpl; intros Hlen; [reflexivity |].
  destruct (p x); simpl in *; [discriminate | now apply IH].
Qed.

Lemma find_app_none :
  forall (A : Type) (p : A -> bool) (l m : list A),
    find p l = None -> find p (l ++ m) = find p m.
Proof.
  induction l as [| x r IH]; simpl; intros m Hnone; [reflexivity |].
  destruct (p x); [discriminate | now apply IH].
Qed.

Lemma find_filter_other :
  forall (A : Type) (p q : A -> bool) (l : list A),
    (forall x, p x = true -> q x = true) ->
    find p (filter q l) = find p l.
Proof.
  intros A p q l Himp. induction l as [| x r IH]; simpl; [reflexivity |].
  destruct (p x) eqn:Hp.
  - rewrite (Himp x Hp). simpl. now rewrite Hp.
  - destruct (q x); simpl; [now rewrite Hp | exact IH].
Qed.

Lemma find_app_some_or :
  forall (A : Type) (p : A -> bool) (l m : list A),
    find p m = None -> find p (l ++ m) = find p l.
Proof.
  induction l as [| x r IH]; simpl; intros m Hnone; [exact Hnone |].
  destruct (p x); [reflexivity | now apply IH].
Qed.

(** X1: on an interface reached from a new one by set-lease and
    unset-lease operations, a lease that has just been set is the one that
    [ni_interface_get_lease] returns for its family and type. *)
Theorem get_lease_after_set_lease :
  forall {D : Type} (ifname : string) (index : Z) (ops : list lease_op)
         (lease : ni_addrconf_lease_t),
    let ifp : ni_netdev_t D :=
      run_lease_ops (__ni_interface_new ifname index) ops in
    ni_interface_get_lease (ni_interface_set_lease ifp lease)
                           (lease_family lease) (lease_type lease)
    = Some lease.
Proof.
  intros D ifname index ops lease ifp.
  assert (Hinv : one_per_key ifp).
  { apply run_lease_ops_invariant, new_interface_invariant. }
  rewrite get_lease_is_find, set_lease_leases by exact Hinv.
  rewrite find_app_none.
  - simpl.
    assert (Hown : lease_has_key (lease_family lease) (lease_type lease) lease
                   = true) by now apply lease_has_key_own.
    now rewrite Hown.
  - apply find_none_of_count, filter_excludes.
Qed.

(** X2: on such an interface, after [ni_interface_unset_lease] for a
    family and type, [ni_interface_get_lease] finds no lease of that family
    and type. *)
Theorem get_lease_after_unset_lease :
  forall {D : Type} (ifname : string) (index : Z) (ops : list lease_op)
         (family : Z) (type : ni_addrconf_mode_t),
    let ifp : ni_netdev_t D :=
      run_lease_ops (__ni_interface_new ifname index) ops in
    ni_interface_get_lease (ni_interface_unset_lease ifp family type)
                           family type
    = None.
Proof.
  intros D ifname index ops family type ifp.
  assert (Hinv : one_per_key ifp).
  { apply run_lease_ops_invariant, new_interface_invariant. }
  rewrite get_lease_is_find, unset_lease_leases by exact Hinv.
  apply find_none_of_count, filter_excludes.
Qed.

(** X3: on such an interface, setting a lease or unsetting a key does not
    change what [ni_interface_get_lease] returns for any other (family,
    type) key. *)
Theorem get_lease_of_other_key :
  forall {D : Type} (ifname : string) (index : Z) (ops : list lease_op)
         (lease : ni_addrconf_lease_t) (family : Z)
         (type : ni_addrconf_mode_t),
    let ifp : ni_netdev_t D :=
      run_lease_ops (__ni_interface_new ifname index) ops in
    lease_has_key family type lease = false ->
    ni_interface_get_lease (ni_interface_set_lease ifp lease) family type
    = ni_interface_get_lease ifp family type
    /\ ni_interface_get_lease
         (ni_interface_unset_lease ifp (lease_family lease) (lease_type lease))
         family type
       = ni_interface_get_lease ifp family type.
Proof.
  intros D ifname index ops lease family type ifp Hother.
  assert (Hinv : one_per_key ifp).
  { apply run_lease_ops_invariant, new_interface_invariant. }
  assert (Hkeep : forall x, lease_has_key family type x = true ->
            negb (lease_has_key (lease_family lease) (lease_type lease) x)
            = true).
  { intros x Hx. apply negb_true_iff.
    destruct (lease_has_key (lease_family lease) (lease_type lease) x)
      eqn:Hk; [| reflexivity].
    apply lease_has_key_own in Hx, Hk. destruct Hx as [Ht Hf].
    destruct Hk as [Ht' Hf'].
    assert (Hown : lease_has_key family type lease = true).
    { apply lease_has_key_own. split; congruence. }
    congruence. }
  split.
  - rewrite !get_lease_is_find, set_lease_leases by exact Hinv.
    rewrite find_app_some_or by (simpl; now rewrite Hother).
    now apply find_filter_other.
  - rewrite !get_lease_is_find, unset_lease_leases by exact Hinv.
    now apply find_filter_other.
Qed.

Lemma get_lease_of_other_key_witness :
  let dhcp4 := mk_lease NI_ADDRCONF_DHCP AF_INET (Some "dhcp4") [] [] in
  let dhcp6 := mk_lease NI_ADDRCONF_DHCP AF_INET6 (Some "dhcp6") [] [] in
  let ifp := run_lease_ops (@__ni_interface_new unit "eth0" 2)
                           [SetLease dhcp4] in
  ni_interface_get_lease (ni_interface_set_lease ifp dhcp6)
                         AF_INET NI_ADDRCONF_DHCP
  = Some dhcp4.
Proof.
  cbv zeta.
  rewrite (proj1 (get_lease_of_other_key (D := unit) "eth0" 2
             [SetLease (mk_lease NI_ADDRCONF_DHCP AF_INET (Some "dhcp4") [] [])]
             (mk_lease NI_ADDRCONF_DHCP AF_INET6 (Some "dhcp6") [] [])
             AF_INET NI_ADDRCONF_DHCP eq_refl)).
  reflexivity.
Defined.

(* ------------------------------------------------------------------ *)
(** ** What the boot protocol leaves alone *)

Section BootprotoInvariants.
Context {D : Type} {SO : SysconfigOps} {AO : AddressOps} {FO : FileOps}.

Lemma run_static_keeps :
  forall (g : suse_globals ni_sysconfig_t) (sc : ni_sysconfig_t)
         (c : ni_compat_netdev_t D),
    control (fst (run_static g sc c)) = control c
    /\ dhcp4 (fst (run_static g sc c)) = dhcp4 c
    /\ dhcp6 (fst (run_static g sc c)) = dhcp6 c.
Proof.
  intros g sc c. unfold run_static.
  destruct (__ni_suse_addrconf_static g sc (dev c)) as [[ok ifp] log].
  now simpl.
Qed.

Lemma addrconf_dhcp4_keeps :
  forall (g : suse_globals ni_sysconfig_t) (sc : ni_sysconfig_t)
         (c : ni_compat_netdev_t D),
    control (__ni_suse_addrconf_dhcp4 g sc c) = control c
    /\ dev (__ni_suse_addrconf_dhcp4 g sc c) = dev c
    /\ dhcp6 (__ni_suse_addrconf_dhcp4 g sc c) = dhcp6 c
    /\ dhcp4_enabled (dhcp4 (__ni_suse_addrconf_dhcp4 g sc c)) = true
    /\ (dhcp4_enabled (dhcp4 c) = true ->
        __ni_suse_addrconf_dhcp4 g sc c = c).
Proof.
  intros g sc c. unfold __ni_suse_addrconf_dhcp4.
  destruct (dhcp4_enabled (dhcp4 c)) eqn:He; simpl; auto 6.
  repeat split; try reflexivity. discriminate.
Qed.

Lemma addrconf_dhcp6_keeps :
  forall (g : suse_globals ni_sysconfig_t) (sc : ni_sysconfig_t)
         (c : ni_compat_netdev_t D),
    control (__ni_suse_addrconf_dhcp6 g sc c) = control c
    /\ dev (__ni_suse_addrconf_dhcp6 g sc c) = dev c
    /\ dhcp4 (__ni_suse_addrconf_dhcp6 g sc c) = dhcp4 c
    /\ dhcp6_enabled (dhcp6 (__ni_suse_addrconf_dhcp6 g sc c)) = true
    /\ (dhcp6_enabled (dhcp6 c) = true ->
        __ni_suse_addrconf_dhcp6 g sc c = c).
Proof.
  intros g sc c. unfold __ni_suse_addrconf_dhcp6.
  destruct (dhcp6_enabled (dhcp6 c)) eqn:He; simpl; auto 6.
  repeat split; try reflexivity. discriminate.
Qed.

(** One token: the control policy and the device stay, and a DHCP
    configuration that is enabled stays as it is. *)
Lemma bootproto_token_keeps :
  forall (g : suse_globals ni_sysconfig_t) (sc : ni_sysconfig_t)
         (value s : string) (c : ni_compat_netdev_t D),
    let c' := fst (bootproto_token g sc value s c) in
    control c' = control c
    /\ dev c' = dev c
    /\ (dhcp4_enabled (dhcp4 c) = true -> dhcp4 c' = dhcp4 c)
    /\ (dhcp6_enabled (dhcp6 c) = true -> dhcp6 c' = dhcp6 c).
Proof.
  intros g sc value s c. unfold bootproto_token.
  pose proof (addrconf_dhcp4_keeps g sc c) as (A1 & A2 & A3 & A4 & A5).
  pose proof (addrconf_dhcp6_keeps g sc c) as (B1 & B2 & B3 & B4 & B5).
  pose proof (addrconf_dhcp6_keeps g sc (__ni_suse_addrconf_dhcp4 g sc c))
    as (C1 & C2 & C3 & C4 & C5).
  destruct (strcaseeq s "dhcp"); cbn [fst].
  - split; [congruence |]. split; [congruence |]. split.
    + intros He. rewrite C3. now rewrite (A5 He).
    + intros He. rewrite C5 by congruence. congruence.
  - destruct (ni_string_eq (Some value) (Some "dhcp4")); cbn [fst].
    + split; [congruence |]. split; [congruence |]. split.
      * intros He. now rewrite (A5 He).
      * intros He. congruence.
    + destruct (ni_string_eq (Some value) (Some "dhcp6")); cbn [fst].
      * split; [congruence |]. split; [congruence |]. split.
        -- intros He. congruence.
        -- intros He. now rewrite (B5 He).
      * destruct (ni_string_eq (Some value) (Some "autoip")); cbn [fst];
          unfold __ni_suse_addrconf_autoip4; auto.
Qed.

Lemma bootproto_tokens_keeps :
  forall (g : suse_globals ni_sysconfig_t) (sc : ni_sysconfig_t)
         (value : string) (tokens : list string) (c : ni_compat_netdev_t D),
    let c' := fst (bootproto_tokens g sc value tokens c) in
    control c' = control c
    /\ dev c' = dev c
    /\ (dhcp4_enabled (dhcp4 c) = true -> dhcp4 c' = dhcp4 c)
    /\ (dhcp6_enabled (dhcp6 c) = true -> dhcp6 c' = dhcp6 c).
Proof.
  intros g sc value tokens. induction tokens as [| s rest IH]; intros c.
  - simpl. auto.
  - simpl.
    pose proof (bootproto_token_keeps g sc value s c) as (T1 & T2 & T3 & T4).
    destruct (bootproto_token g sc value s c) as [c1 log1]. simpl in *.
    pose proof (IH c1) as (I1 & I2 & I3 & I4).
    destruct (bootproto_tokens g sc value rest c1) as [c2 log2]. simpl in *.
    repeat split; try congruence.
    + intros He. rewrite I3; [now apply T3 |]. now rewrite (T3 He).
    + intros He. rewrite I4; [now apply T4 |]. now rewrite (T4 He).
Qed.

Lemma bootproto_keeps :
  forall (g : suse_globals ni_sysconfig_t) (sc : ni_sysconfig_t)
         (c : ni_compat_netdev_t D),
    let c' := fst (__ni_suse_bootproto g sc c) in
    control c' = control c
    /\ (dhcp4_enabled (dhcp4 c) = true -> dhcp4 c' = dhcp4 c)
    /\ (dhcp6_enabled (dhcp6 c) = true -> dhcp6 c' = dhcp6 c).
Proof.
  intros g sc c. unfold __ni_suse_bootproto.
  pose proof (run_static_keeps g sc c) as (S1 & S2 & S3).
  destruct (ni_string_eq_nocase (Some (bootproto_value sc c)) (Some "none"));
    [simpl; auto |].
  destruct (ni_string_eq_nocase (Some (bootproto_value sc c)) (Some "ibft"));
    [simpl; auto |].
  destruct (ni_string_eq_nocase (Some (bootproto_value sc c)) (Some "6to4"));
    [repeat split; congruence |].
  destruct (ni_string_eq_nocase (Some (bootproto_value sc c)) (Some "static"));
    [repeat split; congruence |].
  pose proof (bootproto_tokens_keeps g sc (bootproto_value sc c)
                (strtok_all "+" (bootproto_value sc c)) c)
    as (T1 & T2 & T3 & T4).
  destruct (bootproto_tokens g sc (bootproto_value sc c)
              (strtok_all "+" (bootproto_value sc c)) c) as [c1 log1].
  simpl in T1, T2, T3, T4.
  pose proof (run_static_keeps g sc c1) as (R1 & R2 & R3).
  destruct (run_static g sc c1) as [c2 log2]. simpl in *.
  repeat split; try congruence.
  - intros He. rewrite R2. now apply T3.
  - intros He. rewrite R3. now apply T4.
Qed.

End BootprotoInvariants.

(** X4: [__ni_suse_bootproto] never rewrites a DHCP4 configuration that is
    already enabled: hostname, client id, vendor class and the two times
    stay as they were, whatever BOOTPROTO and the DHCLIENT variables say.
    The same holds for DHCP6, and the control policy is never written. *)
Theorem bootproto_keeps_enabled_dhcp :
  forall {D : Type} {SO : SysconfigOps} {AO : AddressOps} {FO : FileOps}
         (g : suse_globals ni_sysconfig_t) (sc : ni_sysconfig_t)
         (c : ni_compat_netdev_t D),
    dhcp4_enabled (dhcp4 c) = true ->
    dhcp6_enabled (dhcp6 c) = true ->
    dhcp4 (fst (__ni_suse_bootproto g sc c)) = dhcp4 c
    /\ dhcp6 (fst (__ni_suse_bootproto g sc c)) = dhcp6 c
    /\ control (fst (__ni_suse_bootproto g sc c)) = control c.
Proof.
  intros D SO AO FO g sc c H4 H6.
  pose proof (bootproto_keeps g sc c) as (K1 & K2 & K3). auto.
Qed.

Lemma bootproto_keeps_enabled_dhcp_witness :
  let c := mk_compat (__ni_interface_new "eth0" 0) None
                     (mk_dhcp4 true (Some "host") (Some "id-1") None 15 3600)
                     (mk_dhcp6 true) in
  dhcp4 (fst (__ni_suse_bootproto (D := string)
                (SO := Reference.sysconfig_ops) (AO := Reference.address_ops)
                (FO := Reference.file_ops []) Samples.no_globals
                (Samples.ifcfg "eth0"
                   [Reference.var "BOOTPROTO" "dhcp";
                    Reference.var "DHCLIENT_CLIENT_ID" "id-2"]) c))
  = mk_dhcp4 true (Some "host") (Some "id-1") None 15 3600.
Proof.
  cbv zeta.
  apply (bootproto_keeps_enabled_dhcp (D := string)
           (SO := Reference.sysconfig_ops) (AO := Reference.address_ops)
           (FO := Reference.file_ops []) Samples.no_globals
           (Samples.ifcfg "eth0"
              [Reference.var "BOOTPROTO" "dhcp";
               Reference.var "DHCLIENT_CLIENT_ID" "id-2"])
           (mk_compat (__ni_interface_new "eth0" 0) None
              (mk_dhcp4 true (Some "host") (Some "id-1") None 15 3600)
              (mk_dhcp6 true)));
    reflexivity.
Defined.

Section BootprotoCases.
Context {D : Type} {SO : SysconfigOps} {AO : AddressOps} {FO : FileOps}.

Lemma bootproto_value_lo :
  forall (sc : ni_sysconfig_t) (c : ni_compat_netdev_t D),
    name (dev c) = "lo" -> bootproto_value sc c = "static".
Proof.
  intros sc c Hlo. unfold bootproto_value. rewrite Hlo.
  destruct (ni_sysconfig_get_value sc "BOOTPROTO") as [[| ch v] |];
    reflexivity.
Qed.

Lemma bootproto_value_other :
  forall (sc : ni_sysconfig_t) (c : ni_compat_netdev_t D) (v : string),
    name (dev c) <> "lo" ->
    ni_sysconfig_get_value sc "BOOTPROTO" = Some v ->
    v <> EmptyString ->
    bootproto_value sc c = v.
Proof.
  intros sc c v Hlo Hget Hne. unfold bootproto_value. rewrite Hget.
  destruct v as [| ch v]; [contradiction |].
  unfold ni_string_eq, streq.
  destruct (String.eqb_spec (name (dev c)) "lo"); [contradiction | easy].
Qed.

Lemma run_static_without_ipaddr :
  forall (g : suse_globals ni_sysconfig_t) (sc : ni_sysconfig_t)
         (c : ni_compat_netdev_t D),
    fst (ni_sysconfig_find_matching sc "IPADDR") = false ->
    run_static g sc c = (c, []).
Proof.
  intros g sc c Hnone. unfold run_static, __ni_suse_addrconf_static.
  destruct (ni_sysconfig_find_matching sc "IPADDR") as [found names].
  simpl in Hnone. subst found. now destruct c.
Qed.

End BootprotoCases.

(** X5: for the interface named [lo] the BOOTPROTO variable is ignored:
    [__ni_suse_bootproto] does what it does for a static interface and
    nothing else, so no DHCP configuration is touched, whatever BOOTPROTO
    holds. *)
Theorem bootproto_of_loopback_is_static :
  forall {D : Type} {SO : SysconfigOps} {AO : AddressOps} {FO : FileOps}
         (g : suse_globals ni_sysconfig_t) (sc : ni_sysconfig_t)
         (c : ni_compat_netdev_t D),
    name (dev c) = "lo" ->
    __ni_suse_bootproto g sc c = run_static g sc c
    /\ dhcp4 (fst (__ni_suse_bootproto g sc c)) = dhcp4 c
    /\ dhcp6 (fst (__ni_suse_bootproto g sc c)) = dhcp6 c.
Proof.
  intros D SO AO FO g sc c Hlo.
  assert (Heq : __ni_suse_bootproto g sc c = run_static g sc c).
  { unfold __ni_suse_bootproto. rewrite (bootproto_value_lo sc c Hlo).
    reflexivity. }
  rewrite Heq. pose proof (run_static_keeps g sc c) as (_ & K2 & K3). auto.
Qed.

Lemma bootproto_of_loopback_is_static_witness :
  let '(c, log) :=
    Samples.bootproto_of
      (Samples.ifcfg "lo" [Reference.var "BOOTPROTO" "dhcp";
                           Reference.var "IPADDR" "127.0.0.2/8"]) "lo" in
  (dhcp4_enabled (dhcp4 c), dhcp6_enabled (dhcp6 c)) = (false, false).
Proof.
  pose proof (bootproto_of_loopback_is_static (D := string)
                (SO := Reference.sysconfig_ops) (AO := Reference.address_ops)
                (FO := Reference.file_ops []) Samples.no_globals
                (Samples.ifcfg "lo" [Reference.var "BOOTPROTO" "dhcp";
                                     Reference.var "IPADDR" "127.0.0.2/8"])
                (ni_compat_netdev_new "lo") eq_refl) as (_ & H4 & H6).
  unfold Samples.bootproto_of.
  destruct (__ni_suse_bootproto _ _ _) as [c log]. simpl in H4, H6.
  now rewrite H4, H6.
Defined.

(** X6: for any other interface, BOOTPROTO=none and BOOTPROTO=ibft, in any
    mix of letter cases, make [__ni_suse_bootproto] return at once: the
    configuration is left as it was, no static address or route is read,
    and nothing is logged. *)
Theorem bootproto_none_and_ibft_do_nothing :
  forall {D : Type} {SO : SysconfigOps} {AO : AddressOps} {FO : FileOps}
         (g : suse_globals ni_sysconfig_t) (sc : ni_sysconfig_t)
         (c : ni_compat_netdev_t D) (v : string),
    name (dev c) <> "lo" ->
    ni_sysconfig_get_value sc "BOOTPROTO" = Some v ->
    strcaseeq v "none" = true \/ strcaseeq v "ibft" = true ->
    __ni_suse_bootproto g sc c = (c, []).
Proof.
  intros D SO AO FO g sc c v Hlo Hget Hv.
  assert (Hne : v <> EmptyString).
  { intros ->. destruct Hv as [Hv | Hv]; discriminate Hv. }
  unfold __ni_suse_bootproto.
  rewrite (bootproto_value_other sc c v Hlo Hget Hne).
  unfold ni_string_eq_nocase. destruct Hv as [Hv | Hv].
  - now rewrite Hv.
  - rewrite (strcaseeq_apart v "ibft" "none" Hv) by discriminate.
    now rewrite Hv.
Qed.

Lemma bootproto_none_and_ibft_do_nothing_witness :
  Samples.bootproto_of
    (Samples.ifcfg "eth0" [Reference.var "BOOTPROTO" "None";
                           Reference.var "IPADDR" "10.0.0.1/24"]) "eth0"
  = (ni_compat_netdev_new "eth0", []).
Proof.
  apply (bootproto_none_and_ibft_do_nothing (D := string)
           (SO := Reference.sysconfig_ops) (AO := Reference.address_ops)
           (FO := Reference.file_ops []) Samples.no_globals
           (Samples.ifcfg "eth0" [Reference.var "BOOTPROTO" "None";
                                  Reference.var "IPADDR" "10.0.0.1/24"])
           (ni_compat_netdev_new "eth0") "None").
  - discriminate.
  - reflexivity.
  - left. reflexivity.
Defined.

(** X7: when the variable search reports no IPADDR variable, static
    processing stops before anything is written: for an interface without
    BOOTPROTO, and for [lo], [__ni_suse_bootproto] leaves the configuration
    as it was.  In particular the loopback addresses are not added to [lo],
    and neither the ifroute file nor the global routes are applied. *)
Theorem bootproto_without_ipaddr_changes_nothing :
  forall {D : Type} {SO : SysconfigOps} {AO : AddressOps} {FO : FileOps}
         (g : suse_globals ni_sysconfig_t) (sc : ni_sysconfig_t)
         (c : ni_compat_netdev_t D),
    ni_sysconfig_get_value sc "BOOTPROTO" = None \/ name (dev c) = "lo" ->
    fst (ni_sysconfig_find_matching sc "IPADDR") = false ->
    __ni_suse_bootproto g sc c = (c, []).
Proof.
  intros D SO AO FO g sc c Hcase Hnone.
  assert (Hv : bootproto_value sc c = "static").
  { destruct Hcase as [Hget | Hlo].
    - unfold bootproto_value. now rewrite Hget.
    - now apply bootproto_value_lo. }
  unfold __ni_suse_bootproto. rewrite Hv.
  change (run_static g sc c = (c, [])).
  now apply run_static_without_ipaddr.
Qed.

Lemma bootproto_without_ipaddr_changes_nothing_witness :
  Samples.bootproto_of
    (Samples.ifcfg "lo" [Reference.var "STARTMODE" "auto"]) "lo"
  = (ni_compat_netdev_new "lo", []).
Proof.
  apply (bootproto_without_ipaddr_changes_nothing (D := string)
           (SO := Reference.sysconfig_ops) (AO := Reference.address_ops)
           (FO := Reference.file_ops []) Samples.no_globals
           (Samples.ifcfg "lo" [Reference.var "STARTMODE" "auto"])
           (ni_compat_netdev_new "lo")).
  - left. reflexivity.
  - reflexivity.
Defined.

Lemma tolower_not_plus :
  forall (a d : ascii),
    Ascii.eqb (tolower a) d = true -> d <> "+"%char ->
    mem_char a "+" = false.
Proof.
  intros a d Ha Hd. unfold mem_char. simpl.
  destruct (Ascii.eqb_spec a "+") as [-> | Hne]; [| reflexivity].
  apply Ascii.eqb_eq in Ha. vm_compute in Ha. congruence.
Qed.

(** A text that [strcasecmp] finds equal to "dhcp" holds no [+] and is its
    own single token. *)
Lemma dhcp_is_one_token :
  forall v : string, strcaseeq v "dhcp" = true -> strtok_all "+" v = [v].
Proof.
  intros v Hv.
  destruct v as [| a [| b [| c [| d [| e r]]]]]; simpl in Hv;
    try discriminate Hv;
    repeat (apply andb_true_iff in Hv; destruct Hv as [? Hv]);
    try discriminate Hv.
  unfold strtok_all. cbn [strtok_from].
  rewrite (tolower_not_plus a "d"), (tolower_not_plus b "h"),
    (tolower_not_plus c "c"), (tolower_not_plus d "p")
    by (assumption || discriminate).
  reflexivity.
Qed.

(** X8: for an interface other than [lo], BOOTPROTO=dhcp in any mix of
    letter cases enables both DHCP4 and DHCP6. *)
Theorem bootproto_dhcp_enables_both :
  forall {D : Type} {SO : SysconfigOps} {AO : AddressOps} {FO : FileOps}
         (g : suse_globals ni_sysconfig_t) (sc : ni_sysconfig_t)
         (c : ni_compat_netdev_t D) (v : string),
    name (dev c) <> "lo" ->
    ni_sysconfig_get_value sc "BOOTPROTO" = Some v ->
    strcaseeq v "dhcp" = true ->
    dhcp4_enabled (dhcp4 (fst (__ni_suse_bootproto g sc c))) = true
    /\ dhcp6_enabled (dhcp6 (fst (__ni_suse_bootproto g sc c))) = true.
Proof.
  intros D SO AO FO g sc c v Hlo Hget Hv.
  assert (Hne : v <> EmptyString) by (intros ->; discriminate Hv).
  unfold __ni_suse_bootproto.
  rewrite (bootproto_value_other sc c v Hlo Hget Hne).
  unfold ni_string_eq_nocase.
  rewrite (strcaseeq_apart v "dhcp" "none" Hv) by discriminate.
  rewrite (strcaseeq_apart v "dhcp" "ibft" Hv) by discriminate.
  rewrite (strcaseeq_apart v "dhcp" "6to4" Hv) by discriminate.
  rewrite (strcaseeq_apart v "dhcp" "static" Hv) by discriminate.
  rewrite (dhcp_is_one_token v Hv). cbn [bootproto_tokens].
  unfold bootproto_token. rewrite Hv.
  set (c1 := __ni_suse_addrconf_dhcp6 g sc (__ni_suse_addrconf_dhcp4 g sc c)).
  pose proof (addrconf_dhcp4_keeps g sc c) as (_ & _ & _ & A4 & _).
  pose proof (addrconf_dhcp6_keeps g sc (__ni_suse_addrconf_dhcp4 g sc c))
    as (_ & _ & C3 & C4 & _).
  fold c1 in C3, C4.
  pose proof (run_static_keeps g sc c1) as (_ & R2 & R3).
  destruct (run_static g sc c1) as [c2 log2]. simpl in *.
  rewrite R2, R3, C3. auto.
Qed.

Lemma bootproto_dhcp_enables_both_witness :
  let '(c, log) :=
    Samples.bootproto_of
      (Samples.ifcfg "eth0" [Reference.var "BOOTPROTO" "DHCP"]) "eth0" in
  (dhcp4_enabled (dhcp4 c), dhcp6_enabled (dhcp6 c)) = (true, true).
Proof.
  pose proof (bootproto_dhcp_enables_both (D := string)
                (SO := Reference.sysconfig_ops) (AO := Reference.address_ops)
                (FO := Reference.file_ops []) Samples.no_globals
                (Samples.ifcfg "eth0" [Reference.var "BOOTPROTO" "DHCP"])
                (ni_compat_netdev_new "eth0") "DHCP") as Hboth.
  destruct Hboth as [H4 H6]; [discriminate | reflexivity | reflexivity |].
  unfold Samples.bootproto_of.
  destruct (__ni_suse_bootproto _ _ _) as [c log]. simpl in H4, H6.
  now rewrite H4, H6.
Defined.

(** X9: when DHCP4 gets enabled, the DHCLIENT variables of the interface's
    own file win over those of the global DHCP defaults, and the defaults
    fill in what the interface's file does not set: so for the client id
    and the vendor class.  A DHCLIENT_WAIT_AT_BOOT of 0 in the interface's
    file becomes the infinite timeout. *)
Theorem dhcp4_interface_overrides_defaults :
  forall {D : Type} {SO : SysconfigOps}
         (g : suse_globals ni_sysconfig_t) (sc defaults : ni_sysconfig_t)
         (c : ni_compat_netdev_t D),
    dhcp4_enabled (dhcp4 c) = false ->
    __ni_suse_dhcp_defaults g = Some defaults ->
    let d := dhcp4 (__ni_suse_addrconf_dhcp4 g sc c) in
    let layered (key : string) (before : option string) :=
      match ni_sysconfig_get_value sc key with
      | Some s => Some s
      | None =>
          match ni_sysconfig_get_value defaults key with
          | Some s => Some s
          | None => before
          end
      end in
    dhcp4_enabled d = true
    /\ dhcp4_client_id d
       = layered "DHCLIENT_CLIENT_ID" (dhcp4_client_id (dhcp4 c))
    /\ dhcp4_vendor_class d
       = layered "DHCLIENT_VENDOR_CLASS_ID" (dhcp4_vendor_class (dhcp4 c))
    /\ (ni_sysconfig_get_integer sc "DHCLIENT_WAIT_AT_BOOT" = Some 0 ->
        dhcp4_acquire_timeout d = NI_IFWORKER_INFINITE_TIMEOUT).
Proof.
  intros D SO g sc defaults c Hoff Hdef. cbv zeta.
  unfold __ni_suse_addrconf_dhcp4. rewrite Hoff, Hdef. simpl.
  split; [reflexivity |]. split; [| split].
  - destruct (ni_sysconfig_get_value sc "DHCLIENT_CLIENT_ID"); reflexivity.
  - destruct (ni_sysconfig_get_value sc "DHCLIENT_VENDOR_CLASS_ID");
      reflexivity.
  - intros ->. reflexivity.
Qed.

Lemma dhcp4_interface_overrides_defaults_witness :
  let defaults :=
    Samples.ifcfg "dhcp" [Reference.var "DHCLIENT_CLIENT_ID" "site";
                          Reference.var "DHCLIENT_VENDOR_CLASS_ID" "suse"] in
  let d := dhcp4 (__ni_suse_addrconf_dhcp4 (D := string)
                    (SO := Reference.sysconfig_ops)
                    (mk_globals (Some defaults) [])
                    (Samples.ifcfg "eth0"
                       [Reference.var "DHCLIENT_CLIENT_ID" "eth0-id";
                        Reference.var "DHCLIENT_WAIT_AT_BOOT" "0"])
                    (ni_compat_netdev_new "eth0")) in
  (dhcp4_client_id d, dhcp4_vendor_class d, dhcp4_acquire_timeout d)
  = (Some "eth0-id", Some "suse", 4294967295).
Proof.
  cbv zeta.
  pose proof (dhcp4_interface_overrides_defaults (D := string)
                (SO := Reference.sysconfig_ops)
                (mk_globals
                   (Some (Samples.ifcfg "dhcp"
                            [Reference.var "DHCLIENT_CLIENT_ID" "site";
                             Reference.var "DHCLIENT_VENDOR_CLASS_ID" "suse"]))
                   [])
                (Samples.ifcfg "eth0"
                   [Reference.var "DHCLIENT_CLIENT_ID" "eth0-id";
                    Reference.var "DHCLIENT_WAIT_AT_BOOT" "0"])
                (Samples.ifcfg "dhcp"
                   [Reference.var "DHCLIENT_CLIENT_ID" "site";
                    Reference.var "DHCLIENT_VENDOR_CLASS_ID" "suse"])
                (ni_compat_netdev_new "eth0") eq_refl eq_refl)
    as (_ & Hid & Hvc & Hto).
  cbv zeta in Hid, Hvc. rewrite Hid, Hvc, (Hto eq_refl). reflexivity.
Defined.

(* ------------------------------------------------------------------ *)
(** ** More on route files *)

Lemma cut_at_stops :
  forall (reject a b : string) (c : ascii),
    mem_char c reject = true ->
    cut_at reject (a ++ String c b) = cut_at reject a.
Proof.
  intros reject a b c Hc. induction a as [| x a IH]; simpl.
  - now rewrite Hc.
  - destruct (mem_char x reject || (code x =? 0)); [reflexivity |].
    now rewrite IH.
Qed.

Section RouteFileFacts.
Context {AO : AddressOps} {FO : FileOps}.

Lemma read_routes_loop_skips :
  forall (filename : string) (buffers : list string)
         (route_list : list ni_route_t),
    (forall buffer, In buffer buffers -> route_line_fields buffer = []) ->
    read_routes_loop filename buffers route_list = inl route_list.
Proof.
  intros filename buffers. induction buffers as [| b rest IH];
    intros route_list Hskip; [reflexivity |].
  simpl. unfold read_route_line.
  pose proof (Hskip b (or_introl eq_refl)) as Hb.
  unfold route_line_fields in Hb. rewrite Hb.
  apply IH. intros buffer Hin. apply Hskip. now right.
Qed.

Lemma read_routes_loop_in_order :
  forall (filename : string) (buffers : list string)
         (route_list : list ni_route_t),
    (forall buffer msg, In buffer buffers ->
       read_route_line filename buffer <> LineError msg) ->
    read_routes_loop filename buffers route_list
    = inl (route_list ++ flat_map (line_routes filename) buffers)%list.
Proof.
  intros filename buffers. induction buffers as [| b rest IH];
    intros route_list Hok.
  - simpl. now rewrite app_nil_r.
  - simpl. unfold line_routes at 1.
    assert (Hrest : forall buffer msg, In buffer rest ->
              read_route_line filename buffer <> LineError msg).
    { intros buffer msg Hin. apply Hok. now right. }
    destruct (read_route_line filename b) as [| msg | rp] eqn:Hb.
    + now apply IH.
    + exfalso. exact (Hok b msg (or_introl eq_refl) Hb).
    + rewrite (IH _ Hrest). now rewrite <- app_assoc.
Qed.

End RouteFileFacts.

Lemma cut_at_before_comment :
  forall s : string,
    cut_at route_line_end (before_comment s) = cut_at route_line_end s.
Proof.
  unfold before_comment. induction s as [| c r IH]; [reflexivity |].
  cbn [cut_at mem_char list_ascii_of_string existsb].
  destruct (Ascii.eqb_spec c "#") as [-> | Hc].
  - reflexivity.
  - cbn [orb]. destruct (code c =? 0) eqn:Hnul.
    + now rewrite orb_true_r.
    + cbn [cut_at]. rewrite IH.
      destruct (mem_char c route_line_end); [reflexivity |].
      cbn [orb]. now rewrite Hnul.
Qed.

(** X10: in a route file whose lines, comments included, are no longer
    than 510 characters, what follows a [#] on a line never matters: two
    such files whose lines agree up to their first [#] are read by
    [__ni_suse_read_routes] with the same result, routes and log. *)
Theorem route_line_comment_is_ignored :
  forall {AO : AddressOps} (FO1 FO2 : FileOps)
         (filename text1 text2 : string),
    fopen_read (FileOps := FO1) filename = Some text1 ->
    fopen_read (FileOps := FO2) filename = Some text2 ->
    lines_fit_buffer text1 = true ->
    lines_fit_buffer text2 = true ->
    map before_comment (text_lines text1)
    = map before_comment (text_lines text2) ->
    __ni_suse_read_routes (FO := FO1) filename
    = __ni_suse_read_routes (FO := FO2) filename.
Proof.
  intros AO FO1 FO2 filename text1 text2 Hopen1 Hopen2 Hfit1 Hfit2 Hsame.
  unfold __ni_suse_read_routes, read_routes_text.
  rewrite Hopen1, Hopen2.
  rewrite (read_routes_loop_lines filename text1 [] Hfit1).
  rewrite (read_routes_loop_lines filename text2 [] Hfit2).
  rewrite (read_routes_loop_cut filename (text_lines text1)
             (text_lines text2) []); [reflexivity |].
  assert (Hcut : forall l : list string,
            map (cut_at route_line_end) l
            = map (cut_at route_line_end) (map before_comment l)).
  { intros l. rewrite map_map. apply map_ext. intros s.
    now rewrite cut_at_before_comment. }
  rewrite (Hcut (text_lines text1)), (Hcut (text_lines text2)).
  now rewrite Hsame.
Qed.

Lemma route_line_comment_is_ignored_witness :
  __ni_suse_read_routes (AO := Reference.address_ops)
    (FO := Reference.file_ops
             [("/etc/sysconfig/network/routes",
               Samples.text_of ["default 192.168.1.1 - - # the default";
                                "10.1.0.0/16 - - eth0"])])
    "/etc/sysconfig/network/routes"
  = __ni_suse_read_routes (AO := Reference.address_ops)
      (FO := Reference.file_ops
               [("/etc/sysconfig/network/routes",
                 Samples.text_of ["default 192.168.1.1 - - ";
                                  "10.1.0.0/16 - - eth0#eth1"])])
      "/etc/sysconfig/network/routes".
Proof.
  apply (route_line_comment_is_ignored (AO := Reference.address_ops)
           (Reference.file_ops
              [("/etc/sysconfig/network/routes",
                Samples.text_of ["default 192.168.1.1 - - # the default";
                                 "10.1.0.0/16 - - eth0"])])
           (Reference.file_ops
              [("/etc/sysconfig/network/routes",
                Samples.text_of ["default 192.168.1.1 - - ";
                                 "10.1.0.0/16 - - eth0#eth1"])])
           "/etc/sysconfig/network/routes"
           (Samples.text_of ["default 192.168.1.1 - - # the default";
                             "10.1.0.0/16 - - eth0"])
           (Samples.text_of ["default 192.168.1.1 - - ";
                             "10.1.0.0/16 - - eth0#eth1"]));
    vm_compute; reflexivity.
Defined.

(** X11: a route file that can be opened, in which no line is longer than
    510 characters and no line holds a field, every line being blank or a
    comment, makes [__ni_suse_read_routes] return NULL without logging
    anything: the return value is that of a failed parse. *)
Theorem read_routes_of_blank_file_is_null :
  forall {AO : AddressOps} {FO : FileOps} (filename text : string),
    fopen_read filename = Some text ->
    lines_fit_buffer text = true ->
    (forall line, In line (text_lines text) ->
       route_line_fields line = []) ->
    __ni_suse_read_routes filename = ([], []).
Proof.
  intros AO FO filename text Hopen Hfit Hblank.
  unfold __ni_suse_read_routes, read_routes_text. rewrite Hopen.
  rewrite (read_routes_loop_lines filename text [] Hfit).
  now rewrite (read_routes_loop_skips filename _ [] Hblank).
Qed.

Lemma read_routes_of_blank_file_is_null_witness :
  Samples.routes_of (Samples.text_of ["# global routes"; ""; "   # none"])
  = ([], []).
Proof.
  apply (read_routes_of_blank_file_is_null
           (AO := Reference.address_ops)
           (FO := Reference.file_ops
                    [("/etc/sysconfig/network/routes",
                      Samples.text_of ["# global routes"; ""; "   # none"])])
           "/etc/sysconfig/network/routes"
           (Samples.text_of ["# global routes"; ""; "   # none"])).
  - reflexivity.
  - vm_compute. reflexivity.
  - intros line Hin. vm_compute in Hin.
    repeat (destruct Hin as [<- | Hin]; [reflexivity |]). contradiction.
Defined.

(** X12: when no line of a route file is longer than 510 characters and
    no line is in error, [__ni_suse_read_routes] returns one route for
    every line that holds a field, in the order of the lines, and logs
    nothing. *)
Theorem read_routes_keeps_file_order :
  forall {AO : AddressOps} {FO : FileOps} (filename text : string),
    fopen_read filename = Some text ->
    lines_fit_buffer text = true ->
    (forall line msg, In line (text_lines text) ->
       read_route_line filename line <> LineError msg) ->
    __ni_suse_read_routes filename
    = (flat_map (line_routes filename) (text_lines text), []).
Proof.
  intros AO FO filename text Hopen Hfit Hok.
  unfold __ni_suse_read_routes, read_routes_text. rewrite Hopen.
  rewrite (read_routes_loop_lines filename text [] Hfit).
  now rewrite (read_routes_loop_in_order filename _ [] Hok).
Qed.

Lemma read_routes_keeps_file_order_witness :
  map route_prefixlen
      (fst (Samples.routes_of
              (Samples.text_of ["10.1.0.0/16 192.168.1.254 - eth0";
                                "# the default route";
                                "default 192.168.1.1 - -"])))
  = [16; 0].
Proof.
  unfold Samples.routes_of.
  rewrite (read_routes_keeps_file_order
             (AO := Reference.address_ops)
             (FO := Reference.file_ops
                      [("/etc/sysconfig/network/routes",
                        Samples.text_of ["10.1.0.0/16 192.168.1.254 - eth0";
                                         "# the default route";
                                         "default 192.168.1.1 - -"])])
             "/etc/sysconfig/network/routes"
             (Samples.text_of ["10.1.0.0/16 192.168.1.254 - eth0";
                               "# the default route";
                               "default 192.168.1.1 - -"])).
  - vm_compute. reflexivity.
  - reflexivity.
  - vm_compute. reflexivity.
  - intros line msg Hin. vm_compute in Hin.
    repeat (destruct Hin as [<- | Hin]; [vm_compute; discriminate |]).
    contradiction.
Defined.

(* ------------------------------------------------------------------ *)
(** ** Global routes *)

Section GlobalRouteFacts.
Context {D : Type} {SO : SysconfigOps} {AO : AddressOps} {FO : FileOps}.

Lemma gateway_reachable_existsb :
  forall (addr_list : list ni_address_t) (rp : ni_route_t),
    gateway_reachable addr_list rp
    = (ss_family (nh_gateway rp) =? AF_INET)
      && existsb (fun ap => (addr_family ap =? AF_INET)
                            && ni_address_can_reach ap (nh_gateway rp))
                 addr_list.
Proof.
  intros addr_list rp. induction addr_list as [| ap rest IH]; simpl.
  - now rewrite andb_false_r.
  - rewrite IH.
    destruct (addr_family ap =? AF_INET);
      destruct (ss_family (nh_gateway rp) =? AF_INET);
      destruct (ni_address_can_reach ap (nh_gateway rp)); reflexivity.
Qed.

Lemma global_routes_loop_filter :
  forall (globals : list ni_route_t) (ifp : ni_netdev_t D),
    let ifp' := global_routes_loop globals ifp in
    routes ifp'
    = (routes ifp ++ filter (global_route_applies ifp) globals)%list
    /\ addrs ifp' = addrs ifp
    /\ name ifp' = name ifp
    /\ link_type ifp' = link_type ifp.
Proof.
  induction globals as [| rp rest IH]; intros ifp.
  - simpl. now rewrite app_nil_r.
  - cbn [global_routes_loop filter].
    set (ifp1 := if route_family rp =? AF_INET then _ else _).
    assert (Hstep : routes ifp1
                    = (routes ifp
                       ++ (if global_route_applies ifp rp then [rp] else []))%list
                    /\ addrs ifp1 = addrs ifp /\ name ifp1 = name ifp
                    /\ link_type ifp1 = link_type ifp).
    { subst ifp1. unfold global_route_applies.
      rewrite gateway_reachable_existsb. unfold ni_string_eq.
      destruct (route_family rp =? AF_INET).
      - destruct (nh_device rp) as [dv |];
          [destruct (streq dv (name ifp)) |];
          destruct (ss_family (nh_gateway rp) =? AF_INET);
          destruct (existsb _ (addrs ifp)); simpl;
          rewrite ?app_nil_r; auto.
      - destruct (route_family rp =? AF_INET6).
        + destruct (nh_device rp) as [dv |];
            [destruct (streq dv (name ifp)) |]; simpl;
            rewrite ?app_nil_r; auto.
        + simpl. rewrite app_nil_r. auto. }
    destruct Hstep as (S1 & S2 & S3 & S4).
    destruct (IH ifp1) as (I1 & I2 & I3 & I4).
    assert (Hsame : forall r, global_route_applies ifp1 r
                               = global_route_applies ifp r).
    { intros r. unfold global_route_applies. now rewrite S2, S3. }
    rewrite (filter_ext _ _ Hsame) in I1.
    repeat split; try congruence.
    rewrite I1, S1, <- app_assoc.
    now destruct (global_route_applies ifp rp).
Qed.

End GlobalRouteFacts.

(** X13: the loop over the global routes appends to an interface's routes
    exactly the global routes that apply to it, in their order, and writes
    nothing else: an IPv4 route applies when it is bound to no device or to
    this interface and its gateway is an IPv4 address that one of the
    interface's IPv4 addresses can reach; an IPv6 route applies when it is
    bound to this interface by name. *)
Theorem global_routes_attached_are_those_that_apply :
  forall {D : Type} {AO : AddressOps} (globals : list ni_route_t)
         (ifp : ni_netdev_t D),
    routes (global_routes_loop globals ifp)
    = (routes ifp ++ filter (global_route_applies ifp) globals)%list
    /\ addrs (global_routes_loop globals ifp) = addrs ifp
    /\ name (global_routes_loop globals ifp) = name ifp.
Proof.
  intros D AO globals ifp.
  destruct (global_routes_loop_filter globals ifp) as (H1 & H2 & H3 & _).
  auto.
Qed.

Example global_routes_sample :
  let eth0 :=
    with_addrs (@__ni_interface_new unit "eth0" 2)
               [ni_address_new AF_INET 24 (Samples.ipv4 192 168 1 10)] in
  let via gw dv := mk_route AF_INET 0 (mk_sockaddr AF_INET 0) gw dv 0 in
  map nh_gateway
      (routes (global_routes_loop (AO := Reference.address_ops)
                 [via (Samples.ipv4 192 168 1 1) None;
                  via (Samples.ipv4 10 0 0 1) None;
                  via (Samples.ipv4 192 168 1 2) (Some "eth1");
                  via sockaddr_zero (Some "eth0");
                  via (Samples.ipv4 192 168 1 3) (Some "eth0")]
                 eth0))
  = [Samples.ipv4 192 168 1 1; Samples.ipv4 192 168 1 3].
Proof. vm_compute. reflexivity. Qed.

(* ------------------------------------------------------------------ *)
(** ** File names *)

Lemma string_append_length :
  forall a b : string,
    String.length (a ++ b) = (String.length a + String.length b)%nat.
Proof. induction a as [| x a IH]; intros b; simpl; [| rewrite IH]; lia. Qed.

Lemma string_append_nil_r : forall a : string, (a ++ EmptyString)%string = a.
Proof. induction a as [| x a IH]; simpl; [| rewrite IH]; reflexivity. Qed.

Lemma string_append_assoc :
  forall a b c : string, ((a ++ b) ++ c)%string = (a ++ (b ++ c))%string.
Proof. induction a as [| x a IH]; intros b c; simpl; [| rewrite IH]; reflexivity. Qed.

Lemma string_drop_append :
  forall a b : string, string_drop (String.length a) (a ++ b) = b.
Proof. induction a as [| x a IH]; intros b; simpl; [| rewrite IH]; reflexivity. Qed.

(** Every text is what comes before its [k]-th character followed by what
    [string_drop] leaves. *)
Lemma string_drop_split :
  forall (k : nat) (s : string),
    (k <= String.length s)%nat ->
    exists p, s = (p ++ string_drop k s)%string /\ String.length p = k.
Proof.
  induction k as [| k IH]; intros s Hk.
  - exists EmptyString. now destruct s.
  - destruct s as [| x s]; simpl in Hk; [lia |].
    destruct (IH s) as (p & Hp & Hlen); [lia |].
    exists (String x p). simpl. split; [now rewrite <- Hp | now rewrite Hlen].
Qed.

Lemma ends_with_iff :
  forall (fname suffix : string),
    ((String.length fname <? String.length suffix)%nat = false
     /\ ni_string_eq (Some suffix)
          (Some (string_drop (String.length fname - String.length suffix)
                             fname)) = true)
    <-> exists p, fname = (p ++ suffix)%string.
Proof.
  intros fname suffix. unfold ni_string_eq, streq. split.
  - intros [Hlen Heq]. apply Nat.ltb_ge in Hlen. apply String.eqb_eq in Heq.
    destruct (string_drop_split (String.length fname - String.length suffix)
                                fname) as (p & Hp & _); [lia |].
    exists p. rewrite Hp at 1. now rewrite <- Heq.
  - intros [p ->]. rewrite string_append_length. split.
    + apply Nat.ltb_ge. lia.
    + replace (String.length p + String.length suffix - String.length suffix)%nat
        with (String.length p) by lia.
      rewrite string_drop_append. apply String.eqb_refl.
Qed.

Lemma valid_suffix_loop_iff :
  forall (blacklist : list string) (fname : string),
    valid_suffix_loop blacklist fname = true
    <-> forall suffix, In suffix blacklist ->
          forall p, fname <> (p ++ suffix)%string.
Proof.
  induction blacklist as [| sfx rest IH]; intros fname.
  - simpl. split; [intros _ suffix [] | reflexivity].
  - cbn [valid_suffix_loop]. cbv zeta.
    pose proof (ends_with_iff fname sfx) as Hends.
    destruct (String.length fname <? String.length sfx)%nat eqn:Hlen.
    + rewrite IH. split.
      * intros Hrest suffix [<- | Hin] p Heq; [| exact (Hrest suffix Hin p Heq)].
        destruct (proj2 Hends (ex_intro _ p Heq)) as [Hf _]. discriminate.
      * intros Hall suffix Hin. apply Hall. now right.
    + destruct (ni_string_eq (Some sfx) _) eqn:Heq.
      * split; [discriminate |]. intros Hall. exfalso.
        destruct (proj1 Hends (conj eq_refl eq_refl)) as [p Hp].
        exact (Hall sfx (or_introl eq_refl) p Hp).
      * rewrite IH. split.
        -- intros Hrest suffix [<- | Hin] p Hp;
             [| exact (Hrest suffix Hin p Hp)].
           destruct (proj2 Hends (ex_intro _ p Hp)) as [_ Ht]. congruence.
        -- intros Hall suffix Hin. apply Hall. now right.
Qed.

Lemma valid_suffix_spec :
  forall (fname : string) (pfxlen : nat),
    __ni_suse_ifcfg_valid_suffix fname pfxlen = true
    <-> (pfxlen < String.length fname)%nat
        /\ forall suffix,
             In suffix ifcfg_suffix_blacklist ->
             forall p, fname <> (p ++ suffix)%string.
Proof.
  intros fname pfxlen. unfold __ni_suse_ifcfg_valid_suffix.
  destruct (Nat.leb_spec (String.length fname) pfxlen) as [Hle | Hgt].
  - split; [discriminate | intros [Hlt _]; lia].
  - rewrite valid_suffix_loop_iff. tauto.
Qed.

(** X14: [__ni_suse_ifcfg_valid_suffix] accepts a file name exactly when it
    is longer than the prefix length given and ends with none of [~],
    [.old], [.bak], [.orig], [.scpmbackup], [.rpmnew], [.rpmsave],
    [.rpmorig]. *)
Theorem valid_suffix_rejects_backup_names :
  forall (fname : string) (pfxlen : nat),
    __ni_suse_ifcfg_valid_suffix fname pfxlen = true
    <-> (pfxlen < String.length fname)%nat
        /\ forall suffix,
             In suffix ["~"; ".old"; ".bak"; ".orig"; ".scpmbackup";
                        ".rpmnew"; ".rpmsave"; ".rpmorig"] ->
             forall p, fname <> (p ++ suffix)%string.
Proof. exact valid_suffix_spec. Qed.

Lemma scan_files_loop_filter :
  forall (files : list string) (pfxlen : nat) (res : list string),
    scan_files_loop files pfxlen res
    = (res ++ filter (fun f => __ni_suse_ifcfg_valid_suffix f pfxlen) files)%list.
Proof.
  induction files as [| f rest IH]; intros pfxlen res; simpl.
  - now rewrite app_nil_r.
  - destruct (__ni_suse_ifcfg_valid_suffix f pfxlen); simpl.
    + rewrite IH. now rewrite <- app_assoc.
    + apply IH.
Qed.

(** X15: [__ni_suse_ifcfg_scan_files] appends to the result array the
    names found that pass the suffix check, in the order found, leaves what
    the array held in place, and returns the number of names appended; a
    name it appends is longer than [ifcfg-] and has no backup suffix. *)
Theorem scan_files_appends_accepted_names :
  forall {DO : DirOps} (dirname : string) (res : list string),
    let '(n, res') := __ni_suse_ifcfg_scan_files dirname res in
    exists added,
      res' = (res ++ added)%list
      /\ n = Z.of_nat (List.length added)
      /\ added
         = (if fst (ni_scandir dirname "ifcfg-*")
            then filter (fun f => __ni_suse_ifcfg_valid_suffix f 6)
                        (snd (ni_scandir dirname "ifcfg-*"))
            else [])
      /\ forall f, In f added ->
           (6 < String.length f)%nat
           /\ forall suffix,
                In suffix ["~"; ".old"; ".bak"; ".orig"; ".scpmbackup";
                           ".rpmnew"; ".rpmsave"; ".rpmorig"] ->
                forall p, f <> (p ++ suffix)%string.
Proof.
  intros DO dirname res. unfold __ni_suse_ifcfg_scan_files.
  change (__NI_SUSE_CONFIG_IFPREFIX ++ "*")%string with "ifcfg-*".
  destruct (ni_scandir dirname "ifcfg-*") as [[|] files]; cbn [fst snd].
  - rewrite scan_files_loop_filter. unfold ifprefix_len.
    exists (filter (fun f => __ni_suse_ifcfg_valid_suffix f 6) files).
    repeat split.
    + rewrite length_app. lia.
    + apply filter_In in H. destruct H as [_ H].
      now apply valid_suffix_spec in H.
    + apply filter_In in H. destruct H as [_ H].
      apply valid_suffix_spec in H. now destruct H.
  - exists []. rewrite app_nil_r. repeat split; contradiction.
Qed.

Example scan_files_sample :
  __ni_suse_ifcfg_scan_files
    (DO := MoreReference.dir_ops
             ["ifcfg-eth0"; "ifcfg-eth0~"; "ifcfg-br0.rpmsave"; "ifcfg-";
              "ifcfg-lo"; "ifcfg-eth1.old"])
    "/etc/sysconfig/network" ["ifcfg-first"]
  = (2, ["ifcfg-first"; "ifcfg-eth0"; "ifcfg-lo"]).
Proof. reflexivity. Qed.

(* ------------------------------------------------------------------ *)
(** ** VLAN tags *)

Lemma isdigit_digit_value :
  forall c : ascii,
    isdigit c = true ->
    digit_value c = Some (code c - 48) /\ code c - 48 < 10.
Proof.
  intros c Hc. unfold digit_value. rewrite Hc. unfold isdigit in Hc.
  apply andb_true_iff in Hc. destruct Hc as [_ Hc]. apply Z.leb_le in Hc.
  split; [reflexivity | lia].
Qed.

Lemma decimal_digit_is_digit :
  forall (c : ascii) (d : Z),
    digit_value c = Some d -> (d <? 10) = true -> isdigit c = true.
Proof.
  intros c d Hv Hd. unfold digit_value in Hv. apply Z.ltb_lt in Hd.
  destruct (isdigit c); [reflexivity |].
  destruct (islower c) eqn:Hl.
  - unfold islower in Hl. apply andb_true_iff in Hl. destruct Hl as [Hl _].
    apply Z.leb_le in Hl. injection Hv as <-. lia.
  - destruct (isupper c) eqn:Hu; [| discriminate].
    unfold isupper in Hu. apply andb_true_iff in Hu. destruct Hu as [Hu _].
    apply Z.leb_le in Hu. injection Hv as <-. lia.
Qed.

(** [read_digits] in base ten reads a text to its end exactly when the text
    is made of digits. *)
Lemma read_digits_to_end :
  forall (s : string) (acc : Z) (seen : bool),
    snd (read_digits 10 acc seen s) = EmptyString <-> all_digits s = true.
Proof.
  unfold all_digits.
  induction s as [| c r IH]; intros acc seen; [now split |].
  cbn [read_digits list_ascii_of_string forallb].
  destruct (isdigit c) eqn:Hc.
  - destruct (isdigit_digit_value c Hc) as [-> Hlt].
    apply Z.ltb_lt in Hlt. rewrite Hlt. cbn [andb]. apply IH.
  - cbn [andb]. split; [| discriminate].
    destruct (digit_value c) as [d |] eqn:Hv; [| discriminate].
    destruct (d <? 10) eqn:Hd; [| discriminate].
    rewrite (decimal_digit_is_digit c d Hv Hd) in Hc. discriminate.
Qed.

Lemma read_digits_seen :
  forall (s : string) (base acc : Z),
    snd (fst (read_digits base acc true s)) = true.
Proof.
  induction s as [| c r IH]; intros base acc; [reflexivity |].
  cbn [read_digits]. destruct (digit_value c) as [d |]; [| reflexivity].
  destruct (d <? base); [apply IH | reflexivity].
Qed.

(** [strtoul] in base ten on a text that begins with a digit: no white
    space or sign is skipped, and a digit is seen. *)
Lemma strtoul_of_digit_start :
  forall (c : ascii) (r : string),
    isdigit c = true ->
    strtoul (String c r) 10
    = (Z.min (fst (fst (read_digits 10 0 false (String c r)))) ULONG_MAX,
       snd (read_digits 10 0 false (String c r))).
Proof.
  intros c r Hc. unfold strtoul.
  assert (Hcode : 48 <= code c <= 57).
  { unfold isdigit in Hc. apply andb_true_iff in Hc.
    destruct Hc as [H1 H2]. apply Z.leb_le in H1, H2. lia. }
  assert (Hspace : isspace c = false).
  { unfold isspace. apply orb_false_iff. split.
    - apply Z.eqb_neq. lia.
    - apply andb_false_iff. right. apply Z.leb_gt. lia. }
  cbn [skip_space]. rewrite Hspace.
  assert (H45 : (code c =? 45) = false) by (apply Z.eqb_neq; lia).
  assert (H43 : (code c =? 43) = false) by (apply Z.eqb_neq; lia).
  rewrite H45, H43. change ((10 =? 0) || (10 =? 16)) with false. cbv iota.
  pose proof (read_digits_seen r 10 (0 * 10 + (code c - 48))) as Hseen.
  cbn [read_digits] in *.
  destruct (isdigit_digit_value c Hc) as [Hv Hlt]. rewrite Hv.
  apply Z.ltb_lt in Hlt. rewrite Hlt.
  destruct (read_digits 10 (0 * 10 + (code c - 48)) true r) as [[v seen] rest].
  cbn [fst snd] in *. subst seen. cbn [negb].
  destruct (Z.ltb_spec ULONG_MAX v).
  - rewrite Z.min_r by lia. reflexivity.
  - rewrite Z.min_l by lia. reflexivity.
Qed.

Lemma vlan_tag_parse_spec :
  forall (str : string),
    __try_vlan_tag_parse str
    = match str with
      | EmptyString => None
      | String _ _ =>
          if all_digits str
          then Some (to_uint (Z.min (fst (fst (read_digits 10 0 false str)))
                                    ULONG_MAX))
          else None
      end.
Proof.
  intros [| c r]; [reflexivity |]. unfold __try_vlan_tag_parse.
  destruct (isdigit c) eqn:Hc; cbn [negb].
  - rewrite (strtoul_of_digit_start c r Hc).
    pose proof (read_digits_to_end (String c r) 0 false) as Hend.
    destruct (all_digits (String c r)).
    + rewrite (proj2 Hend eq_refl). reflexivity.
    + destruct (snd (read_digits 10 0 false (String c r))) eqn:Hrest.
      * discriminate (proj1 Hend eq_refl).
      * reflexivity.
  - unfold all_digits. cbn [list_ascii_of_string forallb]. now rewrite Hc.
Qed.

(** X16: [__try_vlan_tag_parse] accepts a text exactly when it is not
    empty and made of decimal digits only: no sign, no white space, no
    hexadecimal form. *)
Theorem vlan_tag_parse_accepts_digits_only :
  forall (str : string),
    __try_vlan_tag_parse str <> None
    <-> str <> EmptyString /\ all_digits str = true.
Proof.
  intros str. rewrite vlan_tag_parse_spec. destruct str as [| c r].
  - split; [congruence | intros [H _]; congruence].
  - destruct (all_digits (String c r)).
    + split; [intros _; split; congruence | intros _; congruence].
    + split; [congruence | intros [_ H]; congruence].
Qed.

(** The text of a decimal numeral is read back as its value. *)
Lemma read_digits_of_uint_acc :
  forall (d : Decimal.uint) (acc : positive) (seen : bool),
    fst (fst (read_digits 10 (Z.pos acc) seen
                (DecimalString.NilEmpty.string_of_uint d)))
    = Z.pos (Pos.of_uint_acc d acc).
Proof.
  induction d; intros acc seen; [reflexivity | ..];
    cbn [DecimalString.NilEmpty.string_of_uint read_digits Pos.of_uint_acc];
    change (digit_value _) with (Some 0) || change (digit_value _) with (Some 1)
    || change (digit_value _) with (Some 2) || change (digit_value _) with (Some 3)
    || change (digit_value _) with (Some 4) || change (digit_value _) with (Some 5)
    || change (digit_value _) with (Some 6) || change (digit_value _) with (Some 7)
    || change (digit_value _) with (Some 8) || change (digit_value _) with (Some 9);
    cbn [Z.ltb Z.compare Pos.compare Pos.compare_cont];
    rewrite <- IHd with (seen := true); f_equal; f_equal; f_equal; lia.
Qed.

Lemma read_digits_of_uint :
  forall (d : Decimal.uint) (seen : bool),
    fst (fst (read_digits 10 0 seen
                (DecimalString.NilEmpty.string_of_uint d)))
    = Z.of_N (Pos.of_uint d).
Proof.
  induction d; intros seen; [reflexivity | ..];
    cbn [DecimalString.NilEmpty.string_of_uint read_digits Pos.of_uint];
    change (digit_value _) with (Some 0) || change (digit_value _) with (Some 1)
    || change (digit_value _) with (Some 2) || change (digit_value _) with (Some 3)
    || change (digit_value _) with (Some 4) || change (digit_value _) with (Some 5)
    || change (digit_value _) with (Some 6) || change (digit_value _) with (Some 7)
    || change (digit_value _) with (Some 8) || change (digit_value _) with (Some 9);
    cbn [Z.ltb Z.compare Pos.compare Pos.compare_cont];
    [ apply (IHd true) | .. ];
    cbn [Z.mul Z.add Z.of_N]; apply read_digits_of_uint_acc.
Qed.

Lemma all_digits_of_uint :
  forall d : Decimal.uint,
    all_digits (DecimalString.NilEmpty.string_of_uint d) = true.
Proof.
  unfold all_digits. induction d; [reflexivity | ..];
    cbn [DecimalString.NilEmpty.string_of_uint list_ascii_of_string forallb];
    rewrite IHd; reflexivity.
Qed.

Lemma decimal_is_digits :
  forall n : Z,
    all_digits (decimal n) = true /\ decimal n <> EmptyString
    /\ fst (fst (read_digits 10 0 false (decimal n))) = Z.max 0 n.
Proof.
  intros n. unfold decimal, DecimalString.NilZero.string_of_uint.
  assert (Hval : Z.of_N (Pos.of_uint (N.to_uint (Z.to_N n))) = Z.max 0 n).
  { change (Pos.of_uint (N.to_uint (Z.to_N n)))
      with (N.of_uint (N.to_uint (Z.to_N n))).
    rewrite DecimalN.Unsigned.of_to. lia. }
  rewrite <- Hval.
  pose proof (all_digits_of_uint (N.to_uint (Z.to_N n))) as Hall.
  pose proof (read_digits_of_uint (N.to_uint (Z.to_N n)) false) as Hread.
  destruct (N.to_uint (Z.to_N n));
    (split; [exact Hall | split; [discriminate | exact Hread]]).
Qed.

(** X17: [__try_vlan_tag_parse] stores the value of [strtoul] in an
    [unsigned int]: the text of a number up to [ULONG_MAX] is accepted with
    the number reduced modulo 2^32 as its tag, so a number of 2^32 or more
    is taken for a smaller one. *)
Theorem vlan_tag_parse_wraps_at_32_bits :
  forall n : Z,
    0 <= n <= ULONG_MAX ->
    __try_vlan_tag_parse (decimal n) = Some (n mod 4294967296).
Proof.
  intros n Hn. rewrite vlan_tag_parse_spec.
  destruct (decimal_is_digits n) as (Hall & Hne & Hval).
  destruct (decimal n) as [| c r] eqn:Hd; [congruence |].
  rewrite Hall, Hval. unfold to_uint. f_equal. f_equal. lia.
Qed.

Lemma vlan_tag_parse_wraps_at_32_bits_witness :
  __try_vlan_tag_parse "4294967297" = Some 1.
Proof.
  apply (vlan_tag_parse_wraps_at_32_bits 4294967297).
  unfold ULONG_MAX. lia.
Defined.

Lemma to_uint_range : forall z : Z, 0 <= to_uint z < 4294967296.
Proof. intros z. unfold to_uint. apply Z.mod_pos_bound. lia. Qed.

Lemma vlan_tag_parse_range :
  forall (str : string) (tag : Z),
    __try_vlan_tag_parse str = Some tag -> 0 <= tag.
Proof.
  intros str tag. rewrite vlan_tag_parse_spec.
  destruct str as [| c r]; [discriminate |].
  destruct (all_digits (String c r)); [| discriminate].
  intros [= <-]. apply to_uint_range.
Qed.

Section VlanFacts.
Context {D B : Type} {SO : SysconfigOps}.

Lemma try_vlan_cases :
  forall (sc : ni_sysconfig_t) (nd : suse_netdev D B),
    (fst (fst (try_vlan sc nd)) = false /\ snd (fst (try_vlan sc nd)) = nd)
    \/ exists etherdev tag,
         ni_sysconfig_get_value sc "ETHERDEVICE" = Some etherdev
         /\ etherdev <> name (netdev nd)
         /\ 0 <= tag <= __NI_VLAN_TAG_MAX
         /\ try_vlan sc nd
            = (true,
               mk_suse_netdev (with_link_type (netdev nd) NI_IFTYPE_VLAN)
                              (bonding nd)
                              (Some (mk_vlan (Some etherdev) tag)),
               []).
Proof.
  intros sc nd. unfold try_vlan.
  destruct (ni_sysconfig_get_value sc "ETHERDEVICE") as [etherdev |];
    [| now left].
  destruct (streq (name (netdev nd)) etherdev) eqn:Hself; [now left |].
  assert (Hne : etherdev <> name (netdev nd)).
  { intros ->. unfold streq in Hself. now rewrite String.eqb_refl in Hself. }
  destruct (ni_sysconfig_get_value sc "VLAN_ID") as [vlantag |].
  - destruct (__try_vlan_tag_parse vlantag) as [tag |] eqn:Hparse;
      [| now left].
    destruct (Z.ltb_spec __NI_VLAN_TAG_MAX tag) as [Hbig | Hok]; [now left |].
    right. exists etherdev, tag. repeat split; try assumption.
    exact (vlan_tag_parse_range vlantag tag Hparse).
  - destruct (__try_vlan_tag_parse (vlan_tag_of_name (name (netdev nd))))
      as [tag |] eqn:Hparse; [| now left].
    destruct (Z.ltb_spec __NI_VLAN_TAG_MAX tag) as [Hbig | Hok]; [now left |].
    right. exists etherdev, tag. repeat split; try assumption.
    exact (vlan_tag_parse_range _ tag Hparse).
Qed.

End VlanFacts.

(** X18: when [try_vlan] returns TRUE the device has link type VLAN, its
    VLAN object names ETHERDEVICE, which is not the interface itself, as
    parent and has a tag from 0 to 4094, and nothing was logged; when it
    returns FALSE the device is as it was.  The interface name is taken
    not to be made of digits only: the scan of the name for its tag is
    defined only then. *)
Theorem try_vlan_result :
  forall {D B : Type} {SO : SysconfigOps} (sc : ni_sysconfig_t)
         (nd nd' : suse_netdev D B) (ok : bool) (log : list string),
    all_digits (name (netdev nd)) = false ->
    try_vlan sc nd = (ok, nd', log) ->
    if ok then
      exists etherdev tag,
        ni_sysconfig_get_value sc "ETHERDEVICE" = Some etherdev
        /\ etherdev <> name (netdev nd)
        /\ 0 <= tag <= 4094
        /\ nd' = mk_suse_netdev (with_link_type (netdev nd) NI_IFTYPE_VLAN)
                                (bonding nd)
                                (Some (mk_vlan (Some etherdev) tag))
        /\ log = []
    else nd' = nd.
Proof.
  intros D B SO sc nd nd' ok log _ Hrun.
  destruct (try_vlan_cases sc nd) as [[Hfalse Hsame] | (e & tag & He & Hne & Htag & Htrue)].
  - rewrite Hrun in Hfalse, Hsame. cbn [fst snd] in *. now subst.
  - rewrite Hrun in Htrue. injection Htrue as -> -> ->.
    exists e, tag. auto.
Qed.

Lemma try_vlan_result_witness :
  exists etherdev tag,
    Reference.get_value
      (Samples.ifcfg "vlan7" [Reference.var "ETHERDEVICE" "eth0";
                               Reference.var "VLAN_ID" "42"]) "ETHERDEVICE"
    = Some etherdev
    /\ etherdev <> "vlan7"
    /\ 0 <= tag <= 4094
    /\ snd (fst (MoreReference.vlan_of
                   (Samples.ifcfg "vlan7" [Reference.var "ETHERDEVICE" "eth0";
                                           Reference.var "VLAN_ID" "42"])
                   "vlan7"))
       = mk_suse_netdev
           (with_link_type (__ni_interface_new "vlan7" 0) NI_IFTYPE_VLAN)
           None (Some (mk_vlan (Some etherdev) tag))
    /\ @nil string = [].
Proof.
  exact (try_vlan_result (D := string) (B := MoreReference.bond)
           (SO := Reference.sysconfig_ops)
           (Samples.ifcfg "vlan7" [Reference.var "ETHERDEVICE" "eth0";
                                   Reference.var "VLAN_ID" "42"])
           (MoreReference.new_netdev "vlan7") _ true [] eq_refl eq_refl).
Defined.

Lemma after_last_char_append :
  forall (c : ascii) (a b : string),
    after_last_char c b = None ->
    after_last_char c (a ++ String c b) = Some b.
Proof.
  intros c a b Hb. induction a as [| x a IH]; cbn [append after_last_char].
  - now rewrite Hb, Ascii.eqb_refl.
  - now rewrite IH.
Qed.

Lemma after_last_char_none_append :
  forall (c : ascii) (a b : string),
    after_last_char c a = None -> after_last_char c b = None ->
    after_last_char c (a ++ b) = None.
Proof.
  intros c a b. induction a as [| x a IH]; cbn [append after_last_char];
    [auto |].
  intros Ha Hb. destruct (after_last_char c a); [discriminate |].
  rewrite (IH eq_refl Hb). destruct (Ascii.eqb x c); [discriminate |].
  reflexivity.
Qed.

Lemma all_digits_no_dot :
  forall s : string, all_digits s = true -> after_last_char "." s = None.
Proof.
  unfold all_digits. induction s as [| x r IH]; [reflexivity |].
  cbn [list_ascii_of_string forallb after_last_char].
  intros H. apply andb_true_iff in H. destruct H as [Hx Hr].
  rewrite (IH Hr). destruct (Ascii.eqb_spec x "."); [| reflexivity].
  subst x. discriminate.
Qed.

Lemma trailing_digits_of_digits :
  forall s : string, all_digits s = true -> trailing_digits s = s.
Proof.
  intros [| c r] H; [reflexivity |]. cbn [trailing_digits].
  unfold all_digits in *. cbn [list_ascii_of_string forallb] in H.
  now rewrite H.
Qed.

Lemma all_digits_append_other :
  forall (a b : string) (c : ascii),
    isdigit c = false -> all_digits (a ++ String c b) = false.
Proof.
  unfold all_digits. intros a b c Hc.
  induction a as [| x a IH]; cbn [append list_ascii_of_string forallb].
  - now rewrite Hc.
  - rewrite IH. apply andb_false_r.
Qed.

Lemma trailing_digits_append :
  forall (a b : string) (c : ascii),
    isdigit c = false -> all_digits b = true ->
    trailing_digits (a ++ String c b) = b.
Proof.
  intros a b c Hc Hb. induction a as [| x a IH]; cbn [append trailing_digits].
  - rewrite Hc. cbn [andb]. now apply trailing_digits_of_digits.
  - rewrite (all_digits_append_other a b c Hc), andb_false_r. exact IH.
Qed.

(** The tag text taken from an interface name. *)
Lemma vlan_tag_of_name_cases :
  forall (base digits : string) (c : ascii),
    all_digits digits = true ->
    isdigit c = false ->
    (c <> "."%char -> after_last_char "." base = None) ->
    vlan_tag_of_name (base ++ String c digits) = digits.
Proof.
  intros base digits c Hd Hc Hbase. unfold vlan_tag_of_name.
  destruct (Ascii.eqb_spec c ".") as [-> | Hne].
  - now rewrite after_last_char_append by now apply all_digits_no_dot.
  - rewrite after_last_char_none_append.
    + now apply trailing_digits_append.
    + now apply Hbase.
    + cbn [after_last_char]. rewrite (all_digits_no_dot digits Hd).
      now destruct (Ascii.eqb_spec c ".").
Qed.

(** X19: without VLAN_ID, [try_vlan] takes the tag from the interface
    name: for a name that ends in a number up to 4094 after a dot
    ([eth0.100]), or after a character that is no digit in a name without
    dots ([vlan100]), the device becomes a VLAN on ETHERDEVICE with that
    number as its tag. *)
Theorem try_vlan_tag_from_name :
  forall {D B : Type} {SO : SysconfigOps} (sc : ni_sysconfig_t)
         (nd : suse_netdev D B) (etherdev base : string) (c : ascii) (n : Z),
    ni_sysconfig_get_value sc "ETHERDEVICE" = Some etherdev ->
    ni_sysconfig_get_value sc "VLAN_ID" = None ->
    name (netdev nd) = (base ++ String c (decimal n))%string ->
    isdigit c = false ->
    (c <> "."%char -> after_last_char "." base = None) ->
    0 <= n <= 4094 ->
    etherdev <> name (netdev nd) ->
    try_vlan sc nd
    = (true,
       mk_suse_netdev (with_link_type (netdev nd) NI_IFTYPE_VLAN)
                      (bonding nd) (Some (mk_vlan (Some etherdev) n)),
       []).
Proof.
  intros D B SO sc nd etherdev base c n He Hid Hname Hc Hbase Hn Hne.
  unfold try_vlan. rewrite He, Hid.
  assert (Hself : streq (name (netdev nd)) etherdev = false).
  { unfold streq. apply String.eqb_neq. congruence. }
  rewrite Hself. rewrite Hname at 1.
  destruct (decimal_is_digits n) as (Hall & Hne0 & Hval).
  rewrite (vlan_tag_of_name_cases base (decimal n) c Hall Hc Hbase).
  rewrite vlan_tag_parse_spec.
  destruct (decimal n) as [| d r] eqn:Hd; [congruence |].
  rewrite Hall, Hval.
  assert (Htag : to_uint (Z.min (Z.max 0 n) ULONG_MAX) = n).
  { unfold to_uint, ULONG_MAX. rewrite Z.max_r, Z.min_l by lia.
    apply Z.mod_small. lia. }
  rewrite Htag.
  assert (Hle : (__NI_VLAN_TAG_MAX <? n) = false).
  { apply Z.ltb_ge. unfold __NI_VLAN_TAG_MAX. lia. }
  rewrite Hle. reflexivity.
Qed.

Lemma try_vlan_tag_from_name_witness :
  MoreReference.vlan_of
    (Samples.ifcfg "eth0.100" [Reference.var "ETHERDEVICE" "eth0"])
    "eth0.100"
  = (true,
     mk_suse_netdev
       (with_link_type (__ni_interface_new "eth0.100" 0) NI_IFTYPE_VLAN)
       None (Some (mk_vlan (Some "eth0") 100)),
     [])
  /\ MoreReference.vlan_of
       (Samples.ifcfg "vlan7" [Reference.var "ETHERDEVICE" "eth1"]) "vlan7"
     = (true,
        mk_suse_netdev
          (with_link_type (__ni_interface_new "vlan7" 0) NI_IFTYPE_VLAN)
          None (Some (mk_vlan (Some "eth1") 7)),
        []).
Proof.
  split.
  - apply (try_vlan_tag_from_name (D := string) (B := MoreReference.bond)
             (SO := Reference.sysconfig_ops)
             (Samples.ifcfg "eth0.100" [Reference.var "ETHERDEVICE" "eth0"])
             (MoreReference.new_netdev "eth0.100") "eth0" "eth0" "."%char 100);
      try reflexivity; try lia; try discriminate.
  - apply (try_vlan_tag_from_name (D := string) (B := MoreReference.bond)
             (SO := Reference.sysconfig_ops)
             (Samples.ifcfg "vlan7" [Reference.var "ETHERDEVICE" "eth1"])
             (MoreReference.new_netdev "vlan7") "eth1" "vla" "n"%char 7);
      try reflexivity; try lia; try discriminate.
Defined.

(* ------------------------------------------------------------------ *)
(** ** The name of the device *)

Section NameKept.
Context {D B : Type} {SO : SysconfigOps} {AO : AddressOps} {FO : FileOps}
        {BO : BridgeOps D} {LO : LinkOps B}.

Lemma tunnel_map_loop_name :
  forall (map : list (string * Z)) (value : string) (value_ptr : Z)
         (ifp : ni_netdev_t D),
    name (tunnel_map_loop map value value_ptr ifp) = name ifp.
Proof.
  induction map as [| [map_name map_value] rest IH]; intros value ptr ifp;
    cbn [tunnel_map_loop]; [reflexivity |].
  destruct (streq map_name value); [reflexivity | apply IH].
Qed.

Lemma try_tunnel_name :
  forall (sc : ni_sysconfig_t) (ifp : ni_netdev_t D),
    name (snd (try_tunnel sc ifp)) = name ifp.
Proof.
  intros sc ifp. unfold try_tunnel.
  destruct (ni_sysconfig_get_value sc "TUNNEL"); cbn [snd];
    [apply tunnel_map_loop_name | reflexivity].
Qed.

Lemma try_bridge_name :
  forall (sc : ni_sysconfig_t) (ifp : ni_netdev_t D),
    name (snd (fst (try_bridge sc ifp))) = name ifp.
Proof.
  intros sc ifp. unfold try_bridge.
  destruct (ni_sysconfig_get_boolean sc "BRIDGE") as [[|] |];
    try reflexivity.
  destruct (ni_netdev_get_bridge _); [| reflexivity].
  destruct (bridge_steps _ _ _); reflexivity.
Qed.

Lemma try_add_bonding_slave_name :
  forall (sc : ni_sysconfig_t) (nd : suse_netdev D B) (suffix : string),
    name (netdev (snd (try_add_bonding_slave sc nd suffix)))
    = name (netdev nd).
Proof.
  intros sc nd suffix. unfold try_add_bonding_slave.
  destruct (__find_indexed_variable sc "BONDING_SLAVE" suffix);
    [| reflexivity].
  destruct (ni_netdev_get_bonding _); [| reflexivity].
  destruct (ni_bonding_add_slave _ _). reflexivity.
Qed.

Lemma process_indexed_loop_name :
  forall (func : suse_netdev D B -> string -> bool * suse_netdev D B),
    (forall nd suffix,
        name (netdev (snd (func nd suffix))) = name (netdev nd)) ->
    forall (names : list string) (pfxlen : nat) (nd : suse_netdev D B),
      name (netdev (snd (process_indexed_loop names pfxlen func nd)))
      = name (netdev nd).
Proof.
  intros func Hfunc. induction names as [| n rest IH]; intros pfxlen nd;
    cbn [process_indexed_loop]; [reflexivity |].
  pose proof (Hfunc nd (string_drop pfxlen n)) as Hstep.
  destruct (func nd (string_drop pfxlen n)) as [[|] nd1]; cbn [snd] in *.
  - now rewrite IH.
  - exact Hstep.
Qed.

Lemma try_set_bonding_options_netdev :
  forall (nd : suse_netdev D B) (options : string),
    netdev (snd (fst (try_set_bonding_options nd options))) = netdev nd.
Proof.
  intros nd options. unfold try_set_bonding_options.
  destruct (ni_netdev_get_bonding nd); [| reflexivity].
  destruct (bonding_options_loop _ _ _ _) as [[ok bond'] log]. reflexivity.
Qed.

Lemma try_bonding_name :
  forall (sc : ni_sysconfig_t) (nd : suse_netdev D B),
    name (netdev (snd (fst (try_bonding sc nd)))) = name (netdev nd).
Proof.
  intros sc nd. unfold try_bonding, __process_indexed_variables.
  destruct (ni_sysconfig_get_boolean sc "BONDING_MASTER") as [[|] |];
    try reflexivity.
  destruct (ni_sysconfig_find_matching sc "BONDING_SLAVE") as [[|] names];
    [| reflexivity].
  pose proof (process_indexed_loop_name (try_add_bonding_slave sc)
                (try_add_bonding_slave_name sc) names
                (String.length "BONDING_SLAVE") nd) as Hloop.
  destruct (process_indexed_loop names _ _ nd) as [[|] nd1];
    cbn [fst snd] in *; [| exact Hloop].
  assert (Hopts : forall r : bool * suse_netdev D B * list string,
            name (netdev (snd (fst r))) = name (netdev nd) ->
            name (netdev (snd (fst
              (let '(ok, nd2, log2) := r in
               if negb ok then (false, nd2, log2)
               else
                 let nd3 :=
                   match ni_netdev_get_bonding nd2 with
                   | Some b => with_bonding nd2 (Some b)
                   | None => nd2
                   end in
                 match ni_bonding_validate (ni_netdev_get_bonding nd2) with
                 | Some err =>
                     (false, nd3,
                      (log2 ++ [("ifcfg-" ++ name (netdev nd2)
                                 ++ ": bonding validation: " ++ err)%string])%list)
                 | None => (true, nd3, log2)
                 end))))
            = name (netdev nd)).
  { intros [[ok nd2] log2] Hr. cbn [fst snd] in Hr.
    destruct ok; cbn [negb]; [| exact Hr].
    destruct (ni_bonding_validate _);
      destruct (ni_netdev_get_bonding nd2); exact Hr. }
  apply Hopts.
  destruct (ni_sysconfig_get_value sc "BONDING_MODULE_OPTS");
    [| exact Hloop].
  now rewrite try_set_bonding_options_netdev.
Qed.

Lemma try_vlan_name :
  forall (sc : ni_sysconfig_t) (nd : suse_netdev D B),
    name (netdev (snd (fst (try_vlan sc nd)))) = name (netdev nd).
Proof.
  intros sc nd.
  destruct (try_vlan_cases sc nd) as [[_ ->] | (e & tag & _ & _ & _ & ->)];
    reflexivity.
Qed.

Lemma try_wireless_name :
  forall (sc : ni_sysconfig_t) (ifp : ni_netdev_t D),
    name (snd (fst (try_wireless sc ifp))) = name ifp.
Proof.
  intros sc ifp. unfold try_wireless.
  destruct (ni_sysconfig_get sc "WIRELESS_ESSID"); reflexivity.
Qed.

Lemma try_ethernet_name :
  forall (sc : ni_sysconfig_t) (ifp : ni_netdev_t D),
    name (snd (try_ethernet sc ifp)) = name ifp.
Proof.
  intros sc ifp. unfold try_ethernet.
  destruct (ni_sysconfig_get_value sc "ETHTOOL_OPTIONS"); reflexivity.
Qed.

Lemma recognize_link_name :
  forall (sc : ni_sysconfig_t) (nd : suse_netdev D B),
    name (netdev (fst (recognize_link sc nd))) = name (netdev nd).
Proof.
  intros sc nd. unfold recognize_link.
  unfold try_loopback.
  destruct (streq (name (netdev nd)) "lo"); cbn [negb]; [reflexivity |].
  pose proof (try_bonding_name sc (with_netdev nd (netdev nd))) as H2.
  destruct (try_bonding sc (with_netdev nd (netdev nd))) as [[ok2 nd2] log2].
  cbn [fst snd with_netdev netdev] in H2.
  destruct ok2; [exact H2 |].
  pose proof (try_bridge_name sc (netdev nd2)) as H3.
  destruct (try_bridge sc (netdev nd2)) as [[ok3 ifp3] log3].
  cbn [fst snd] in H3.
  destruct ok3; [cbn; congruence |].
  pose proof (try_vlan_name sc (with_netdev nd2 ifp3)) as H4.
  destruct (try_vlan sc (with_netdev nd2 ifp3)) as [[ok4 nd4] log4].
  cbn [fst snd with_netdev netdev] in H4.
  destruct ok4; [cbn [fst]; congruence |].
  pose proof (try_wireless_name sc (netdev nd4)) as H5.
  destruct (try_wireless sc (netdev nd4)) as [[ok5 ifp5] log5].
  cbn [fst snd] in H5.
  destruct ok5; [cbn; congruence |].
  pose proof (try_tunnel_name sc (netdev (with_netdev nd4 ifp5))) as H6.
  destruct (try_tunnel sc (netdev (with_netdev nd4 ifp5))) as [ok6 ifp6].
  cbn [fst snd with_netdev netdev] in H6.
  destruct ok6; [cbn; congruence |].
  pose proof (try_ethernet_name sc (netdev (with_netdev (with_netdev nd4 ifp5) ifp6))) as H7.
  destruct (try_ethernet sc _) as [ok7 ifp7].
  cbn [fst snd with_netdev netdev] in *. congruence.
Qed.

Lemma addrconf_static_link :
  forall (g : suse_globals ni_sysconfig_t) (sc : ni_sysconfig_t)
         (ifp : ni_netdev_t D),
    name (snd (fst (__ni_suse_addrconf_static g sc ifp))) = name ifp
    /\ link_type (snd (fst (__ni_suse_addrconf_static g sc ifp)))
       = link_type ifp.
Proof.
  intros g sc ifp. unfold __ni_suse_addrconf_static.
  destruct (ni_sysconfig_find_matching sc "IPADDR") as [[|] names];
    [| now split].
  destruct (get_ipaddr_loop sc names (addrs ifp)) as [[[|] l] log];
    [| now split].
  cbv zeta.
  set (ifp2 := if streq _ "lo" then _ else _).
  assert (H2 : name ifp2 = name ifp /\ link_type ifp2 = link_type ifp).
  { subst ifp2. destruct (streq _ "lo"); now split. }
  set (r3 := match ni_sibling_path_printf _ _ with
             | Some _ => _ | None => _ end).
  assert (H3 : name (fst r3) = name ifp /\ link_type (fst r3) = link_type ifp).
  { subst r3. destruct (ni_sibling_path_printf _ _) as [routespath |];
      [| exact H2].
    destruct (ni_file_exists routespath); [| exact H2].
    destruct (__ni_suse_read_routes routespath) as [[| r rl] rlog];
      exact H2. }
  destruct r3 as [ifp3 log3]. cbn [fst snd] in *.
  destruct (global_routes_loop_filter (__ni_suse_global_routes g) ifp3)
    as (_ & _ & Hn & Ht).
  split; cbn [with_addrs name link_type]; [rewrite Hn | rewrite Ht]; tauto.
Qed.

Lemma bootproto_link :
  forall (g : suse_globals ni_sysconfig_t) (sc : ni_sysconfig_t)
         (c : ni_compat_netdev_t D),
    name (dev (fst (__ni_suse_bootproto g sc c))) = name (dev c)
    /\ link_type (dev (fst (__ni_suse_bootproto g sc c)))
       = link_type (dev c).
Proof.
  intros g sc c.
  assert (Hstatic : forall c0 : ni_compat_netdev_t D,
            name (dev (fst (run_static g sc c0))) = name (dev c0)
            /\ link_type (dev (fst (run_static g sc c0)))
               = link_type (dev c0)).
  { intros c0. unfold run_static.
    pose proof (addrconf_static_link g sc (dev c0)) as H.
    destruct (__ni_suse_addrconf_static g sc (dev c0)) as [[ok ifp] log].
    exact H. }
  unfold __ni_suse_bootproto.
  destruct (ni_string_eq_nocase _ (Some "none")); [now split |].
  destruct (ni_string_eq_nocase _ (Some "ibft")); [now split |].
  destruct (ni_string_eq_nocase _ (Some "6to4")); [apply Hstatic |].
  destruct (ni_string_eq_nocase _ (Some "static")); [apply Hstatic |].
  pose proof (bootproto_tokens_keeps g sc (bootproto_value sc c)
                (strtok_all "+" (bootproto_value sc c)) c)
    as (_ & Hdev & _).
  destruct (bootproto_tokens g sc _ _ c) as [c1 log1]. cbn [fst] in Hdev.
  pose proof (Hstatic c1) as H1.
  destruct (run_static g sc c1) as [c2 log2]. cbn [fst] in *.
  now rewrite <- Hdev.
Qed.

End NameKept.

Lemma strncmp_eq_prefix :
  forall (p b : string),
    strncmp_eq (String.length p) b p = true ->
    b = (p ++ string_drop (String.length p) b)%string.
Proof.
  induction p as [| y p IH]; intros b; [reflexivity |].
  cbn [String.length strncmp_eq]. destruct b as [| x b]; [discriminate |].
  intros H. apply andb_true_iff in H. destruct H as [Hx Hrest].
  apply Ascii.eqb_eq in Hx. subst y.
  cbn [append string_drop]. now rewrite <- (IH b Hrest).
Qed.

Lemma valid_ifname_shape :
  forall ifname : string,
    __ni_suse_valid_ifname ifname = true ->
    (0 < String.length ifname < 16)%nat
    /\ forall c, In c (list_ascii_of_string ifname) -> ifname_char_ok c = true.
Proof.
  intros [| c0 rest]; [discriminate |]. unfold __ni_suse_valid_ifname.
  destruct (Nat.leb_spec IFNAMSIZ (String.length (String c0 rest)))
    as [Hlong | Hshort]; [discriminate |].
  destruct (isalnum c0) eqn:H0; cbn [negb]; [| discriminate].
  intros Hrest. split.
  - unfold IFNAMSIZ in Hshort. cbn [String.length] in *. lia.
  - intros c [<- | Hin].
    + unfold ifname_char_ok. now rewrite H0.
    + rewrite forallb_forall in Hrest. now apply Hrest.
Qed.

Section ReadInterfaceFacts.
Context {D B : Type} {SO : SysconfigOps} {AO : AddressOps} {FO : FileOps}
        {BO : BridgeOps D} {LO : LinkOps B} {IO : InterfaceFileOps}.

Lemma sysconfig_read_cases :
  forall (g : suse_globals ni_sysconfig_t) (sc : ni_sysconfig_t)
         (st : suse_compat D B),
    fst (fst (__ni_suse_sysconfig_read g sc st)) = 0
    /\ name (dev (compat (snd (fst (__ni_suse_sysconfig_read g sc st)))))
       = name (dev (compat st))
    /\ control (compat (snd (fst (__ni_suse_sysconfig_read g sc st))))
       = Some (__ni_suse_startmode (ni_sysconfig_get_value sc "STARTMODE")).
Proof.
  intros g sc st. unfold __ni_suse_sysconfig_read. cbv zeta.
  set (c1 := __ni_suse_sysconfig_read_control sc (compat st)).
  assert (Hc1 : dev c1 = dev (compat st)
                /\ control c1
                   = Some (__ni_suse_startmode
                             (ni_sysconfig_get_value sc "STARTMODE"))).
  { subst c1. unfold __ni_suse_sysconfig_read_control.
    destruct (ni_sysconfig_get_value sc "STARTMODE"); now split. }
  destruct Hc1 as [Hdev Hcontrol].
  set (ifp1 := match ni_sysconfig_get_integer sc "MTU" with
               | Some mtu => with_link_mtu (dev c1) mtu
               | None => dev c1
               end).
  assert (Hifp1 : name ifp1 = name (dev (compat st))).
  { subst ifp1. rewrite <- Hdev.
    now destruct (ni_sysconfig_get_integer sc "MTU"). }
  pose proof (recognize_link_name sc
                (mk_suse_netdev ifp1 (compat_bonding st) (compat_vlan st)))
    as Hlink.
  destruct (recognize_link sc _) as [nd log2]. cbn [fst netdev] in Hlink.
  pose proof (bootproto_link g sc (with_dev c1 (netdev nd))) as [Hname _].
  pose proof (bootproto_keeps g sc (with_dev c1 (netdev nd)))
    as (Hctl & _).
  destruct (__ni_suse_bootproto g sc (with_dev c1 (netdev nd))) as [c3 log3].
  cbn [fst snd compat with_dev dev control] in *.
  repeat split; congruence.
Qed.

Lemma read_interface_cases :
  forall (g : suse_globals ni_sysconfig_t) (filename : string)
         (ifname : option string),
    (fst (__ni_suse_read_interface g filename ifname) = None
     /\ forall n sc,
          read_interface_name filename ifname = inl n ->
          __ni_suse_valid_ifname n = true ->
          ni_sysconfig_read filename = Some sc -> False)
    \/ exists n sc,
         read_interface_name filename ifname = inl n
         /\ __ni_suse_valid_ifname n = true
         /\ ni_sysconfig_read filename = Some sc
         /\ __ni_suse_read_interface g filename ifname
            = (Some (snd (fst (__ni_suse_sysconfig_read g sc
                                 (mk_suse_compat (ni_compat_netdev_new n)
                                                 None None)))),
               snd (__ni_suse_sysconfig_read g sc
                      (mk_suse_compat (ni_compat_netdev_new n) None None))).
Proof.
  intros g filename ifname. unfold __ni_suse_read_interface.
  destruct (read_interface_name filename ifname) as [n | msg];
    [| left; split; [reflexivity | discriminate]].
  destruct (__ni_suse_valid_ifname n) eqn:Hvalid; cbn [negb];
    [| left; split; [reflexivity | intros n' sc' [= <-]; congruence]].
  destruct (ni_sysconfig_read filename) as [sc |];
    [| left; split; [reflexivity | discriminate]].
  right. exists n, sc.
  pose proof (sysconfig_read_cases g sc
                (mk_suse_compat (ni_compat_netdev_new n) None None))
    as (Hrv & _).
  destruct (__ni_suse_sysconfig_read g sc _) as [[rv st] log].
  cbn [fst snd] in *. subst rv. now repeat split.
Qed.

Lemma read_interface_name_cases :
  forall (filename : string) (ifname : option string) (n : string),
    read_interface_name filename ifname = inl n ->
    match ifname with
    | Some (String c r) => n = String c r
    | _ => ni_basename filename = ("ifcfg-" ++ n)%string
    end.
Proof.
  intros filename ifname n. unfold read_interface_name.
  assert (Hbase :
    (if negb (__ni_suse_ifcfg_valid_prefix (Some (ni_basename filename))
                (Some __NI_SUSE_CONFIG_IFPREFIX))
     then inr ("Rejecting file without '" ++ __NI_SUSE_CONFIG_IFPREFIX
               ++ "' prefix: " ++ filename)
     else if negb (__ni_suse_ifcfg_valid_suffix (ni_basename filename)
                                                ifprefix_len)
     then inr ("Rejecting blacklisted " ++ __NI_SUSE_CONFIG_IFPREFIX
               ++ "file: " ++ filename)
     else inl (string_drop ifprefix_len (ni_basename filename)))
    = @inl string string n ->
    ni_basename filename = ("ifcfg-" ++ n)%string).
  { unfold __ni_suse_ifcfg_valid_prefix.
    destruct (strncmp_eq _ (ni_basename filename) _) eqn:Hpfx; cbn [negb];
      [| discriminate].
    destruct (__ni_suse_ifcfg_valid_suffix _ _); cbn [negb];
      [| discriminate].
    intros [= <-]. exact (strncmp_eq_prefix "ifcfg-" _ Hpfx). }
  destruct ifname as [[| c r] |]; try exact Hbase. now intros [= <-].
Qed.

End ReadInterfaceFacts.

(** X20: the device of a configuration that [__ni_suse_read_interface]
    returns has a name that [__ni_suse_valid_ifname] accepts, of 1 to 15
    characters with no slash among them; it is the name given, or, when
    none was given, what follows [ifcfg-] in the base name of the file. *)
Theorem read_interface_device_name :
  forall {D B : Type} {SO : SysconfigOps} {AO : AddressOps} {FO : FileOps}
         {BO : BridgeOps D} {LO : LinkOps B} {IO : InterfaceFileOps}
         (g : suse_globals ni_sysconfig_t) (filename : string)
         (ifname : option string) (st : suse_compat D B) (log : list string),
    __ni_suse_read_interface g filename ifname = (Some st, log) ->
    __ni_suse_valid_ifname (name (dev (compat st))) = true
    /\ (0 < String.length (name (dev (compat st))) < 16)%nat
    /\ ~ In "/"%char (list_ascii_of_string (name (dev (compat st))))
    /\ match ifname with
       | Some (String c r) => name (dev (compat st)) = String c r
       | _ => ni_basename filename
              = ("ifcfg-" ++ name (dev (compat st)))%string
       end.
Proof.
  intros D B SO AO FO BO LO IO g filename ifname st log Hrun.
  destruct (read_interface_cases g filename ifname)
    as [[Hnone _] | (n & sc & Hn & Hvalid & Hsc & Hsome)].
  - rewrite Hrun in Hnone. discriminate.
  - rewrite Hrun in Hsome. injection Hsome as -> ->.
    pose proof (sysconfig_read_cases g sc
                  (mk_suse_compat (ni_compat_netdev_new n) None None))
      as (_ & Hname & _).
    cbn [compat ni_compat_netdev_new dev __ni_interface_new name] in Hname.
    rewrite Hname.
    destruct (valid_ifname_shape n Hvalid) as [Hlen Hchars].
    repeat split; try assumption; try lia.
    + intros Hin. specialize (Hchars _ Hin). discriminate.
    + exact (read_interface_name_cases filename ifname n Hn).
Qed.

Lemma read_interface_device_name_witness :
  __ni_suse_valid_ifname "br0" = true
  /\ (0 < String.length "br0" < 16)%nat
  /\ ~ In "/"%char (list_ascii_of_string "br0")
  /\ MoreReference.basename "/etc/sysconfig/network/ifcfg-br0" = "ifcfg-br0".
Proof.
  exact (read_interface_device_name (D := string)
           (B := MoreReference.bond)
           (SO := Reference.sysconfig_ops) (AO := Reference.address_ops)
           (FO := Reference.file_ops []) (BO := Reference.bridge_ops)
           (LO := MoreReference.link_ops)
           (IO := MoreReference.interface_file_ops
              [("/etc/sysconfig/network/ifcfg-br0",
                Samples.ifcfg "br0" [Reference.var "BRIDGE" "yes";
                                     Reference.var "BRIDGE_STP" "maybe"])])
           Samples.no_globals "/etc/sysconfig/network/ifcfg-br0" None
           _ _ eq_refl).
Defined.

(** X21: [__ni_suse_read_interface] returns NULL exactly when the
    interface name is rejected or the file cannot be read; what the file
    holds never makes it fail: [__ni_suse_sysconfig_read] returns 0 even
    when a recognizer has logged an error. *)
Theorem read_interface_fails_only_on_name_or_file :
  forall {D B : Type} {SO : SysconfigOps} {AO : AddressOps} {FO : FileOps}
         {BO : BridgeOps D} {LO : LinkOps B} {IO : InterfaceFileOps}
         (g : suse_globals ni_sysconfig_t) (filename : string)
         (ifname : option string),
    fst (__ni_suse_read_interface (D := D) (B := B) g filename ifname) <> None
    <-> exists n,
          read_interface_name filename ifname = inl n
          /\ __ni_suse_valid_ifname n = true
          /\ ni_sysconfig_read filename <> None.
Proof.
  intros D B SO AO FO BO LO IO g filename ifname.
  destruct (read_interface_cases (D := D) (B := B) g filename ifname)
    as [[Hnone Hno] | (n & sc & Hn & Hvalid & Hsc & Hsome)].
  - split; [congruence |]. intros (n & Hn & Hvalid & Hsc).
    destruct (ni_sysconfig_read filename) as [sc |] eqn:Hread;
      [| congruence].
    exfalso. exact (Hno n sc Hn Hvalid eq_refl).
  - rewrite Hsome. cbn [fst]. split; [| discriminate].
    intros _. exists n. rewrite Hsc. repeat split; try assumption.
    discriminate.
Qed.

(** X22: an interface named [lo] is taken for the loopback device before
    any other recognizer runs: after [__ni_suse_sysconfig_read] its link
    type is loopback, and no bonding or VLAN object was made for it,
    whatever BRIDGE, BONDING_MASTER, ETHERDEVICE or TUNNEL say. *)
Theorem loopback_is_recognized_first :
  forall {D B : Type} {SO : SysconfigOps} {AO : AddressOps} {FO : FileOps}
         {BO : BridgeOps D} {LO : LinkOps B}
         (g : suse_globals ni_sysconfig_t) (sc : ni_sysconfig_t)
         (st : suse_compat D B),
    name (dev (compat st)) = "lo" ->
    link_type (dev (compat (snd (fst (__ni_suse_sysconfig_read g sc st)))))
    = NI_IFTYPE_LOOPBACK
    /\ compat_bonding (snd (fst (__ni_suse_sysconfig_read g sc st)))
       = compat_bonding st
    /\ compat_vlan (snd (fst (__ni_suse_sysconfig_read g sc st)))
       = compat_vlan st.
Proof.
  intros D B SO AO FO BO LO g sc st Hlo.
  unfold __ni_suse_sysconfig_read. cbv zeta.
  set (c1 := __ni_suse_sysconfig_read_control sc (compat st)).
  assert (Hdev : dev c1 = dev (compat st)).
  { subst c1. unfold __ni_suse_sysconfig_read_control.
    now destruct (ni_sysconfig_get_value sc "STARTMODE"). }
  set (ifp1 := match ni_sysconfig_get_integer sc "MTU" with
               | Some mtu => with_link_mtu (dev c1) mtu
               | None => dev c1
               end).
  assert (Hifp1 : name ifp1 = "lo").
  { subst ifp1. rewrite <- Hlo, <- Hdev.
    now destruct (ni_sysconfig_get_integer sc "MTU"). }
  unfold recognize_link, try_loopback. cbn [netdev]. rewrite Hifp1.
  cbn [streq String.eqb Ascii.eqb Bool.eqb negb].
  pose proof (bootproto_link g sc
    (with_dev c1
       (netdev (with_netdev
                  (mk_suse_netdev ifp1 (compat_bonding st) (compat_vlan st))
                  (with_link_type ifp1 NI_IFTYPE_LOOPBACK))))) as [_ Htype].
  destruct (__ni_suse_bootproto g sc _) as [c3 log3].
  cbn [fst snd compat compat_bonding compat_vlan with_netdev bonding vlan] in *.
  now repeat split.
Qed.

Lemma loopback_is_recognized_first_witness :
  option_map (fun st => link_type (dev (compat st)))
    (fst (MoreReference.read_interface_of
            [("/etc/sysconfig/network/ifcfg-lo",
              Samples.ifcfg "lo" [Reference.var "BRIDGE" "yes";
                                  Reference.var "BONDING_MASTER" "yes";
                                  Reference.var "ETHERDEVICE" "eth0"])]
            "/etc/sysconfig/network/ifcfg-lo" None))
  = Some NI_IFTYPE_LOOPBACK.
Proof.
  change (Some (link_type (dev (compat (snd (fst
            (__ni_suse_sysconfig_read (D := string) (B := MoreReference.bond)
               (SO := Reference.sysconfig_ops) (AO := Reference.address_ops)
               (FO := Reference.file_ops []) (BO := Reference.bridge_ops)
               (LO := MoreReference.link_ops)
               Samples.no_globals
               (Samples.ifcfg "lo" [Reference.var "BRIDGE" "yes";
                                    Reference.var "BONDING_MASTER" "yes";
                                    Reference.var "ETHERDEVICE" "eth0"])
               (mk_suse_compat (ni_compat_netdev_new "lo") None None)))))))
          = Some NI_IFTYPE_LOOPBACK).
  apply f_equal.
  apply (loopback_is_recognized_first (D := string) (B := MoreReference.bond)
           (SO := Reference.sysconfig_ops) (AO := Reference.address_ops)
           (FO := Reference.file_ops []) (BO := Reference.bridge_ops)
           (LO := MoreReference.link_ops)
           Samples.no_globals
           (Samples.ifcfg "lo" [Reference.var "BRIDGE" "yes";
                                Reference.var "BONDING_MASTER" "yes";
                                Reference.var "ETHERDEVICE" "eth0"])
           (mk_suse_compat (ni_compat_netdev_new "lo") None None) eq_refl).
Defined.

(** X23: [try_tunnel] returns TRUE whether or not TUNNEL is set, so the
    chain of recognizers never reaches [try_ethernet]: for an interface
    that is not [lo] and has no bonding, bridge, VLAN, wireless or tunnel
    variable, the device is left as it was and nothing is logged, also
    when ETHTOOL_OPTIONS is set. *)
Theorem ethtool_options_are_never_read :
  forall {D B : Type} {SO : SysconfigOps} {BO : BridgeOps D} {LO : LinkOps B}
         (sc : ni_sysconfig_t) (nd : suse_netdev D B),
    name (netdev nd) <> "lo" ->
    ni_sysconfig_get_boolean sc "BONDING_MASTER" <> Some true ->
    ni_sysconfig_get_boolean sc "BRIDGE" <> Some true ->
    ni_sysconfig_get_value sc "ETHERDEVICE" = None ->
    ni_sysconfig_get sc "WIRELESS_ESSID" = None ->
    ni_sysconfig_get_value sc "TUNNEL" = None ->
    recognize_link sc nd = (nd, []).
Proof.
  intros D B SO BO LO sc nd Hlo Hbond Hbridge Hvlan Hwifi Htunnel.
  unfold recognize_link, try_loopback.
  assert (Hname : streq (name (netdev nd)) "lo" = false).
  { unfold streq. now apply String.eqb_neq. }
  rewrite Hname. cbn [negb].
  assert (Hnd : with_netdev nd (netdev nd) = nd) by now destruct nd.
  rewrite Hnd.
  assert (H2 : try_bonding sc nd = (false, nd, [])).
  { unfold try_bonding.
    destruct (ni_sysconfig_get_boolean sc "BONDING_MASTER") as [[|] |];
      congruence. }
  rewrite H2.
  assert (H3 : try_bridge sc (netdev nd) = (false, netdev nd, [])).
  { unfold try_bridge.
    destruct (ni_sysconfig_get_boolean sc "BRIDGE") as [[|] |]; congruence. }
  rewrite H3, Hnd.
  assert (H4 : try_vlan sc nd = (false, nd, [])).
  { unfold try_vlan. now rewrite Hvlan. }
  rewrite H4.
  assert (H5 : try_wireless sc (netdev nd) = (false, netdev nd, [])).
  { unfold try_wireless. now rewrite Hwifi. }
  rewrite H5, Hnd.
  assert (H6 : try_tunnel sc (netdev nd) = (true, netdev nd)).
  { unfold try_tunnel. now rewrite Htunnel. }
  rewrite H6, Hnd. reflexivity.
Qed.

Lemma ethtool_options_are_never_read_witness :
  MoreReference.link_of
    (Samples.ifcfg "eth0" [Reference.var "ETHTOOL_OPTIONS" "speed 1000"])
    "eth0"
  = (MoreReference.new_netdev "eth0", [])
  /\ link_type (netdev (MoreReference.new_netdev "eth0")) = NI_IFTYPE_UNKNOWN.
Proof.
  split; [| reflexivity].
  apply (ethtool_options_are_never_read (D := string)
           (B := MoreReference.bond) (SO := Reference.sysconfig_ops)
           (BO := Reference.bridge_ops) (LO := MoreReference.link_ops)
           (Samples.ifcfg "eth0"
              [Reference.var "ETHTOOL_OPTIONS" "speed 1000"])
           (MoreReference.new_netdev "eth0"));
    try discriminate; reflexivity.
Defined.

(** X24: the control policy that [__ni_suse_sysconfig_read] leaves is the
    one that [__ni_suse_startmode] gives for STARTMODE, and the device
    keeps its name: the recognizers and the boot protocol write neither. *)
Theorem sysconfig_read_control_is_startmode :
  forall {D B : Type} {SO : SysconfigOps} {AO : AddressOps} {FO : FileOps}
         {BO : BridgeOps D} {LO : LinkOps B}
         (g : suse_globals ni_sysconfig_t) (sc : ni_sysconfig_t)
         (st : suse_compat D B),
    control (compat (snd (fst (__ni_suse_sysconfig_read g sc st))))
    = Some (__ni_suse_startmode (ni_sysconfig_get_value sc "STARTMODE"))
    /\ name (dev (compat (snd (fst (__ni_suse_sysconfig_read g sc st)))))
       = name (dev (compat st)).
Proof.
  intros D B SO AO FO BO LO g sc st.
  destruct (sysconfig_read_cases g sc st) as (_ & Hname & Hcontrol).
  now split.
Qed.

(* ------------------------------------------------------------------ *)
(** ** Bonding options *)

Lemma split_at_char_found :
  forall (c : ascii) (s h t : string),
    split_at_char c s = (h, Some t) ->
    s = (h ++ String c t)%string /\ ~ In c (list_ascii_of_string h).
Proof.
  intros c. induction s as [| x r IH]; intros h t; cbn [split_at_char];
    [discriminate |].
  destruct (Ascii.eqb_spec x c) as [-> | Hne].
  - intros [= <- <-]. split; [reflexivity | intros []].
  - destruct (split_at_char c r) as [h' t'] eqn:Hsplit.
    intros [= <- ->]. destruct (IH h' t eq_refl) as [Hr Hnot].
    cbn [append list_ascii_of_string In]. split; [now rewrite <- Hr |].
    intros [Hx | Hin]; [now apply Hne | now apply Hnot].
Qed.

Section BondingOptionFacts.
Context {D B : Type} {LO : LinkOps B}.

Lemma bonding_options_loop_accepts :
  forall (ifname options : string) (temp : list string) (bond : B),
    fst (fst (bonding_options_loop ifname options temp bond)) = true ->
    Forall key_value_option temp.
Proof.
  intros ifname options. induction temp as [| entry rest IH]; intros bond;
    [constructor |].
  cbn [bonding_options_loop].
  destruct (split_at_char "=" entry) as [key val] eqn:Hsplit.
  destruct key as [| k0 kr]; [discriminate |].
  destruct val as [[| v0 vr] |]; try discriminate.
  destruct (ni_bonding_set_option bond (String k0 kr) (String v0 vr))
    as [[|] bond']; [| discriminate].
  intros Hrest. constructor; [| exact (IH bond' Hrest)].
  exists (String k0 kr), (String v0 vr).
  destruct (split_at_char_found _ _ _ _ Hsplit) as [Hentry Hkey].
  split; [exact Hentry |]. split; [discriminate |].
  split; [discriminate | exact Hkey].
Qed.

End BondingOptionFacts.

(** X25: [try_set_bonding_options] returns TRUE only for a device of link
    type bond and only when every option of BONDING_MODULE_OPTS has the
    form [key=value], split at its first [=], with neither part empty; an
    option without [=], or with nothing before or after its first [=],
    makes it fail. *)
Theorem bonding_options_need_key_and_value :
  forall {D B : Type} {LO : LinkOps B} (nd : suse_netdev D B)
         (options : string),
    fst (fst (try_set_bonding_options nd options)) = true ->
    link_type (netdev nd) = NI_IFTYPE_BOND
    /\ Forall key_value_option (ni_string_split options blank_chars).
Proof.
  intros D B LO nd options. unfold try_set_bonding_options.
  unfold ni_netdev_get_bonding.
  destruct (Z.eqb_spec (link_type (netdev nd)) NI_IFTYPE_BOND) as [Ht | Ht];
    cbn [negb]; [| discriminate].
  assert (Hloop : forall bond : B,
            fst (fst (let '(ok, bond', log) :=
                        bonding_options_loop (name (netdev nd)) options
                          (ni_string_split options blank_chars) bond in
                      (ok, with_bonding nd (Some bond'), log))) = true ->
            link_type (netdev nd) = NI_IFTYPE_BOND
            /\ Forall key_value_option
                      (ni_string_split options blank_chars)).
  { intros bond.
    pose proof (bonding_options_loop_accepts (name (netdev nd)) options
                  (ni_string_split options blank_chars) bond) as Hacc.
    destruct (bonding_options_loop _ _ _ bond) as [[ok bond'] log].
    cbn [fst] in *. auto. }
  destruct (bonding nd); apply Hloop.
Qed.

Lemma bonding_options_need_key_and_value_witness :
  link_type
    (with_link_type (@__ni_interface_new string "bond0" 0) NI_IFTYPE_BOND)
  = NI_IFTYPE_BOND
  /\ Forall key_value_option
            (strtok_all blank_chars "mode=active-backup miimon=100").
Proof.
  exact (bonding_options_need_key_and_value (D := string)
           (LO := MoreReference.link_ops)
           (mk_suse_netdev
              (with_link_type (__ni_interface_new "bond0" 0) NI_IFTYPE_BOND)
              None None)
           "mode=active-backup miimon=100" eq_refl).
Defined.

(* ------------------------------------------------------------------ *)
(** ** Guessing the link type *)

Lemma ifname_types_loop_result :
  forall {D : Type} (map : list (string * Z)) (ifp : ni_netdev_t D),
    name (ifname_types_loop map ifp) = name ifp
    /\ (link_type (ifname_types_loop map ifp) = link_type ifp
        \/ In (link_type (ifname_types_loop map ifp)) (List.map snd map)).
Proof.
  intros D. induction map as [| [map_name map_value] rest IH]; intros ifp;
    cbn [ifname_types_loop List.map snd In]; [auto |].
  cbv zeta. destruct (strncmp_eq _ _ _ && digit_at _ _).
  - split; [reflexivity |]. right. left. reflexivity.
  - destruct (IH ifp) as [Hname [Hsame | Hin]]; auto.
Qed.

(** X26: [ni_interface_guess_type] settles the link type: the value it
    returns is the link type the interface has afterwards and is never
    "unknown", a second call returns the same and changes nothing, the
    name is kept, and an interface whose type was known is left as it
    was. *)
Theorem guess_type_settles_the_link_type :
  forall {D : Type} (ifp : ni_netdev_t D),
    fst (ni_interface_guess_type ifp)
    = link_type (snd (ni_interface_guess_type ifp))
    /\ fst (ni_interface_guess_type ifp) <> NI_IFTYPE_UNKNOWN
    /\ ni_interface_guess_type (snd (ni_interface_guess_type ifp))
       = ni_interface_guess_type ifp
    /\ name (snd (ni_interface_guess_type ifp)) = name ifp
    /\ (link_type ifp <> NI_IFTYPE_UNKNOWN ->
        snd (ni_interface_guess_type ifp) = ifp).
Proof.
  intros D ifp.
  assert (Hknown : forall i : ni_netdev_t D,
            link_type i <> NI_IFTYPE_UNKNOWN ->
            ni_interface_guess_type i = (link_type i, i)).
  { intros i Hi. unfold ni_interface_guess_type.
    destruct (Z.eqb_spec (link_type i) NI_IFTYPE_UNKNOWN); [contradiction |].
    reflexivity. }
  destruct (Z.eq_dec (link_type ifp) NI_IFTYPE_UNKNOWN) as [Hunknown | Hk].
  - assert (Hguess : exists i : ni_netdev_t D,
              ni_interface_guess_type ifp = (link_type i, i)
              /\ link_type i <> NI_IFTYPE_UNKNOWN /\ name i = name ifp).
    { unfold ni_interface_guess_type. rewrite Hunknown. cbn [Z.eqb negb].
      cbv zeta. destruct (streq _ "lo").
      - eexists. split; [reflexivity |]. split; [discriminate | reflexivity].
      - eexists. split; [reflexivity |].
        destruct (ifname_types_loop_result __ifname_types
                    (with_link_type ifp NI_IFTYPE_ETHERNET))
          as [Hname [Hsame | Hin]].
        + rewrite Hsame. split; [discriminate | exact Hname].
        + split; [| exact Hname].
          cbn [__ifname_types List.map snd In] in Hin.
          intros Hzero. rewrite Hzero in Hin.
          repeat (destruct Hin as [Hin | Hin]; [discriminate |]).
          contradiction. }
    destruct Hguess as (i & Hi & Htype & Hname). rewrite Hi. cbn [fst snd].
    repeat split; try assumption.
    + now apply Hknown.
    + congruence.
  - rewrite (Hknown ifp Hk). cbn [fst snd].
    repeat split; try assumption. now apply Hknown.
Qed.

(** X27: for an interface of unknown link type, [ni_interface_guess_type]
    goes by the name: a name that begins with [ib], [ip6tunl], [ipip],
    [sit] or [tun] followed by a digit gets the link type that
    [__ifname_types] lists for that prefix. *)
Theorem guess_type_goes_by_name_prefix :
  forall {D : Type} (ifp : ni_netdev_t D) (pfx rest : string) (d : ascii)
         (type : Z),
    link_type ifp = NI_IFTYPE_UNKNOWN ->
    In (pfx, type) __ifname_types ->
    isdigit d = true ->
    name ifp = (pfx ++ String d rest)%string ->
    fst (ni_interface_guess_type ifp) = type.
Proof.
  intros D [n t m b a r l] pfx rest d type Ht Hin Hd Hname.
  cbn [link_type name] in *. subst t n.
  unfold ni_interface_guess_type. cbn [link_type Z.eqb negb]. cbv zeta.
  cbn [__ifname_types In] in Hin.
  repeat (destruct Hin as [[= <- <-] | Hin]; [
    cbn -[isdigit]; rewrite Hd; reflexivity |]).
  contradiction.
Qed.

Lemma guess_type_goes_by_name_prefix_witness :
  fst (ni_interface_guess_type (@__ni_interface_new unit "sit0" 3))
  = NI_IFTYPE_SIT
  /\ fst (ni_interface_guess_type (@__ni_interface_new unit "ipip12" 4))
     = NI_IFTYPE_TUNNEL.
Proof.
  split.
  - apply (guess_type_goes_by_name_prefix (D := unit)
             (__ni_interface_new "sit0" 3) "sit" "" "0"%char NI_IFTYPE_SIT);
      try reflexivity. cbn. tauto.
  - apply (guess_type_goes_by_name_prefix (D := unit)
             (__ni_interface_new "ipip12" 4) "ipip" "2" "1"%char
             NI_IFTYPE_TUNNEL);
      try reflexivity. cbn. tauto.
Defined.

(* ------------------------------------------------------------------ *)
(** ** Interface types and ARP hardware types *)

(** X28: [ni_iftype_to_arphrd_type] undoes [ni_arphrd_type_to_iftype] on
    the ARP hardware types of the table but one: each comes back as it
    was, except ARPHRD_CSLIP, which comes back as ARPHRD_SLIP.  Any other
    value is taken for an interface of unknown type and comes back as
    ARPHRD_NONE. *)
Theorem arphrd_type_round_trip :
  forall arp_type : Z,
    -2147483648 <= arp_type < 2147483648 ->
    let known := List.map snd (removelast __ni_arptype_iftype_map) in
    (In arp_type known ->
     ni_iftype_to_arphrd_type (ni_arphrd_type_to_iftype arp_type)
     = if arp_type =? ARPHRD_CSLIP then ARPHRD_SLIP else arp_type)
    /\ (~ In arp_type known ->
        ni_arphrd_type_to_iftype arp_type = NI_IFTYPE_UNKNOWN
        /\ ni_iftype_to_arphrd_type (ni_arphrd_type_to_iftype arp_type)
           = ARPHRD_NONE).
Proof.
  intros a Ha known. subst known. split.
  - cbn [__ni_arptype_iftype_map removelast List.map snd In].
    intros Hin.
    repeat (destruct Hin as [<- | Hin]; [reflexivity |]). contradiction.
  - intros Hnot.
    assert (Hne : forall c, In c (List.map snd
                                    (removelast __ni_arptype_iftype_map)) ->
                            (c =? to_uint a) = false).
    { intros c Hc. apply Z.eqb_neq. intros Heq.
      assert (Hrange : 0 <= c < 2147483648).
      { cbn [__ni_arptype_iftype_map removelast List.map snd In] in Hc.
        repeat (destruct Hc as [<- | Hc];
                [unfold ARPHRD_LOOPBACK, ARPHRD_ETHER, ARPHRD_INFINIBAND,
                   ARPHRD_PPP, ARPHRD_SLIP, ARPHRD_CSLIP, ARPHRD_SIT,
                   ARPHRD_IPGRE, ARPHRD_TUNNEL, ARPHRD_TUNNEL6; lia |]).
        contradiction. }
      assert (Hsame : c = a).
      { unfold to_uint in Heq.
        destruct (Z_lt_ge_dec a 0) as [Hneg | Hpos].
        - replace (a mod 4294967296) with (a + 4294967296) in Heq.
          + lia.
          + apply Z.mod_unique with (q := -1); lia.
        - rewrite Z.mod_small in Heq by lia. exact Heq. }
      rewrite Hsame in Hc. contradiction. }
    unfold ni_arphrd_type_to_iftype, ni_iftype_to_arphrd_type.
    cbn [__ni_arptype_iftype_map arphrd_type_loop].
    cbn [__ni_arptype_iftype_map removelast List.map snd In] in Hne.
    rewrite !Hne by tauto. split; reflexivity.
Qed.

Lemma arphrd_type_round_trip_witness :
  (In ARPHRD_CSLIP
      (List.map snd (removelast __ni_arptype_iftype_map)) ->
   ni_iftype_to_arphrd_type (ni_arphrd_type_to_iftype ARPHRD_CSLIP)
   = ARPHRD_SLIP)
  /\ (~ In ARPHRD_CSLIP
           (List.map snd (removelast __ni_arptype_iftype_map)) ->
      ni_arphrd_type_to_iftype ARPHRD_CSLIP = NI_IFTYPE_UNKNOWN
      /\ ni_iftype_to_arphrd_type (ni_arphrd_type_to_iftype ARPHRD_CSLIP)
         = ARPHRD_NONE).
Proof.
  apply (arphrd_type_round_trip ARPHRD_CSLIP). unfold ARPHRD_CSLIP. lia.
Defined.

(* ------------------------------------------------------------------ *)
(** ** Bridge ports *)

Section BridgePortFacts.
Context {D : Type}.

Lemma bridge_ports_loop_all_valid :
  forall (ifname value : string) (names : list string) (b : ni_bridge_t D),
    forallb __ni_suse_valid_ifname names = true ->
    bridge_ports_loop ifname value names b
    = Go (with_ports b
            (ports b
             ++ List.map (fun n => mk_port n NI_BRIDGE_VALUE_NOT_SET
                                           NI_BRIDGE_VALUE_NOT_SET)
                         names)%list).
Proof.
  intros ifname value. induction names as [| n rest IH]; intros b Hall.
  - cbn [bridge_ports_loop List.map]. rewrite app_nil_r. now destruct b.
  - cbn [forallb] in Hall. apply andb_true_iff in Hall.
    destruct Hall as [Hn Hrest].
    cbn [bridge_ports_loop List.map]. rewrite Hn. cbn [negb].
    rewrite (IH _ Hrest). unfold ni_bridge_port_new.
    destruct b. cbn. now rewrite <- app_assoc.
Qed.

Lemma bridge_ports_loop_some_invalid :
  forall (ifname value : string) (names : list string) (b : ni_bridge_t D),
    forallb __ni_suse_valid_ifname names = false ->
    exists b' msg, bridge_ports_loop ifname value names b = Stop b' msg.
Proof.
  intros ifname value. induction names as [| n rest IH]; intros b Hall;
    [discriminate |].
  cbn [forallb] in Hall. cbn [bridge_ports_loop].
  destruct (__ni_suse_valid_ifname n); cbn [negb andb] in *.
  - now apply IH.
  - eauto.
Qed.

End BridgePortFacts.

(** X29: the BRIDGE_PORTS block of [try_bridge] makes one port for every
    name in the value, in the order written and after the ports the bridge
    had, each with priority and path cost not set, provided every name
    passes [__ni_suse_valid_ifname]; one name that does not pass makes the
    block give up with an error. *)
Theorem bridge_ports_follow_the_names :
  forall {D : Type} {SO : SysconfigOps}
         (sc : ni_sysconfig_t) (ifname value : string) (b : ni_bridge_t D),
    ni_sysconfig_get_value sc "BRIDGE_PORTS" = Some value ->
    if forallb __ni_suse_valid_ifname (strtok_all blank_chars value)
    then bridge_ports_step sc ifname b
         = Go (with_ports b
                 (ports b
                  ++ List.map (fun n => mk_port n NI_BRIDGE_VALUE_NOT_SET
                                                NI_BRIDGE_VALUE_NOT_SET)
                              (strtok_all blank_chars value))%list)
    else exists b' msg, bridge_ports_step sc ifname b = Stop b' msg.
Proof.
  intros D SO sc ifname value b Hvalue. unfold bridge_ports_step.
  rewrite Hvalue.
  destruct (forallb __ni_suse_valid_ifname (strtok_all blank_chars value))
    eqn:Hall.
  - now apply bridge_ports_loop_all_valid.
  - now apply bridge_ports_loop_some_invalid.
Qed.

Lemma bridge_ports_follow_the_names_witness :
  bridge_ports_step (SO := Reference.sysconfig_ops)
    (Samples.ifcfg "br0" [Reference.var "BRIDGE_PORTS" "eth1 eth0"]) "br0"
    (@ni_bridge_new string Reference.bridge_ops)
  = Go (with_ports (@ni_bridge_new string Reference.bridge_ops)
          [mk_port "eth1" NI_BRIDGE_VALUE_NOT_SET NI_BRIDGE_VALUE_NOT_SET;
           mk_port "eth0" NI_BRIDGE_VALUE_NOT_SET NI_BRIDGE_VALUE_NOT_SET]).
Proof.
  exact (bridge_ports_follow_the_names (D := string)
           (SO := Reference.sysconfig_ops)
           (Samples.ifcfg "br0" [Reference.var "BRIDGE_PORTS" "eth1 eth0"])
           "br0" "eth1 eth0" (@ni_bridge_new string Reference.bridge_ops)
           eq_refl).
Defined.
